(** * Horserace: run history, run index and cross-run comparison

    A shallow embedding of [run-benchmark.js] and [compare-runs.js].  The
    browser probe of [playwright-benchmark.js] and the load probe of the
    earlier revision of [run-benchmark.js] follow the sample data.

    - Strings are [string]; a character is a code unit below 256.  String
      literals that hold other characters (the report's pictographs) stand
      for themselves and are never inspected by the code.
    - Timing values are JSON numbers.  The code only orders them and tests
      them for equality, zero and [undefined]; they are integers here
      (milliseconds), a missing field is [None].
    - A timestamp is the UTC date and time that [toISOString] prints and
      that [new Date(...)] reads back; [Date_ms] is its time value.
    - Files are kept by what [JSON.parse] makes of them; writing a file
      and making a directory succeed.
    - An object looks a name up among its own properties first and then
      on its prototype chain; [Object.keys] lists the own ones.
    - The targets of [targets.json] are a plain object, as its format has
      them; the [name] and the [url] of a target are strings.
    - Code that throws lives in the monad [M]: the console, the clock and
      the files under [results/] are its state, thrown errors its failure. *)

From Stdlib Require Import ZArith String Ascii List Lia DecimalString.
From stdpp Require Import base option list strings gmap sorting.

Local Open Scope string_scope.
Local Open Scope list_scope.

(** ** JavaScript string primitives used by the source *)

Module JS.

Definition char_in (cs : list ascii) (c : ascii) : bool :=
  existsb (Ascii.eqb c) cs.

(** [s.replace(/[cs]/g, r)]: every character of the class becomes [r]. *)
Fixpoint replace_class (cs : list ascii) (r : ascii) (s : string) : string :=
  match s with
  | EmptyString => EmptyString
  | String c s' => String (if char_in cs c then r else c) (replace_class cs r s')
  end.

(** [s.split(sep)] for a one-character separator, as its first piece and
    the pieces after it: the result of [split] is never empty. *)
Fixpoint split_pieces (sep : ascii) (s : string) : string * list string :=
  match s with
  | EmptyString => (EmptyString, [])
  | String c s' =>
      let (h, t) := split_pieces sep s' in
      if Ascii.eqb c sep then (EmptyString, h :: t) else (String c h, t)
  end.

Definition split (sep : ascii) (s : string) : list string :=
  let (h, t) := split_pieces sep s in h :: t.

(** White space of ECMAScript among the code units below 256: TAB, LF, VT,
    FF, CR, SP and NBSP. *)
Definition is_space (c : ascii) : bool :=
  let n := nat_of_ascii c in
  ((9 <=? n) && (n <=? 13) || (n =? 32) || (n =? 160))%nat.

Fixpoint trimStart (s : string) : string :=
  match s with
  | EmptyString => EmptyString
  | String c s' => if is_space c then trimStart s' else s
  end.

Fixpoint trimEnd (s : string) : string :=
  match s with
  | EmptyString => EmptyString
  | String c s' =>
      match trimEnd s' with
      | EmptyString => if is_space c then EmptyString else String c EmptyString
      | t => String c t
      end
  end.

Definition trim (s : string) : string := trimEnd (trimStart s).

(** Truthiness of a string: only the empty string is falsy. *)
Definition truthy (s : string) : bool :=
  match s with EmptyString => false | _ => true end.

(** Truthiness of an optional string property ([undefined] is falsy). *)
Definition truthy_opt (o : option string) : bool :=
  match o with Some s => truthy s | None => false end.

(** Truthiness of an optional number ([undefined] and [0] are falsy). *)
Definition truthy_num (o : option Z) : bool :=
  match o with Some z => negb (z =? 0)%Z | None => false end.

(** [a.join(sep)]. *)
Fixpoint join (sep : string) (l : list string) : string :=
  match l with
  | [] => EmptyString
  | [x] => x
  | x :: rest => x +:+ sep +:+ join sep rest
  end.

(** [sep.repeat(n)]. *)
Fixpoint repeat_string (s : string) (n : nat) : string :=
  match n with
  | O => EmptyString
  | S n' => s +:+ repeat_string s n'
  end.

(** Template interpolation of a number. *)
Definition show (z : Z) : string := NilZero.string_of_int (Z.to_int z).

Definition is_upper (c : ascii) : bool :=
  let n := nat_of_ascii c in ((65 <=? n) && (n <=? 90))%nat.

(** [s.replace(/([A-Z])/g, ' $1')]. *)
Fixpoint space_before_caps (s : string) : string :=
  match s with
  | EmptyString => EmptyString
  | String c s' =>
      if is_upper c then String " " (String c (space_before_caps s'))
      else String c (space_before_caps s')
  end.

(** No character of [s] is in the class [cs]. *)
Fixpoint avoids (cs : list ascii) (s : string) : bool :=
  match s with
  | EmptyString => true
  | String c s' => negb (char_in cs c) && avoids cs s'
  end.

(** The string order of [<]: by code units, a proper prefix first. *)
Definition lt (a b : string) : Prop := String.compare a b = Lt.

End JS.

(** Template interpolation of a property that may be [undefined]. *)
Definition show_num (o : option Z) : string :=
  match o with Some z => JS.show z | None => "undefined" end.

Definition show_str (o : option string) : string :=
  match o with Some s => s | None => "undefined" end.

(** The line feed, as a character and as a string. *)
Definition LF : ascii := ascii_of_nat 10.
Definition NL : string := String LF EmptyString.

(** ** Timestamps *)

(** The fields of a UTC date and time, as [toISOString] prints them. *)
Record utc := mkUtc {
  year : Z; month : Z; day : Z;
  hour : Z; minute : Z; second : Z; millisecond : Z
}.

(** The ranges of the fields of a date with a four-digit year. *)
Record utc_wf (t : utc) : Prop := {
  wf_year : (0 <= year t <= 9999)%Z;
  wf_month : (1 <= month t <= 12)%Z;
  wf_day : (1 <= day t <= 31)%Z;
  wf_hour : (0 <= hour t <= 23)%Z;
  wf_minute : (0 <= minute t <= 59)%Z;
  wf_second : (0 <= second t <= 59)%Z;
  wf_millisecond : (0 <= millisecond t <= 999)%Z
}.

Definition digit_char (d : Z) : ascii := ascii_of_nat (48 + Z.to_nat (d mod 10)).

(** The [k] low decimal digits of [n], most significant first. *)
Fixpoint pad (k : nat) (n : Z) : string :=
  match k with
  | O => EmptyString
  | S k' => pad k' (n / 10) +:+ String (digit_char n) EmptyString
  end.

(** The year of an ISO string: four digits, or a sign and six digits
    outside 0..9999. *)
Definition iso_year (y : Z) : string :=
  if ((0 <=? y) && (y <=? 9999))%Z then pad 4 y
  else if (y <? 0)%Z then "-" +:+ pad 6 (- y)
  else "+" +:+ pad 6 y.

(** [Date.prototype.toISOString]: YYYY-MM-DDTHH:mm:ss.sssZ. *)
Definition toISOString (t : utc) : string :=
  iso_year (year t) +:+ "-" +:+ pad 2 (month t) +:+ "-" +:+ pad 2 (day t)
  +:+ "T" +:+ pad 2 (hour t) +:+ ":" +:+ pad 2 (minute t) +:+ ":"
  +:+ pad 2 (second t) +:+ "." +:+ pad 3 (millisecond t) +:+ "Z".

(** Days from 1970-01-01 to a civil date (proleptic Gregorian). *)
Definition days_from_civil (y m d : Z) : Z :=
  let y' := if (m <=? 2)%Z then (y - 1)%Z else y in
  let era := (y' / 400)%Z in
  let yoe := (y' - era * 400)%Z in
  let mp := if (m <=? 2)%Z then (m + 9)%Z else (m - 3)%Z in
  let doy := ((153 * mp + 2) / 5 + d - 1)%Z in
  let doe := (yoe * 365 + yoe / 4 - yoe / 100 + doy)%Z in
  (era * 146097 + doe - 719468)%Z.

(** The time value of [new Date(timestamp)]: milliseconds since the epoch. *)
Definition Date_ms (t : utc) : Z :=
  ((((days_from_civil (year t) (month t) (day t) * 24 + hour t) * 60
     + minute t) * 60 + second t) * 1000 + millisecond t)%Z.

(** [a] falls in an earlier wall-clock second than [b]. *)
Definition earlier_second (a b : utc) : Prop :=
  (year a < year b \/ year a = year b /\
  (month a < month b \/ month a = month b /\
  (day a < day b \/ day a = day b /\
  (hour a < hour b \/ hour a = hour b /\
  (minute a < minute b \/ minute a = minute b /\
   second a < second b)))))%Z.

(** ** Run identifiers ([runAllBenchmarks], lines 108-110) *)

(** [runTimestamp.replace(/[:.]/g, '-').split('T')[0] + '_' +
     runTimestamp.split('T')[1].split('.')[0].replace(/:/g, '-')];
    [None] when [split('T')[1]] is [undefined] (a [TypeError]). *)
Definition runIdOf (runTimestamp : string) : option string :=
  datePart ← head (JS.split "T" (JS.replace_class [":"; "."]%char "-" runTimestamp));
  afterT ← JS.split "T" runTimestamp !! 1%nat;
  timePart ← head (JS.split "." afterT);
  Some (datePart +:+ "_" +:+ JS.replace_class [":"]%char "-" timePart).

(** The identifier of a run started at [t], as the theorems below show. *)
Definition runId_text (t : utc) : string :=
  iso_year (year t) +:+ "-" +:+ pad 2 (month t) +:+ "-" +:+ pad 2 (day t)
  +:+ "_" +:+ pad 2 (hour t) +:+ "-" +:+ pad 2 (minute t) +:+ "-"
  +:+ pad 2 (second t).

(** ** Thrown errors *)

Inductive exn (A : Type) : Type :=
  | Ok (a : A)
  | Throw (message : string).
Arguments Ok {A} a.
Arguments Throw {A} message.

(** ** Objects

    The own properties of an object, in the order in which [Object.keys]
    lists them: the keys that are array indices in ascending order, then
    the other keys in the order of their creation. *)
Definition object (V : Type) : Type := list (string * V).

(** The own property [k]. *)
Fixpoint obj_get {V} (k : string) (o : object V) : option V :=
  match o with
  | [] => None
  | (k', v) :: o' => if decide (k = k') then Some v else obj_get k o'
  end.

Definition obj_keys {V} (o : object V) : list string := fst <$> o.

Definition is_digit (c : ascii) : bool :=
  let n := nat_of_ascii c in ((48 <=? n) && (n <=? 57))%nat.

(** The number that a string of digits writes. *)
Fixpoint digits_value (acc : N) (s : string) : option N :=
  match s with
  | EmptyString => Some acc
  | String c s' =>
      if is_digit c
      then digits_value (acc * 10 + (N_of_ascii c - 48))%N s'
      else None
  end.

(** An array index: the canonical decimal form of an integer from 0 to
    2^32 - 2. *)
Definition array_index (k : string) : option N :=
  match k with
  | EmptyString => None
  | String c rest =>
      if Ascii.eqb c "0" then (if decide (rest = EmptyString) then Some 0%N else None)
      else match digits_value 0 k with
           | Some n => if (n <=? 4294967294)%N then Some n else None
           | None => None
           end
  end.

(** A new key [k] is listed before the key [k']. *)
Definition listed_before (k k' : string) : bool :=
  match array_index k, array_index k' with
  | Some n, Some n' => (n <? n')%N
  | Some _, None => true
  | None, _ => false
  end.

(** A property that the object does not have yet takes its place. *)
Fixpoint obj_insert {V} (k : string) (v : V) (o : object V) : object V :=
  match o with
  | [] => [(k, v)]
  | (k', v') :: o' =>
      if listed_before k k' then (k, v) :: (k', v') :: o'
      else (k', v') :: obj_insert k v o'
  end.

(** A property that the object has keeps its place. *)
Fixpoint obj_replace {V} (k : string) (v : V) (o : object V) : object V :=
  match o with
  | [] => []
  | (k', v') :: o' =>
      if decide (k = k') then (k, v) :: o' else (k', v') :: obj_replace k v o'
  end.

(** [o[k] = v] for a key other than [__proto__], on an object whose
    prototype chain holds no setter for it. *)
Definition obj_set {V} (k : string) (v : V) (o : object V) : object V :=
  if decide (is_Some (obj_get k o)) then obj_replace k v o else obj_insert k v o.

(** The members of [Object.prototype] other than [__proto__]: functions
    all of them.  A lookup finds them in every object that does not have
    the name itself, be it made by [{}] or by [JSON.parse]. *)
Definition prototype_members : list string :=
  ["constructor"; "__defineGetter__"; "__defineSetter__"; "hasOwnProperty";
   "__lookupGetter__"; "__lookupSetter__"; "isPrototypeOf";
   "propertyIsEnumerable"; "toString"; "valueOf"; "toLocaleString"].

(** [o[k] = v] on an object of numbers read only through [!== undefined]:
    a property set to [undefined] reads like a property that is not there. *)
Definition assign (k : string) (v : option Z) (o : gmap string Z) : gmap string Z :=
  match v with
  | Some z => <[k := z]> o
  | None => delete k o
  end.

(** ** Persisted results ([all-results.json])

    The records list the fields that [run-benchmark.js] writes and that
    [generateSummary] and [compare-runs.js] read. *)

Record ProbeTest := mkTest {
  test_name : string;
  test_success : bool;
  test_duration : option Z;
  test_domContentLoaded : option Z;
  test_domInteractive : option Z;
  test_loadComplete : option Z;
  test_ttfb : option Z;
  test_dns : option Z;
  test_tcp : option Z;
  test_download : option Z
}.

Record BrowserResult := mkBrowser {
  tests : list ProbeTest;
  playwright_error : option string
}.

(** What [runK6Benchmark] returns when it does not return [null]: the
    success shape sets [k6_timestamp], [metricsFile] and [totalRequests],
    the failure shape sets [k6_error]. *)
Record LoadResult := mkLoad {
  k6_target : string;
  k6_url : option string;
  k6_timestamp : option utc;
  metricsFile : option string;
  totalRequests : option nat;
  k6_error : option string
}.

(** A target's record; [url] is [None] when the record has none. *)
Record TargetRunRecord := mkTarget {
  target : string;
  url : option string;
  playwright : option BrowserResult;
  k6 : option LoadResult
}.

Record Run := mkRun {
  runId : string;
  timestamp : utc;
  targets : list TargetRunRecord
}.

(** ** compare-runs.js *)

(** [runs/<runId>/all-results.json] as [JSON.parse] reads it. *)
Inductive run_file :=
  | Unparsable (syntaxError : string)
  | Stored (run : Run).

(** [loadRun], lines 8-14. *)
Definition loadRun (runsDir : gmap string run_file) (runId : string) : exn Run :=
  match runsDir !! runId with
  | None => Throw ("Run " +:+ runId +:+ " not found")
  | Some (Unparsable e) => Throw e
  | Some (Stored run) => Ok run
  end.

Record TargetMetrics := mkMetrics {
  tm_target : string;
  tm_url : option string;
  tm_playwright : gmap string Z;
  hasResults : bool;
  tm_metricsFile : option string
}.

(** The body of the loop over a Playwright result's tests, lines 30-41. *)
Definition extractTest (pw : gmap string Z) (test : ProbeTest) : gmap string Z :=
  if decide (test_name test = "page_load") then
    assign "pageLoad" (test_duration test) pw
  else if decide (test_name test = "dom_metrics") then
    assign "loadComplete" (test_loadComplete test)
      (assign "domInteractive" (test_domInteractive test)
        (assign "domContentLoaded" (test_domContentLoaded test) pw))
  else if decide (test_name test = "network_timing") then
    assign "download" (test_download test)
      (assign "tcp" (test_tcp test)
        (assign "dns" (test_dns test)
          (assign "ttfb" (test_ttfb test) pw)))
  else pw.

(** The body of the loop over targets, lines 20-49. *)
Definition extractTarget (t : TargetRunRecord) : TargetMetrics :=
  let pw :=
    match playwright t with
    | Some p =>
        if negb (JS.truthy_opt (playwright_error p))
        then foldl extractTest ∅ (tests p) else ∅
    | None => ∅
    end in
  let ok :=
    match k6 t with
    | Some r => negb (JS.truthy_opt (k6_error r)) && JS.truthy_opt (metricsFile r)
    | None => false
    end in
  {| tm_target := target t; tm_url := url t; tm_playwright := pw;
     hasResults := ok;
     tm_metricsFile := if ok then k6 t ≫= metricsFile else None |}.

(** The object [metrics] of [extractMetrics]: its own properties, and the
    [targetMetrics] that an assignment to [metrics['__proto__']] has put
    in the place of [Object.prototype]. *)
Record MetricsObject := mkObject {
  own : object TargetMetrics;
  proto : option TargetMetrics
}.

(** Line 51, [metrics[target.target] = targetMetrics]: the name
    [__proto__] reaches the setter of [Object.prototype], which makes the
    value the prototype of [metrics] and gives it no property. *)
Definition setTarget (metrics : MetricsObject) (t : TargetRunRecord) : MetricsObject :=
  if decide (target t = "__proto__")
  then {| own := own metrics; proto := Some (extractTarget t) |}
  else {| own := obj_set (target t) (extractTarget t) (own metrics);
          proto := proto metrics |}.

(** [extractMetrics], lines 16-55. *)
Definition extractMetrics (results : Run) : MetricsObject :=
  foldl setTarget {| own := []; proto := None |} (targets results).

Record LoadedRun := mkLoaded {
  lr_runId : string;
  lr_timestamp : utc;
  metrics : MetricsObject
}.

(** What [run.metrics[target]] gives. *)
Inductive found :=
  (** the metrics of a target *)
  | Metrics (tm : TargetMetrics)
  (** another value of the prototype chain that is truthy: a function, a
      string that is not empty, an object without [url] and [playwright] *)
  | Foreign
  (** [undefined], or a string that is empty *)
  | Nothing.

(** [metrics[target]], lines 103, 111, 118, 136 and 173: the own
    property; else what the prototype chain holds under the name.  The
    chain is [Object.prototype], after the [targetMetrics] of a record
    named [__proto__] when there is one; [__proto__] itself names the
    prototype. *)
Definition metrics_get (target : string) (metrics : MetricsObject) : found :=
  match obj_get target (own metrics) with
  | Some tm => Metrics tm
  | None =>
      let inherited :=
        if bool_decide (target ∈ prototype_members) then Foreign else Nothing in
      match proto metrics with
      | Some tm =>
          if decide (target = "__proto__") then Metrics tm
          else if bool_decide (target ∈ ["target"; "playwright"; "k6"]) then Foreign
          else if decide (target = "url")
               then (if JS.truthy_opt (tm_url tm) then Foreign else Nothing)
          else inherited
      | None =>
          if decide (target = "__proto__") then Foreign else inherited
      end
  end.

Definition metricsOf (f : found) : option TargetMetrics :=
  match f with Metrics tm => Some tm | _ => None end.

Definition is_Nothing (f : found) : bool :=
  match f with Nothing => true | _ => false end.

(** [Array.prototype.sort] with a comparator: a stable sort.  With a
    consistent comparator every stable sort gives this result. *)
Fixpoint sort_insert {A} (cmp : A -> A -> Z) (x : A) (l : list A) : list A :=
  match l with
  | [] => [x]
  | y :: l' =>
      if (cmp x y <=? 0)%Z then x :: y :: l' else y :: sort_insert cmp x l'
  end.

Fixpoint Array_sort {A} (cmp : A -> A -> Z) (l : list A) : list A :=
  match l with
  | [] => []
  | x :: l' => sort_insert cmp x (Array_sort cmp l')
  end.

(** The comparator of line 83. *)
Definition byTimestamp (a b : LoadedRun) : Z :=
  (Date_ms (lr_timestamp a) - Date_ms (lr_timestamp b))%Z.

(** [Set.prototype.add]: a set lists its members in insertion order. *)
Definition set_add (x : string) (s : list string) : list string :=
  if decide (x ∈ s) then s else s ++ [x].

(** Lines 87-89: the targets of one run join the set. *)
Definition addTargets (s : list string) (run : LoadedRun) : list string :=
  foldl (fun s target => set_add target s) s (obj_keys (own (metrics run))).

(** Lines 86-89. *)
Definition allTargets (runs : list LoadedRun) : list string :=
  foldl addTargets [] runs.

(** [Math.min(...nums)] and [Math.max(...nums)]; [None] is the infinity
    they give for no argument. *)
Definition Math_min (nums : list Z) : option Z :=
  match nums with [] => None | x :: xs => Some (foldl Z.min x xs) end.

Definition Math_max (nums : list Z) : option Z :=
  match nums with [] => None | x :: xs => Some (foldl Z.max x xs) end.

Inductive marker := Plain | Best | Worst.

(** Lines 149-154: how one value of a row is displayed. *)
Definition display (n : nat) (min max : option Z) (value : Z) : marker :=
  if bool_decide (Some value = min) && (1 <? n)%nat then Best
  else if bool_decide (Some value = max) && (1 <? n)%nat then Worst
  else Plain.

(** The lines pushed to [comparisonLines]; [render] gives their text. *)
Inductive line :=
  | LTitle
  | LBlank
  | LComparedRuns (runIds : list string)
  | LTarget (target : string)
  | LNote
  | LUrl (targetUrl : option string)
  | LPlaywright
  | LHeader (dates : list utc)
  | LRule (columns : nat)
  | LRow (metric : string) (cells : list (marker * Z))
  | LK6
  | LK6Header
  | LK6Rule
  | LK6Row (date : utc) (status : bool).

Definition playwrightMetrics : list string :=
  ["pageLoad"; "domContentLoaded"; "domInteractive"; "ttfb"; "dns"; "tcp"; "download"].

(** Lines 135-167: the row of one available metric, when all runs define it. *)
Definition metricRow (n : nat) (tms : list TargetMetrics) (metric : string) : list line :=
  let values := (fun tm => tm_playwright tm !! metric) <$> tms in
  match mapM id values with
  | Some values =>
      let min := Math_min values in
      let max := Math_max values in
      [LRow metric ((fun value => (display n min max value, value)) <$> values)]
  | None => []
  end.

(** Lines 117-119: the metrics that some run defines; [tms] are the runs'
    metrics of the target, in run order. *)
Definition availableMetrics (tms : list TargetMetrics) : list string :=
  filter (fun metric => Exists (fun tm => is_Some (tm_playwright tm !! metric)) tms)
         playwrightMetrics.

(** Lines 115-188: the tables of a target whose metrics every run has;
    [tms] are the runs' metrics of the target, in run order. *)
Definition targetTables (runs : list LoadedRun) (tms : list TargetMetrics) : list line :=
  let k6Status := hasResults <$> tms in
  (if bool_decide (availableMetrics tms = []) then []
   else [LPlaywright; LBlank; LHeader (lr_timestamp <$> runs);
         LRule (length runs + 1)]
        ++ flat_map (metricRow (length runs) tms) (availableMetrics tms)
        ++ [LBlank])
  ++ (if existsb id k6Status
      then [LK6; LBlank; LK6Header; LK6Rule]
           ++ zip_with (fun run status => LK6Row (lr_timestamp run) status)
                       runs k6Status
           ++ [LBlank]
      else []).

(** Lines 98-188: the body of the loop over [allTargets], as the lines
    that it pushes or the error that it throws.  A run in which the name
    finds a value that is not the metrics of a target passes the test of
    line 103; [playwright] of that value is [undefined], and reading a
    metric of it throws at line 118 or at line 136.  The name of the
    error stands for its message. *)
Definition compareTarget (runs : list LoadedRun) (target : string)
  : exn (list line) :=
  let values := (fun run => metrics_get target (metrics run)) <$> runs in
  if existsb is_Nothing values
  then Ok [LTarget target; LBlank; LNote; LBlank]
  else
    match mapM metricsOf values with
    | Some ((first :: _) as tms) =>
        Ok ([LTarget target; LBlank; LUrl (tm_url first); LBlank]
            ++ targetTables runs tms)
    | Some [] | None => Throw "TypeError"
    end.

(** Lines 97-189: the loop over [allTargets]. *)
Fixpoint compareTargets (runs : list LoadedRun) (targets : list string)
  : exn (list line) :=
  match targets with
  | [] => Ok []
  | target :: rest =>
      match compareTarget runs target with
      | Throw error => Throw error
      | Ok lines =>
          match compareTargets runs rest with
          | Throw error => Throw error
          | Ok more => Ok (lines ++ more)
          end
      end
  end.

(** Lines 67-80: load every run, stopping at the first that fails. *)
Fixpoint loadRuns (runsDir : gmap string run_file) (runIds : list string)
  : string + list LoadedRun :=
  match runIds with
  | [] => inr []
  | runId :: rest =>
      match loadRun runsDir runId with
      | Throw message =>
          inl ("❌ Failed to load run " +:+ runId +:+ ": " +:+ message)
      | Ok run =>
          match loadRuns runsDir rest with
          | inl e => inl e
          | inr runs =>
              inr ({| lr_runId := runId; lr_timestamp := timestamp run;
                      metrics := extractMetrics run |} :: runs)
          end
      end
  end.

(** How [compareRuns] ends: with [process.exit] after a diagnostic, with
    [COMPARISON.md] written, or with an error that nothing catches and
    nothing written. *)
Inductive outcome :=
  | Exit (code : nat) (diagnostic : string)
  | Written (comparisonLines : list line)
  | Thrown (error : string).

(** The runs in report order, line 83. *)
Definition sortRuns (runs : list LoadedRun) : list LoadedRun :=
  Array_sort byTimestamp runs.

(** Lines 85-197: the report on the runs in report order. *)
Definition report (runIds : list string) (runs : list LoadedRun) : outcome :=
  match compareTargets runs (allTargets runs) with
  | Ok sections => Written ([LTitle; LBlank; LComparedRuns runIds; LBlank] ++ sections)
  | Throw error => Thrown error
  end.

(** [compareRuns], lines 57-197; [Written] holds what goes to
    [COMPARISON.md].  The console repeats the notes and rows. *)
Definition compareRuns (runsDir : gmap string run_file) (runIds : list string) : outcome :=
  if (length runIds <? 2)%nat then Exit 1 "❌ Need at least 2 runs to compare"
  else
    match loadRuns runsDir runIds with
    | inl diagnostic => Exit 1 diagnostic
    | inr loaded => report runIds (sortRuns loaded)
    end.

(** A file of the host, as [existsSync] and [readFileSync] find it. *)
Inductive file :=
  | Missing
  | Unreadable (message : string)
  | Text (content : string).

(** A parsed JSON value; an object lists its members as [JSON.parse]
    leaves them, one per key. *)
#[warnings="-register-all"]
Inductive json :=
  | JNull
  | JBool (b : bool)
  | JNumber (z : Z)
  | JString (s : string)
  | JArray (items : list json)
  | JObject (members : object json).

(** The platform functions that depend on the locale or on the host, and
    the host's answers to [run-benchmark.js]. *)
Record host := mkHost {
  (** [new Date(t).toLocaleString()] *)
  toLocaleString : utc -> string;
  (** [s.toUpperCase()] *)
  toUpperCase : string -> string;
  (** [JSON.parse(s)]; [None] when it throws a [SyntaxError] *)
  JSON_parse : string -> option json;
  (** [path.join(a, b)] *)
  path_join : string -> string -> string;
  (** [__dirname]: the directory of the scripts *)
  dirname : string;
  (** the [n]-th reading of the clock by [new Date()] *)
  time_at : nat -> utc;
  (** [execSync(command)]: [None] when the command exits with status 0,
      the message of the error it throws otherwise *)
  exec : string -> option string;
  (** whether the k6 binary is on the search path of the shell; the code
      never asks, it runs [k6 version] *)
  k6_on_path : bool;
  (** a file as it is found once the load test has run *)
  file_at : string -> file;
  (** [runPlaywrightBenchmark(targetName, url, runDir)]; [url] is [None]
      when the argument is [undefined] *)
  runPlaywrightBenchmark : string -> option string -> string -> exn BrowserResult
}.

(** Lines 140-156 and 173-186: the text of a comparison line. *)
Definition render_cell (c : marker * Z) : string :=
  let value := JS.show (snd c) in
  match fst c with
  | Best => " **" +:+ value +:+ "ms** ⚡ |"
  | Worst => " *" +:+ value +:+ "ms* |"
  | Plain => " " +:+ value +:+ "ms |"
  end.

Definition render (h : host) (l : line) : string :=
  match l with
  | LTitle => "# Test Run Comparison"
  | LBlank => ""
  | LComparedRuns runIds => "**Compared Runs:** " +:+ JS.join ", " runIds
  | LTarget target => "## " +:+ toUpperCase h target
  | LNote => "⚠️ **Note:** Not all runs include this target"
  | LUrl targetUrl => "**URL:** " +:+ show_str targetUrl
  | LPlaywright => "### Playwright Metrics"
  | LHeader dates =>
      foldl (fun header date => header +:+ " " +:+ toLocaleString h date +:+ " |")
            "| Metric |" dates
  | LRule columns => "|" +:+ JS.repeat_string "---|" columns
  | LRow metric cells =>
      foldl (fun row c => row +:+ render_cell c)
            ("| " +:+ JS.trim (JS.space_before_caps metric) +:+ " |") cells
  | LK6 => "### k6 Load Tests"
  | LK6Header => "| Run | Status |"
  | LK6Rule => "|-----|--------|"
  | LK6Row date status =>
      "| " +:+ toLocaleString h date +:+ " | "
      +:+ (if status then "✅" else "❌") +:+ " |"
  end.

(** The text written to [COMPARISON.md], line 193. *)
Definition comparisonFile (h : host) (comparisonLines : list line) : string :=
  JS.join NL (render h <$> comparisonLines).

(** ** run-benchmark.js *)

Record RunIndexEntry := mkEntry {
  entry_runId : string;
  entry_timestamp : utc;
  entry_targets : list string
}.

(** [runs-index.json] as [existsSync] and [JSON.parse] find it. *)
Inductive index_file :=
  | NoIndex
  | BadIndex
  | Index (entries : list RunIndexEntry)
  | OtherJson.

Record world := mkWorld {
  clock : nat;
  console : list string;
  runs_index : index_file;
  run_files : gmap string run_file
}.

(** State and thrown errors: what a statement did stays done when it
    throws. *)
Definition M (A : Type) : Type := world -> exn A * world.

Definition ret {A} (a : A) : M A := fun w => (Ok a, w).

Definition bind {A B} (m : M A) (k : A -> M B) : M B :=
  fun w => match m w with
           | (Ok a, w') => k a w'
           | (Throw e, w') => (Throw e, w')
           end.

Definition throw {A} (message : string) : M A := fun w => (Throw message, w).

Definition try_catch {A} (body : M A) (handler : string -> M A) : M A :=
  fun w => match body w with
           | (Ok a, w') => (Ok a, w')
           | (Throw e, w') => handler e w'
           end.

#[global] Instance M_ret : MRet M := @ret.
#[global] Instance M_bind : MBind M := fun A B k m => bind m k.

(** [console.log] and [console.error]. *)
Definition log (s : string) : M unit :=
  fun w => (Ok tt, {| clock := clock w; console := console w ++ [s];
                      runs_index := runs_index w; run_files := run_files w |}).

Fixpoint log_all (l : list string) : M unit :=
  match l with
  | [] => ret tt
  | s :: l' => log s;; log_all l'
  end.

(** [new Date()]. *)
Definition now (h : host) : M utc :=
  fun w => (Ok (time_at h (clock w)),
            {| clock := S (clock w); console := console w;
               runs_index := runs_index w; run_files := run_files w |}).

Definition execSync (h : host) (command : string) : M unit :=
  match exec h command with
  | None => ret tt
  | Some message => throw message
  end.

Definition readIndex : M index_file := fun w => (Ok (runs_index w), w).

Definition writeIndex (entries : list RunIndexEntry) : M unit :=
  fun w => (Ok tt, {| clock := clock w; console := console w;
                      runs_index := Index entries; run_files := run_files w |}).

Definition writeRun (runId : string) (run : Run) : M unit :=
  fun w => (Ok tt, {| clock := clock w; console := console w;
                      runs_index := runs_index w;
                      run_files := <[runId := Stored run]> (run_files w) |}).

(** Lines 7 and 13. *)
Definition resultsDir (h : host) : string := path_join h (dirname h) "results".
Definition runsDir (h : host) : string := path_join h (resultsDir h) "runs".

(** Truthiness of a parsed value. *)
Definition truthy_json (m : json) : bool :=
  match m with
  | JNull => false
  | JBool b => b
  | JNumber z => negb (z =? 0)%Z
  | JString s => JS.truthy s
  | JArray _ | JObject _ => true
  end.

(** [m.type === 'Point']: only an object has members. *)
Definition type_is_Point (m : json) : bool :=
  match m with
  | JObject members =>
      match obj_get "type" members with
      | Some (JString s) => bool_decide (s = "Point")
      | _ => false
      end
  | _ => false
  end.

(** Lines 72-78: a line that does not parse becomes [null]. *)
Definition parseLine (h : host) (line : string) : json :=
  match JSON_parse h line with
  | Some m => m
  | None => JNull
  end.

(** Line 70: the lines that the artifact is split into. *)
Definition k6Lines (rawResults : string) : list string :=
  List.filter (fun line => JS.truthy (JS.trim line))
              (JS.split LF (JS.trim rawResults)).

(** Lines 71-79. *)
Definition pointsOf (h : host) (rawResults : string) : list json :=
  List.filter (fun m => truthy_json m && type_is_Point m)
              (parseLine h <$> k6Lines rawResults).

(** Lines 65-84: [metrics] after the guarded parse. *)
Definition readMetrics (h : host) (outputFile : string) : M (list json) :=
  try_catch
    (match file_at h outputFile with
     | Missing => ret []
     | Unreadable message => throw message
     | Text rawResults =>
         ret (if JS.truthy (JS.trim rawResults) then pointsOf h rawResults else [])
     end)
    (fun parseError =>
       log ("⚠️  Warning: Could not parse k6 results: " +:+ parseError);; ret []).

(** Line 55. *)
Definition k6Command (outputFile : string) (targetUrl : option string) : string :=
  "k6 run --out json=" +:+ outputFile +:+ " -e TARGET_URL=" +:+ show_str targetUrl
  +:+ " k6-load-test.js".

(** [runK6Benchmark], lines 40-105. *)
Definition runK6Benchmark (h : host) (targetName : string) (targetUrl : option string)
    (runDir : string) : M (option LoadResult) :=
  log (NL +:+ "📊 Running k6 load test for " +:+ targetName +:+ "...");;
  let outputFile := path_join h runDir (targetName +:+ "-k6-results.json") in
  try_catch
    (installed ← try_catch
        (execSync h "k6 version";; ret true)
        (fun _ =>
           log "⚠️  k6 not found. Skipping k6 tests.";;
           log "   Install k6: https://k6.io/docs/getting-started/installation/";;
           ret false);
     if negb installed then ret None
     else
       execSync h (k6Command outputFile targetUrl);;
       log ("✅ k6 test completed for " +:+ targetName);;
       metrics ← readMetrics h outputFile;
       t ← now h;
       ret (Some {| k6_target := targetName; k6_url := targetUrl;
                    k6_timestamp := Some t; metricsFile := Some outputFile;
                    totalRequests := Some (length metrics);
                    k6_error := None |}))
    (fun error =>
       log ("❌ k6 test failed for " +:+ targetName +:+ ": " +:+ error);;
       ret (Some {| k6_target := targetName; k6_url := targetUrl;
                    k6_timestamp := None; metricsFile := None;
                    totalRequests := None; k6_error := Some error |})).

(** The comparator of line 192: newest first. *)
Definition newestFirst (a b : RunIndexEntry) : Z :=
  (Date_ms (entry_timestamp b) - Date_ms (entry_timestamp a))%Z.

(** [updateRunsIndex], lines 173-200. *)
Definition updateRunsIndex (runId : string) (timestamp : utc) (results : Run)
  : M unit :=
  found ← readIndex;
  runsIndex ← match found with
               | NoIndex => ret []
               | BadIndex => ret []
               | Index entries => ret entries
               | OtherJson => throw "runsIndex.push is not a function"
               end;
  let runsIndex :=
    runsIndex ++ [{| entry_runId := runId; entry_timestamp := timestamp;
                     entry_targets := target <$> targets results |}] in
  let runsIndex := Array_sort newestFirst runsIndex in
  let runsIndex :=
    if (50 <? length runsIndex)%nat then take 50 runsIndex else runsIndex in
  writeIndex runsIndex.

Definition status_mark (ok : bool) : string := if ok then "✅" else "❌".

(** Lines 237-252: the metrics cell of a test's row. *)
Definition metricsStr (test : ProbeTest) : string :=
  let s := "" in
  let s := if JS.truthy_num (test_duration test)
           then show_num (test_duration test) +:+ "ms" else s in
  let s := if JS.truthy_num (test_domContentLoaded test)
           then "DCL: " +:+ show_num (test_domContentLoaded test) +:+ "ms" else s in
  if bool_decide (test_ttfb test <> None)
  then "TTFB: " +:+ show_num (test_ttfb test) +:+ "ms, DNS: "
       +:+ show_num (test_dns test) +:+ "ms"
  else s.

(** Lines 226-261: the Playwright part of a target's summary. *)
Definition summaryPlaywright (p : option BrowserResult) : list string :=
  match p with
  | Some r =>
      if negb (JS.truthy_opt (playwright_error r)) then
        ["#### Playwright Tests"; ""; "| Test | Status | Metrics |";
         "|------|--------|---------|"]
        ++ ((fun test => "| " +:+ test_name test +:+ " | "
                          +:+ status_mark (test_success test) +:+ " | "
                          +:+ metricsStr test +:+ " |") <$> tests r)
        ++ [""]
      else ["**Playwright Error:** " +:+ show_str (playwright_error r); ""]
  | None => []
  end.

(** Lines 264-284: the k6 part of a target's summary. *)
Definition summaryK6 (r : option LoadResult) : list string :=
  match r with
  | Some r =>
      if negb (JS.truthy_opt (k6_error r)) then
        ["#### k6 Load Tests"; ""; "| Metric | Value |"; "|--------|-------|";
         "| Status | ✅ Completed |";
         "| Results File | " +:+ show_str (metricsFile r) +:+ " |"; ""]
      else ["**k6 Status:** " +:+ show_str (k6_error r); ""]
  | None => ["**k6 Status:** Skipped (not installed)"; ""]
  end.

(** Lines 208-284: the text of [SUMMARY.md], line by line. *)
Definition summaryLines (h : host) (results : Run) : list string :=
  ["# Horserace Benchmark Summary"; "";
   "**Run ID:** " +:+ runId results;
   "**Run Date:** " +:+ toLocaleString h (timestamp results); "";
   "## Results by Target"; ""]
  ++ flat_map (fun targetResult =>
       ["### " +:+ toUpperCase h (target targetResult);
        "**URL:** " +:+ show_str (url targetResult); ""]
       ++ summaryPlaywright (playwright targetResult)
       ++ summaryK6 (k6 targetResult))
     (targets results).

(** The console's copy of a test, lines 235-252. *)
Definition consoleTest (test : ProbeTest) : list string :=
  ["      " +:+ status_mark (test_success test) +:+ " " +:+ test_name test]
  ++ (if JS.truthy_num (test_duration test)
      then ["         Duration: " +:+ show_num (test_duration test) +:+ "ms"]
      else [])
  ++ (if JS.truthy_num (test_domContentLoaded test)
      then ["         DOM Content Loaded: "
              +:+ show_num (test_domContentLoaded test) +:+ "ms";
            "         DOM Interactive: "
              +:+ show_num (test_domInteractive test) +:+ "ms"]
      else [])
  ++ (if bool_decide (test_ttfb test <> None)
      then ["         TTFB: " +:+ show_num (test_ttfb test) +:+ "ms";
            "         DNS: " +:+ show_num (test_dns test) +:+ "ms";
            "         TCP: " +:+ show_num (test_tcp test) +:+ "ms"]
      else []).

(** The console's copy of a target, lines 218-286. *)
Definition consoleTarget (h : host) (t : TargetRunRecord) : list string :=
  [NL +:+ "🎯 Target: " +:+ toUpperCase h (target t);
   "   URL: " +:+ show_str (url t)]
  ++ match playwright t with
     | Some r =>
         if negb (JS.truthy_opt (playwright_error r))
         then (NL +:+ "   🎭 Playwright Results:") :: flat_map consoleTest (tests r)
         else ["   ❌ Playwright Error: " +:+ show_str (playwright_error r)]
     | None => []
     end
  ++ match k6 t with
     | Some r =>
         if negb (JS.truthy_opt (k6_error r))
         then [NL +:+ "   📊 k6 Results:"; "      ✅ Load test completed";
               "      Results file: " +:+ show_str (metricsFile r)]
         else ["   ⚠️  k6: " +:+ show_str (k6_error r)]
     | None => ["   ⚠️  k6 tests skipped (k6 not installed)"]
     end
  ++ [""].

(** [generateSummary], lines 202-301; the result is what is written to
    [SUMMARY.md] in the run's directory and in [results/]. *)
Definition generateSummary (h : host) (results : Run) (runDir : string)
  : M (list string) :=
  log (NL +:+ NL +:+ "📋 BENCHMARK SUMMARY");;
  log (JS.repeat_string "═" 80);;
  log ("Benchmark Run: " +:+ toISOString (timestamp results));;
  log ("Run ID: " +:+ runId results +:+ NL);;
  log_all (flat_map (consoleTarget h) (targets results));;
  log (NL +:+ "📄 Summary saved to " +:+ path_join h runDir "SUMMARY.md");;
  log ("📄 Latest summary saved to " +:+ path_join h (resultsDir h) "SUMMARY.md");;
  log (NL +:+ JS.repeat_string "═" 80);;
  log ("✨ Benchmark complete!" +:+ NL);;
  ret (summaryLines h results).

(** What the code reads of a truthy [targets[targetName]]: its [name] and
    its [url], strings both, [None] for the one that it does not have. *)
Record TargetConfig := mkConfig {
  name : option string;
  config_url : option string
}.

(** The configuration: the members of the plain object that
    [targets.json] holds under [targets], as [JSON.parse] makes them.  A
    member is [None] when its value is falsy ([null], [false], [0] or an
    empty string). *)
Definition Targets : Type := object (option TargetConfig).

(** Line 35. *)
Definition selectedTargets (targets : Targets) (args : list string)
  : list string :=
  match args with [] => obj_keys targets | _ => args end.

(** What the configuration inherits under a name: a function of
    [Object.prototype], which has a [name] and no [url], or under
    [__proto__] the prototype itself, which has neither. *)
Definition inheritedTarget (targetName : string) : option TargetConfig :=
  if decide (targetName = "__proto__") then Some {| name := None; config_url := None |}
  else if decide (targetName = "constructor")
       then Some {| name := Some "Object"; config_url := None |}
  else if bool_decide (targetName ∈ prototype_members)
       then Some {| name := Some targetName; config_url := None |}
  else None.

(** [targets[targetName]], lines 121 and 126: [None] when it is falsy,
    be it a falsy member or [undefined]. *)
Definition lookupTarget (targets : Targets) (targetName : string)
  : option TargetConfig :=
  match obj_get targetName targets with
  | Some member => member
  | None => inheritedTarget targetName
  end.

(** [await]: a rejected promise throws. *)
Definition await {A} (r : exn A) : M A :=
  match r with Ok a => ret a | Throw e => throw e end.

(** Lines 120-152: the loop over the selected targets; [done] is
    [allResults.targets] so far. *)
Fixpoint benchmarkTargets (h : host) (targets : Targets)
    (runDir : string) (selected : list string) (done : list TargetRunRecord)
  : M (list TargetRunRecord) :=
  match selected with
  | [] => ret done
  | targetName :: rest =>
      match lookupTarget targets targetName with
      | None =>
          log ("❌ Unknown target: " +:+ targetName);;
          benchmarkTargets h targets runDir rest done
      | Some t =>
          log (NL +:+ "🎯 Benchmarking " +:+ show_str (name t)
               +:+ " (" +:+ show_str (config_url t) +:+ ")");;
          log (JS.repeat_string "─" 50);;
          log (NL +:+ "🎭 Running Playwright tests for " +:+ targetName +:+ "...");;
          playwrightResults ←
            await (runPlaywrightBenchmark h targetName (config_url t) runDir);
          log ("✅ Playwright tests completed for " +:+ targetName);;
          k6Results ← runK6Benchmark h targetName (config_url t) runDir;
          let targetResults :=
            {| target := targetName; url := config_url t;
               playwright := Some playwrightResults; k6 := k6Results |} in
          log ("💾 Results saved to "
               +:+ path_join h runDir (targetName +:+ "-combined-results.json"));;
          benchmarkTargets h targets runDir rest (done ++ [targetResults])
      end
  end.

(** [runAllBenchmarks], lines 107-171.  The per-target files, the latest
    results and the summaries are written and never read back; the state
    keeps the run's [all-results.json] and the index. *)
Definition runAllBenchmarks (h : host) (targets : Targets)
    (selected : list string) : M Run :=
  runTimestamp ← now h;
  match runIdOf (toISOString runTimestamp) with
  | None => throw "Cannot read properties of undefined (reading 'split')"
  | Some runId =>
      let runDir := path_join h (runsDir h) runId in
      done ← benchmarkTargets h targets runDir selected [];
      let allResults :=
        {| runId := runId; timestamp := runTimestamp; targets := done |} in
      writeRun runId allResults;;
      log (NL +:+ "💾 Run results saved to " +:+ path_join h runDir "all-results.json");;
      log ("💾 Latest results saved to "
           +:+ path_join h (resultsDir h) "latest-results.json");;
      updateRunsIndex runId runTimestamp allResults;;
      generateSummary h allResults runDir;;
      ret allResults
  end.

(** * Notions of the statements *)

(** The characters that [runIdOf] splits at or replaces. *)
Definition marks : list ascii := ["T"; ":"; "."]%char.

(** Leap years and the lengths of the months. *)
Definition leap (y : Z) : bool :=
  ((y mod 4 =? 0) && negb (y mod 100 =? 0) || (y mod 400 =? 0))%Z.

Definition days_in_month (y m : Z) : Z :=
  if (m =? 2)%Z then (if leap y then 29 else 28)%Z
  else if ((m =? 4) || (m =? 6) || (m =? 9) || (m =? 11))%Z then 30%Z
  else 31%Z.

(** The dates [new Date()] can give: a day of the calendar in a four-digit
    year. *)
Record calendar (t : utc) : Prop := {
  calendar_wf : utc_wf t;
  calendar_day : (day t <= days_in_month (year t) (month t))%Z
}.

(** The wall-clock second that a time falls in: its time value in whole
    seconds. *)
Definition seconds (t : utc) : Z := (Date_ms t / 1000)%Z.

(** [a] is an earlier day than [b]. *)
Definition earlier_date (a b : utc) : Prop :=
  (year a < year b \/ year a = year b /\
  (month a < month b \/ month a = month b /\ day a < day b))%Z.

(** [run.metrics[target].playwright[metric]] for a run that has the target. *)
Definition valueOf (target metric : string) (run : LoadedRun) : option Z :=
  tm ← obj_get target (own (metrics run)); tm_playwright tm !! metric.

(** The records of a run under a target's name. *)
Definition recordsOf (name : string) (run : Run) : list TargetRunRecord :=
  filter (fun t => target t = name) (targets run).

(** A name under which an object finds nothing but a property of its
    own. *)
Definition ordinary (name : string) : Prop :=
  name <> "__proto__" /\ name ∉ prototype_members.

(** The runs that name their targets with ordinary names. *)
Definition ordinary_names (runsDir : gmap string run_file) (runIds : list string) : Prop :=
  forall runId run t,
    runId ∈ runIds -> runsDir !! runId = Some (Stored run) -> t ∈ targets run ->
    ordinary (target t).

(** The test that holds a metric, and the metric in it. *)
Definition testOf (metric : string) : string :=
  if decide (metric = "pageLoad") then "page_load"
  else if bool_decide (metric ∈ ["domContentLoaded"; "domInteractive"; "loadComplete"])
       then "dom_metrics"
  else "network_timing".

Definition fieldOf (metric : string) (test : ProbeTest) : option Z :=
  if decide (metric = "pageLoad") then test_duration test
  else if decide (metric = "domContentLoaded") then test_domContentLoaded test
  else if decide (metric = "domInteractive") then test_domInteractive test
  else if decide (metric = "loadComplete") then test_loadComplete test
  else if decide (metric = "ttfb") then test_ttfb test
  else if decide (metric = "dns") then test_dns test
  else if decide (metric = "tcp") then test_tcp test
  else if decide (metric = "download") then test_download test
  else None.

(** The value that a record holds for a metric: that of the last test of
    its kind, when the browser's result is there and tells no error. *)
Definition measuredOf (t : TargetRunRecord) (metric : string) : option Z :=
  p ← playwright t;
  if JS.truthy_opt (playwright_error p) then None
  else last (filter (fun test => test_name test = testOf metric) (tests p))
       ≫= fieldOf metric.

(** The record of a stored run that counts for a target: the last one
    under the target's name. *)
Definition recordOf (runsDir : gmap string run_file) (target runId : string)
  : option TargetRunRecord :=
  match runsDir !! runId with
  | Some (Stored run) => last (recordsOf target run)
  | _ => None
  end.

(** The value that a stored run holds for a metric of a target. *)
Definition measured (runsDir : gmap string run_file) (target metric runId : string)
  : option Z :=
  recordOf runsDir target runId ≫= fun t => measuredOf t metric.



(** The stored run has the target: one of its records has the name,
    which is not [__proto__]. *)
Definition has_target (runsDir : gmap string run_file) (name runId : string) : Prop :=
  exists run, runsDir !! runId = Some (Stored run) /\
              name <> "__proto__" /\ name ∈ target <$> targets run.

(** A line that is not the heading of a section. *)
Definition within_section (l : line) : Prop :=
  match l with LTarget _ => False | _ => True end.

(** The lines of a report under the heading of a target, up to the next
    heading. *)
Fixpoint upto_heading (lines : list line) : list line :=
  match lines with
  | [] => []
  | LTarget _ :: _ => []
  | l :: rest => l :: upto_heading rest
  end.

Fixpoint sectionOf (target : string) (lines : list line) : list line :=
  match lines with
  | [] => []
  | LTarget t :: rest =>
      if decide (t = target) then upto_heading rest else sectionOf target rest
  | _ :: rest => sectionOf target rest
  end.

(** What [loadRuns] makes of a run that it can load. *)
Definition loadedAs (runsDir : gmap string run_file) (runId : string) : LoadedRun :=
  match runsDir !! runId with
  | Some (Stored run) =>
      {| lr_runId := runId; lr_timestamp := timestamp run;
         metrics := extractMetrics run |}
  | _ => {| lr_runId := runId; lr_timestamp := mkUtc 0 0 0 0 0 0 0;
            metrics := {| own := []; proto := None |} |}
  end.

(** What a compared run holds of a target in a section of its own: the
    metrics that [extractTarget] makes of the record that counts. *)
Definition tells (runsDir : gmap string run_file) (target : string)
    (run : LoadedRun) (tm : TargetMetrics) : Prop :=
  metrics_get target (metrics run) = Metrics tm /\
  exists t, recordOf runsDir target (lr_runId run) = Some t /\ tm = extractTarget t.

(** The compared runs in the order of the report. *)
Definition compared (runsDir : gmap string run_file) (runIds : list string)
  : list LoadedRun :=
  sortRuns (loadedAs runsDir <$> runIds).

(** Report order: no later run stands before an earlier one. *)
Definition chronological (a b : LoadedRun) : Prop :=
  (Date_ms (lr_timestamp a) <= Date_ms (lr_timestamp b))%Z.



(** The entries that [updateRunsIndex] starts from. *)
Definition entriesOf (found : index_file) : list RunIndexEntry :=
  match found with
  | Index entries => entries
  | _ => []
  end.

(** Index order: no older entry stands before a newer one. *)
Definition newest_first (a b : RunIndexEntry) : Prop :=
  (Date_ms (entry_timestamp b) <= Date_ms (entry_timestamp a))%Z.

(** The world after a write of the index. *)
Definition with_index (entries : list RunIndexEntry) (w : world) : world :=
  {| clock := clock w; console := console w; runs_index := Index entries;
     run_files := run_files w |}.

(** The entry of a run. *)
Definition entryOf (runId : string) (timestamp : utc) (results : Run) : RunIndexEntry :=
  {| entry_runId := runId; entry_timestamp := timestamp;
     entry_targets := target <$> targets results |}.

(** The raw metrics artifact of a target in a run's directory. *)
Definition outputFileOf (h : host) (runDir targetName : string) : string :=
  path_join h runDir (targetName +:+ "-k6-results.json").

(** What [runK6Benchmark] hands back, from the host's answers and the
    time [t] that it reads off the clock after a completed test. *)
Definition loadOutcome (h : host) (targetName : string) (targetUrl : option string)
    (runDir : string) (t : utc) : option LoadResult :=
  let outputFile := outputFileOf h runDir targetName in
  match exec h "k6 version" with
  | Some _ => None
  | None =>
      match exec h (k6Command outputFile targetUrl) with
      | Some error =>
          Some {| k6_target := targetName; k6_url := targetUrl;
                  k6_timestamp := None; metricsFile := None;
                  totalRequests := None; k6_error := Some error |}
      | None =>
          Some {| k6_target := targetName; k6_url := targetUrl;
                  k6_timestamp := Some t; metricsFile := Some outputFile;
                  totalRequests :=
                    Some (match file_at h outputFile with
                          | Text rawResults =>
                              if JS.truthy (JS.trim rawResults)
                              then length (pointsOf h rawResults) else 0%nat
                          | _ => 0%nat
                          end);
                  k6_error := None |}
      end
  end.

(** A computation that leaves the files under [results/] alone. *)
Definition keeps_files {A} (m : M A) : Prop :=
  forall w, runs_index (m w).2 = runs_index w /\ run_files (m w).2 = run_files w.

(** A computation that does not throw. *)
Definition never_throws {A} (m : M A) : Prop :=
  forall w, exists a, (m w).1 = Ok a.

(** The selected names under which the configuration holds something
    truthy, of its own or inherited. *)
Definition known (targets : Targets) (selected : list string) : list string :=
  filter (fun targetName => is_Some (lookupTarget targets targetName)) selected.

(** A target's record agrees with the host's answers to its load test. *)
Definition load_recorded (h : host) (runDir : string) (t : TargetRunRecord) : Prop :=
  match k6 t with
  | None => exec h "k6 version" <> None
  | Some r =>
      exec h "k6 version" = None /\
      k6_error r = exec h (k6Command (outputFileOf h runDir (target t)) (url t))
  end.

(** The shell runs no binary that is not on its search path. *)
Definition missing_binary_fails (h : host) : Prop :=
  k6_on_path h = false -> exec h "k6 version" <> None.

(** The browser probe settles: it reports its failures in its result. *)
Definition playwright_settles (h : host) : Prop :=
  forall targetName targetUrl runDir,
    exists r, runPlaywrightBenchmark h targetName targetUrl runDir = Ok r.

(** The world with another index file. *)
Definition set_index (found : index_file) (w : world) : world :=
  {| clock := clock w; console := console w; runs_index := found;
     run_files := run_files w |}.

(** A computation that does not look at the index file. *)
Definition index_blind {A} (m : M A) : Prop :=
  forall found w, m (set_index found w) = ((m w).1, set_index found (m w).2).

(** A computation that goes the same way on a damaged index file as on
    none. *)
Definition ignores_damage {A} (m : M A) : Prop :=
  forall w, m (set_index BadIndex w) = m (set_index NoIndex w).

(** A line as k6 writes it: not empty, no white space around it, no line
    feed in it. *)
Definition artifact_line (line : string) : Prop :=
  line <> "" /\ JS.trim line = line /\ JS.avoids [LF] line = true.

(** An artifact of the given lines, each ended by a line feed. *)
Fixpoint unlines (lines : list string) : string :=
  match lines with
  | [] => ""
  | line :: rest => line +:+ NL +:+ unlines rest
  end.

(** A line that counts: it parses to a truthy value whose [type] is
    ['Point']. *)
Definition is_point_line (h : host) (line : string) : bool :=
  match JSON_parse h line with
  | Some m => truthy_json m && type_is_Point m
  | None => false
  end.

(** [a] may stand before [b] in an array sorted with [cmp]. *)
Definition before {A} (cmp : A -> A -> Z) (a b : A) : Prop := (cmp a b <= 0)%Z.

(** * Sample data *)

(** ** Sample runs

    Run A starts at 10:00 and loads the page in 245 ms, run B starts at
    10:05 and loads it in 198 ms; only run A has the target pyxis. *)

Definition sample_test (duration : Z) : ProbeTest :=
  mkTest "page_load" true (Some duration) None None None None None None None.

Definition sample_load (t : utc) (name : string) : LoadResult :=
  {| k6_target := name; k6_url := Some ("http://" +:+ name +:+ ".local");
     k6_timestamp := Some t;
     metricsFile := Some ("/srv/horserace/results/runs/" +:+ runId_text t +:+ "/"
                          +:+ name +:+ "-k6-results.json");
     totalRequests := Some 120%nat; k6_error := None |}.


Definition sample_target (name : string) (duration : Z) (load : option LoadResult)
  : TargetRunRecord :=
  {| target := name; url := Some ("http://" +:+ name +:+ ".local");
     playwright := Some (mkBrowser [sample_test duration] None); k6 := load |}.

Definition sample_run (t : utc) (records : list TargetRunRecord) : Run :=
  {| runId := runId_text t; timestamp := t; targets := records |}.

Definition time_A : utc := mkUtc 2026 1 18 10 0 0 0.
Definition time_B : utc := mkUtc 2026 1 18 10 5 0 0.
Definition id_A : string := "2026-01-18_10-00-00".
Definition id_B : string := "2026-01-18_10-05-00".

Definition run_A : Run :=
  sample_run time_A [sample_target "kylix" 245 (Some (sample_load time_A "kylix"));
                     sample_target "pyxis" 312 None].

Definition run_B : Run :=
  sample_run time_B [sample_target "kylix" 198 None].

Definition sample_runs : gmap string run_file :=
  {[ id_A := Stored run_A; id_B := Stored run_B ]}.

(** The sample runs as [compareRuns] loads them. *)
Definition loaded_sample (runIds : list string) : list LoadedRun :=
  match loadRuns sample_runs runIds with
  | inr loaded => loaded
  | inl _ => []
  end.



(** Two runs that load the page in the same time. *)
Definition tied_runs : gmap string run_file :=
  {[ id_A := Stored (sample_run time_A [sample_target "kylix" 200 None]);
     id_B := Stored (sample_run time_B [sample_target "kylix" 200 None]) ]}.

(** Run A again, its one target named after a member of
    [Object.prototype]: the run that [run-benchmark.js constructor] stores
    on the earlier host. *)
Definition run_A_constructor : Run :=
  sample_run time_A
    [{| target := "constructor"; url := None;
        playwright := Some (mkBrowser [sample_test 245] None); k6 := None |}].

Definition inherited_runs : gmap string run_file :=
  {[ id_A := Stored run_A_constructor; id_B := Stored run_B ]}.

(** A world before any run. *)
Definition fresh_world : world :=
  {| clock := 0; console := []; runs_index := NoIndex; run_files := ∅ |}.

(** A world after run A: its results and its index entry are stored. *)
Definition sample_world : world :=
  {| clock := 0; console := [];
     runs_index := Index [entryOf id_A time_A run_A];
     run_files := {[ id_A := Stored run_A ]} |}.

(** The same world, its index file damaged. *)
Definition damaged_world : world :=
  {| clock := 0; console := []; runs_index := BadIndex;
     run_files := {[ id_A := Stored run_A ]} |}.

(** The double quote. *)
Definition quote : string := String (ascii_of_nat 34) EmptyString.

(** A line of a metrics artifact that holds a point, and a line cut short. *)
Definition point_line : string :=
  "{" +:+ quote +:+ "type" +:+ quote +:+ ":" +:+ quote +:+ "Point" +:+ quote +:+ "}".

Definition cut_line : string := "{" +:+ quote +:+ "type" +:+ quote +:+ ":".

(** An artifact of two points around a line cut short. *)
Definition sample_artifact : string :=
  point_line +:+ NL +:+ cut_line +:+ NL +:+ point_line +:+ NL.

(** A parser that knows the point line and nothing else. *)
Definition sample_parse (s : string) : option json :=
  if bool_decide (s = point_line)
  then Some (JObject [("type", JString "Point")])
  else None.

(** [path.join] of POSIX on a directory and a name that need no
    normalisation. *)
Definition sample_join (dir name : string) : string := dir +:+ "/" +:+ name.

(** A host for the examples: k6 is installed, every command succeeds, the
    browser loads every page in 198 ms, every reading of the clock gives
    10:05, and every metrics artifact is the sample. *)
Definition sample_host : host :=
  {| toLocaleString := toISOString;
     toUpperCase := fun s => s;
     JSON_parse := sample_parse;
     path_join := sample_join;
     dirname := "/srv/horserace";
     time_at := fun _ => time_B;
     exec := fun _ => None;
     k6_on_path := true;
     file_at := fun _ => Text sample_artifact;
     runPlaywrightBenchmark := fun _ _ _ => Ok (mkBrowser [sample_test 198] None) |}.

(** The same host five minutes earlier: k6 is not installed yet and the
    browser loads every page in 245 ms. *)
Definition earlier_host : host :=
  {| toLocaleString := toISOString;
     toUpperCase := fun s => s;
     JSON_parse := sample_parse;
     path_join := sample_join;
     dirname := "/srv/horserace";
     time_at := fun _ => time_A;
     exec := fun _ => Some "Command failed: k6 version";
     k6_on_path := false;
     file_at := fun _ => Missing;
     runPlaywrightBenchmark := fun _ _ _ => Ok (mkBrowser [sample_test 245] None) |}.

(** The sample host with a k6 that is on the search path and does not
    start: [k6 version] fails, every other command succeeds. *)
Definition broken_host : host :=
  {| toLocaleString := toISOString;
     toUpperCase := fun s => s;
     JSON_parse := sample_parse;
     path_join := sample_join;
     dirname := "/srv/horserace";
     time_at := fun _ => time_B;
     exec := fun command =>
       if decide (command = "k6 version")
       then Some "Command failed: k6 version" else None;
     k6_on_path := true;
     file_at := fun _ => Text sample_artifact;
     runPlaywrightBenchmark := fun _ _ _ => Ok (mkBrowser [sample_test 198] None) |}.

(** A configuration of one target. *)
Definition sample_config : Targets :=
  [("kylix", Some {| name := Some "kylix"; config_url := Some "http://kylix.local" |})].

(** * The rest of the programs *)

(** ** compare-runs.js without arguments *)

(** How a program ends: it runs to its end, it calls [process.exit], or
    an error that nothing catches stops it. *)
Inductive ending :=
  | Returns
  | Exits (code : nat)
  | Uncaught (error : string).

(** Lines 212-218: the console lines of the entry at [idx]. *)
Definition listEntry (h : host) (idx : nat) (run : RunIndexEntry) : list string :=
  ["  " +:+ JS.show (Z.of_nat (idx + 1)) +:+ ". " +:+ entry_runId run;
   "     " +:+ toLocaleString h (entry_timestamp run);
   "     Targets: " +:+ JS.join ", " (entry_targets run);
   ""].

(** Lines 202-225: the console and the end of the program when it is
    given no run.  [JSON.parse] stops it on a file that is not JSON,
    [slice] or [forEach] on a value that is not an array. *)
Definition listRuns (h : host) (found : index_file) : list string * ending :=
  match found with
  | NoIndex =>
      (["❌ No runs found. Run benchmarks first with: npm run benchmark"], Exits 1)
  | BadIndex => ([], Uncaught "SyntaxError")
  | OtherJson => (["📋 Available Test Runs:"; ""], Uncaught "TypeError")
  | Index index =>
      (["📋 Available Test Runs:"; ""]
       ++ concat (imap (listEntry h) (take 10 index))
       ++ (if (10 <? length index)%nat
           then ["  ... and " +:+ JS.show (Z.of_nat (length index - 10)) +:+ " more runs"]
           else [])
       ++ [NL +:+ "💡 Usage: node compare-runs.js <runId1> <runId2> [runId3...]";
           "   Example: node compare-runs.js <latest-run-id> <previous-run-id>"],
       Returns)
  end.

(** ** The configuration of run-benchmark.js *)

(** [typeof m === 'object']. *)
Definition typeof_object (m : json) : bool :=
  match m with
  | JNull | JArray _ | JObject _ => true
  | JBool _ | JNumber _ | JString _ => false
  end.

(** Lines 21-26, the body of the [try]: the targets of [targets.json].
    [Throw] holds the message of the error; the message of a [SyntaxError]
    is the engine's, its name stands for it. *)
Definition readTargets (h : host) (targetsFile : file) : exn json :=
  let invalid :=
    Throw ("Invalid targets.json format: missing " +:+ quote +:+ "targets"
           +:+ quote +:+ " object") in
  match targetsFile with
  | Missing => Throw "ENOENT: no such file or directory, open 'targets.json'"
  | Unreadable message => Throw message
  | Text content =>
      match JSON_parse h content with
      | None => Throw "SyntaxError"
      | Some JNull => Throw "Cannot read properties of null (reading 'targets')"
      | Some (JObject members) =>
          match obj_get "targets" members with
          | Some targets =>
              if negb (truthy_json targets) || negb (typeof_object targets)
              then invalid else Ok targets
          | None => invalid
          end
      | Some _ => invalid
      end
  end.

(** Lines 19-31: the targets, or the lines of [console.error] and the
    exit of the program. *)
Definition loadTargets (h : host) (targetsFile : file)
  : list string * ending + json :=
  match readTargets h targetsFile with
  | Ok targets => inr targets
  | Throw message =>
      inl (["❌ Failed to load targets.json: " +:+ message;
            "   Please ensure targets.json exists and is valid JSON."], Exits 1)
  end.

(** ** playwright-benchmark.js

    The browser probe, as the repository has it: it takes no run directory
    and puts its screenshot under [results].  Timings are whole
    milliseconds here, as the persisted ones are.  Line numbers are those
    of [src/unnamed/part_001], where the function stands at lines 64-165. *)

Module Playwright.

Module Nav.

(** An entry of [performance.getEntriesByType('navigation')], by the
    fields that the probe reads. *)
Record entry := mkEntry {
  fetchStart : Z;
  domContentLoadedEventEnd : Z;
  domInteractive : Z;
  loadEventEnd : Z;
  domainLookupStart : Z;
  domainLookupEnd : Z;
  connectStart : Z;
  connectEnd : Z;
  requestStart : Z;
  responseStart : Z;
  responseEnd : Z
}.

End Nav.

(** What the browser and the clock answer to one call of the probe. *)
Record browser := mkBrowser {
  (** [chromium.launch], [newContext], [newPage]: the error of the one
      that rejects *)
  launch : option string;
  (** [new Date()], line 72 *)
  started : utc;
  (** [Date.now()] before and after [page.goto] *)
  loadStart : Z;
  loadEnd : Z;
  (** [page.goto(targetUrl, ...)]: the status of the response, [None] when
      it resolves to [null]; the argument is [None] when it is
      [undefined] *)
  goto : option string -> exn (option Z);
  (** the entries that the two calls of [page.evaluate] find *)
  domEntries : exn (list Nav.entry);
  timingEntries : exn (list Nav.entry);
  (** [page.screenshot]: the error when it rejects *)
  screenshot : string -> option string;
  (** [browser.close()]: the error when it rejects *)
  close : option string
}.

(** An element of [metrics.tests]. *)
Record Test := mkTest {
  name : string;
  success : bool;
  statusCode : option Z;
  duration : option Z;
  domContentLoaded : option Z;
  domInteractive : option Z;
  loadComplete : option Z;
  dns : option Z;
  tcp : option Z;
  ttfb : option Z;
  download : option Z;
  unit : option string;
  error : option string
}.

(** The object [metrics]. *)
Record Metrics := mkMetrics {
  target : string;
  url : option string;
  timestamp : utc;
  tests : list Test;
  screenshotPath : option string;
  metrics_error : option string
}.

Definition push (test : Test) (metrics : Metrics) : Metrics :=
  {| target := target metrics; url := url metrics; timestamp := timestamp metrics;
     tests := tests metrics ++ [test]; screenshotPath := screenshotPath metrics;
     metrics_error := metrics_error metrics |}.

(** Lines 85-91. *)
Definition pageLoadTest (statusCode pageLoadTime : Z) : Test :=
  {| name := "page_load"; success := bool_decide (statusCode = 200%Z);
     statusCode := Some statusCode; duration := Some pageLoadTime;
     domContentLoaded := None; domInteractive := None; loadComplete := None;
     dns := None; tcp := None; ttfb := None; download := None;
     unit := Some "ms"; error := None |}.

(** Lines 94-119: the first evaluation and its test; without an entry the
    three timings are 0. *)
Definition domMetricsTest (entries : list Nav.entry) : Test :=
  let domMetrics :=
    match entries with
    | nav :: _ =>
        (Nav.domContentLoadedEventEnd nav - Nav.fetchStart nav,
         Nav.domInteractive nav - Nav.fetchStart nav,
         Nav.loadEventEnd nav - Nav.fetchStart nav)%Z
    | [] => (0, 0, 0)%Z
    end in
  {| name := "dom_metrics"; success := true; statusCode := None; duration := None;
     domContentLoaded := Some domMetrics.1.1;
     domInteractive := Some domMetrics.1.2;
     loadComplete := Some domMetrics.2;
     dns := None; tcp := None; ttfb := None; download := None;
     unit := Some "ms"; error := None |}.

(** Lines 122-146: the second evaluation and its test; without an entry
    [performanceMetrics] is [null] and there is no test. *)
Definition networkTimingTest (entries : list Nav.entry) : option Test :=
  match entries with
  | nav :: _ =>
      Some {| name := "network_timing"; success := true; statusCode := None;
              duration := None; domContentLoaded := None;
              domInteractive := None; loadComplete := None;
              dns := Some (Nav.domainLookupEnd nav - Nav.domainLookupStart nav)%Z;
              tcp := Some (Nav.connectEnd nav - Nav.connectStart nav)%Z;
              ttfb := Some (Nav.responseStart nav - Nav.requestStart nav)%Z;
              download := Some (Nav.responseEnd nav - Nav.responseStart nav)%Z;
              unit := Some "ms"; error := None |}
  | [] => None
  end.

(** Lines 155-159. *)
Definition errorTest (message : string) : Test :=
  {| name := "error"; success := false; statusCode := None; duration := None;
     domContentLoaded := None; domInteractive := None; loadComplete := None;
     dns := None; tcp := None; ttfb := None; download := None;
     unit := None; error := Some message |}.

(** Lines 76-152, the body of the [try]: [metrics] when it ends or throws,
    and the error that it throws. *)
Definition measure (h : host) (b : browser) (targetName : string)
    (targetUrl : option string) (metrics : Metrics) : Metrics * option string :=
  match goto b targetUrl with
  | Throw message => (metrics, Some message)
  | Ok None =>
      (metrics, Some "Cannot read properties of null (reading 'status')")
  | Ok (Some statusCode) =>
      let pageLoadTime := (loadEnd b - loadStart b)%Z in
      let metrics := push (pageLoadTest statusCode pageLoadTime) metrics in
      match domEntries b with
      | Throw message => (metrics, Some message)
      | Ok entries =>
          let metrics := push (domMetricsTest entries) metrics in
          match timingEntries b with
          | Throw message => (metrics, Some message)
          | Ok entries =>
              let metrics :=
                match networkTimingTest entries with
                | Some test => push test metrics
                | None => metrics
                end in
              let screenshotPath :=
                path_join h "results" (targetName +:+ "-screenshot.png") in
              match screenshot b screenshotPath with
              | Some message => (metrics, Some message)
              | None =>
                  ({| target := target metrics; url := url metrics;
                      timestamp := timestamp metrics; tests := tests metrics;
                      screenshotPath := Some screenshotPath;
                      metrics_error := metrics_error metrics |}, None)
              end
          end
      end
  end.

(** [runPlaywrightBenchmark], lines 64-165: [Throw] is a rejection. *)
Definition runPlaywrightBenchmark (h : host) (b : browser) (targetName : string)
    (targetUrl : option string) : exn Metrics :=
  match launch b with
  | Some message => Throw message
  | None =>
      let metrics :=
        {| target := targetName; url := targetUrl; timestamp := started b;
           tests := []; screenshotPath := None; metrics_error := None |} in
      let metrics :=
        match measure h b targetName targetUrl metrics with
        | (metrics, None) => metrics
        | (metrics, Some message) =>
            push (errorTest message)
                 {| target := target metrics; url := url metrics;
                    timestamp := timestamp metrics; tests := tests metrics;
                    screenshotPath := screenshotPath metrics;
                    metrics_error := Some message |}
        end in
      match close b with
      | Some message => Throw message
      | None => Ok metrics
      end
  end.

End Playwright.

(** The test of the probe as [generateSummary] and [compare-runs.js] read
    it. *)
Definition readTest (test : Playwright.Test) : ProbeTest :=
  {| test_name := Playwright.name test;
     test_success := Playwright.success test;
     test_duration := Playwright.duration test;
     test_domContentLoaded := Playwright.domContentLoaded test;
     test_domInteractive := Playwright.domInteractive test;
     test_loadComplete := Playwright.loadComplete test;
     test_ttfb := Playwright.ttfb test;
     test_dns := Playwright.dns test;
     test_tcp := Playwright.tcp test;
     test_download := Playwright.download test |}.

(** The result of the probe as they read it. *)
Definition readMetricsOf (metrics : Playwright.Metrics) : BrowserResult :=
  {| tests := readTest <$> Playwright.tests metrics;
     playwright_error := Playwright.metrics_error metrics |}.

(** A host whose browser probe is [Playwright.runPlaywrightBenchmark]; the
    run directory that [run-benchmark.js] passes is an argument too many. *)
Definition withBrowser (h : host) (b : string -> Playwright.browser) : host :=
  {| toLocaleString := toLocaleString h;
     toUpperCase := toUpperCase h;
     JSON_parse := JSON_parse h;
     time_at := time_at h;
     exec := exec h;
     path_join := path_join h;
     dirname := dirname h;
     k6_on_path := k6_on_path h;
     file_at := file_at h;
     runPlaywrightBenchmark := fun targetName targetUrl _ =>
       match Playwright.runPlaywrightBenchmark h (b targetName) targetName targetUrl with
       | Ok metrics => Ok (readMetricsOf metrics)
       | Throw message => Throw message
       end |}.

(** ** The earlier revision of run-benchmark.js

    Its load probe reads the artifact without a guard.  Line numbers are
    those of [src/unnamed/part_000]. *)

Module Earlier.

Definition is_null (m : json) : bool :=
  match m with JNull => true | _ => false end.

(** Lines 60-61: every line is parsed, then the points are kept.
    [JSON.parse] throws at a line that is not JSON, [m.type] at a value
    that is [null]. *)
Definition pointsOf (h : host) (rawResults : string) : exn (list json) :=
  match mapM (JSON_parse h) (JS.split LF (JS.trim rawResults)) with
  | None => Throw "SyntaxError"
  | Some parsed =>
      if existsb is_null parsed
      then Throw "Cannot read properties of null (reading 'type')"
      else Ok (List.filter type_is_Point parsed)
  end.

(** [fs.readFileSync(path, 'utf8')]. *)
Definition readFileSync (h : host) (path : string) : M string :=
  match file_at h path with
  | Text content => ret content
  | Missing => throw ("ENOENT: no such file or directory, open '" +:+ path +:+ "'")
  | Unreadable message => throw message
  end.

(** [runK6Benchmark], lines 34-82. *)
Definition runK6Benchmark (h : host) (targetName : string) (targetUrl : option string)
  : M (option LoadResult) :=
  log (NL +:+ "📊 Running k6 load test for " +:+ targetName +:+ "...");;
  let outputFile := path_join h (resultsDir h) (targetName +:+ "-k6-results.json") in
  try_catch
    (installed ← try_catch
        (execSync h "k6 version";; ret true)
        (fun _ =>
           log "⚠️  k6 not found. Skipping k6 tests.";;
           log "   Install k6: https://k6.io/docs/getting-started/installation/";;
           ret false);
     if negb installed then ret None
     else
       execSync h (k6Command outputFile targetUrl);;
       log ("✅ k6 test completed for " +:+ targetName);;
       rawResults ← readFileSync h outputFile;
       metrics ← await (pointsOf h rawResults);
       t ← now h;
       ret (Some {| k6_target := targetName; k6_url := targetUrl;
                    k6_timestamp := Some t; metricsFile := Some outputFile;
                    totalRequests := Some (length metrics);
                    k6_error := None |}))
    (fun error =>
       log ("❌ k6 test failed for " +:+ targetName +:+ ": " +:+ error);;
       ret (Some {| k6_target := targetName; k6_url := targetUrl;
                    k6_timestamp := None; metricsFile := None;
                    totalRequests := None; k6_error := Some error |})).

End Earlier.

(** * Notions of the further statements *)

(** The run that is stored and parses. *)
Definition loads (runsDir : gmap string run_file) (runId : string) : Prop :=
  exists run, runsDir !! runId = Some (Stored run).

(** The metrics that a section has rows for, in the order of the rows. *)
Definition rowNames (lines : list line) : list string :=
  omap (fun l => match l with LRow metric _ => Some metric | _ => None end) lines.

(** The targets that a report has sections for, in the order of the
    sections. *)
Definition headings (lines : list line) : list string :=
  omap (fun l => match l with LTarget target => Some target | _ => None end) lines.

(** The rows of the load tables. *)
Definition loadRows (lines : list line) : list (utc * bool) :=
  omap (fun l => match l with LK6Row date status => Some (date, status) | _ => None end)
       lines.

(** A stored run, the success of its tests told by [flag] instead. *)
Definition flagTest (flag : ProbeTest -> bool) (test : ProbeTest) : ProbeTest :=
  {| test_name := test_name test; test_success := flag test;
     test_duration := test_duration test;
     test_domContentLoaded := test_domContentLoaded test;
     test_domInteractive := test_domInteractive test;
     test_loadComplete := test_loadComplete test;
     test_ttfb := test_ttfb test; test_dns := test_dns test;
     test_tcp := test_tcp test; test_download := test_download test |}.

Definition flagTarget (flag : ProbeTest -> bool) (t : TargetRunRecord) : TargetRunRecord :=
  {| target := target t; url := url t;
     playwright :=
       (fun p => {| tests := flagTest flag <$> tests p;
                    playwright_error := playwright_error p |}) <$> playwright t;
     k6 := k6 t |}.

Definition flagTests (flag : ProbeTest -> bool) (f : run_file) : run_file :=
  match f with
  | Stored run =>
      Stored {| runId := runId run; timestamp := timestamp run;
                targets := flagTarget flag <$> targets run |}
  | Unparsable e => Unparsable e
  end.

(** * More sample data *)

(** A host like the sample host, at another time and with another
    artifact. *)
Definition host_at (t : utc) (artifact : file) : host :=
  {| toLocaleString := toISOString;
     toUpperCase := fun s => s;
     JSON_parse := sample_parse;
     path_join := sample_join;
     dirname := "/srv/horserace";
     time_at := fun _ => t;
     exec := fun _ => None;
     k6_on_path := true;
     file_at := fun _ => artifact;
     runPlaywrightBenchmark := fun _ _ _ => Ok (mkBrowser [sample_test 198] None) |}.

(** Half a second after run A started. *)
Definition time_A_half : utc := mkUtc 2026 1 18 10 0 0 500.

(** An artifact of two points. *)
Definition clean_artifact : string := point_line +:+ NL +:+ point_line +:+ NL.

(** The navigation entry of a page. *)
Definition sample_entry : Playwright.Nav.entry :=
  {| Playwright.Nav.fetchStart := 0;
     Playwright.Nav.domContentLoadedEventEnd := 180;
     Playwright.Nav.domInteractive := 150;
     Playwright.Nav.loadEventEnd := 240;
     Playwright.Nav.domainLookupStart := 1;
     Playwright.Nav.domainLookupEnd := 3;
     Playwright.Nav.connectStart := 3;
     Playwright.Nav.connectEnd := 10;
     Playwright.Nav.requestStart := 10;
     Playwright.Nav.responseStart := 55;
     Playwright.Nav.responseEnd := 70 |}.

(** A browser that loads the page in 198 ms; its screenshot fails with
    [failure], when there is one. *)
Definition sample_browser (failure : option string) : Playwright.browser :=
  {| Playwright.launch := None;
     Playwright.started := time_B;
     Playwright.loadStart := 1000;
     Playwright.loadEnd := 1198;
     Playwright.goto := fun _ => Ok (Some 200%Z);
     Playwright.domEntries := Ok [sample_entry];
     Playwright.timingEntries := Ok [sample_entry];
     Playwright.screenshot := fun _ => failure;
     Playwright.close := None |}.

(** A browser that does not start. *)
Definition missing_browser : Playwright.browser :=
  {| Playwright.launch := Some "browserType.launch: Executable doesn't exist";
     Playwright.started := time_B;
     Playwright.loadStart := 0;
     Playwright.loadEnd := 0;
     Playwright.goto := fun _ => Ok None;
     Playwright.domEntries := Ok [];
     Playwright.timingEntries := Ok [];
     Playwright.screenshot := fun _ => None;
     Playwright.close := None |}.

(** The record of kylix that a probe with this browser leaves. *)
Definition probed (b : Playwright.browser) : TargetRunRecord :=
  {| target := "kylix"; url := Some "http://kylix.local";
     playwright :=
       match Playwright.runPlaywrightBenchmark sample_host b "kylix"
               (Some "http://kylix.local") with
       | Ok metrics => Some (readMetricsOf metrics)
       | Throw _ => None
       end;
     k6 := None |}.

(** Run B again, its probe stopped by the screenshot. *)
Definition run_B_broken : Run :=
  sample_run time_B [probed (sample_browser (Some "page.screenshot: Timeout 30000ms exceeded"))].

Definition sample_runs_broken : gmap string run_file :=
  {[ id_A := Stored run_A; id_B := Stored run_B_broken ]}.

(** The report on the sample runs. *)
Definition sample_report : list line :=
  match compareRuns sample_runs [id_B; id_A] with
  | Written lines => lines
  | _ => []
  end.

(** A world whose index file holds a JSON object. *)
Definition odd_world : world :=
  {| clock := 0; console := []; runs_index := OtherJson; run_files := ∅ |}.

(** A world whose index is full of entries of run B. *)
Definition full_world : world :=
  {| clock := 0; console := [];
     runs_index := Index (replicate 50 (entryOf id_B time_B run_B));
     run_files := ∅ |}.

(** * Proofs: strings and run identifiers *)

(** ** Facts about the string primitives *)

Lemma string_app_cons c s t : String c s +:+ t = String c (s +:+ t).
Proof. reflexivity. Qed.

Lemma string_app_empty t : "" +:+ t = t.
Proof. reflexivity. Qed.

Lemma app_assoc_string s1 s2 s3 : (s1 +:+ s2) +:+ s3 = s1 +:+ (s2 +:+ s3).
Proof. induction s1 as [|c s1 IH]; [done|]. rewrite !string_app_cons. by f_equal. Qed.

Lemma avoids_cons cs c s :
  JS.avoids cs (String c s) = negb (JS.char_in cs c) && JS.avoids cs s.
Proof. reflexivity. Qed.

Lemma split_pieces_cons sep c s :
  JS.split_pieces sep (String c s)
  = let (h, t) := JS.split_pieces sep s in
    if Ascii.eqb c sep then ("", h :: t) else (String c h, t).
Proof. reflexivity. Qed.

Lemma replace_class_cons cs r c s :
  JS.replace_class cs r (String c s)
  = String (if JS.char_in cs c then r else c) (JS.replace_class cs r s).
Proof. reflexivity. Qed.

Lemma avoids_app cs s1 s2 :
  JS.avoids cs (s1 +:+ s2) = JS.avoids cs s1 && JS.avoids cs s2.
Proof.
  induction s1 as [|c s1 IH]; [done|].
  rewrite string_app_cons, !avoids_cons, IH. by rewrite andb_assoc.
Qed.

Lemma replace_class_app cs r s1 s2 :
  JS.replace_class cs r (s1 +:+ s2)
  = JS.replace_class cs r s1 +:+ JS.replace_class cs r s2.
Proof.
  induction s1 as [|c s1 IH]; [done|].
  by rewrite string_app_cons, !replace_class_cons, IH, string_app_cons.
Qed.

Lemma replace_class_avoids cs r s :
  JS.avoids cs s = true -> JS.replace_class cs r s = s.
Proof.
  induction s as [|c s IH]; [done|]. rewrite avoids_cons, replace_class_cons.
  intros [Hc Hs]%andb_true_iff. apply negb_true_iff in Hc.
  rewrite Hc. f_equal. by apply IH.
Qed.

Lemma char_in_single sep c : JS.char_in [sep] c = Ascii.eqb c sep.
Proof. unfold JS.char_in. simpl. by rewrite orb_false_r. Qed.

Lemma split_pieces_avoids sep s :
  JS.avoids [sep] s = true -> JS.split_pieces sep s = (s, []).
Proof.
  induction s as [|c s IH]; [done|]. rewrite avoids_cons, split_pieces_cons.
  intros [Hc Hs]%andb_true_iff. apply negb_true_iff in Hc.
  rewrite char_in_single in Hc. rewrite IH by done. by rewrite Hc.
Qed.

Lemma split_avoids sep s : JS.avoids [sep] s = true -> JS.split sep s = [s].
Proof. intros H. unfold JS.split. by rewrite split_pieces_avoids. Qed.

Lemma split_app sep s1 s2 :
  JS.avoids [sep] s1 = true ->
  JS.split sep (s1 +:+ String sep s2) = s1 :: JS.split sep s2.
Proof.
  unfold JS.split. induction s1 as [|c s1 IH].
  - intros _. rewrite string_app_empty, split_pieces_cons, Ascii.eqb_refl.
    by destruct (JS.split_pieces sep s2).
  - rewrite avoids_cons. intros [Hc Hs]%andb_true_iff. apply negb_true_iff in Hc.
    rewrite char_in_single in Hc. rewrite string_app_cons, split_pieces_cons.
    specialize (IH Hs).
    destruct (JS.split_pieces sep (s1 +:+ String sep s2)) as [h t].
    destruct (JS.split_pieces sep s2) as [h2 t2].
    rewrite Hc. by simplify_eq.
Qed.

(** ** Digits and padded numbers *)

Lemma digit_char_cases d :
  In (digit_char d) ["0";"1";"2";"3";"4";"5";"6";"7";"8";"9"]%char.
Proof.
  unfold digit_char.
  assert (H : (0 <= d mod 10 < 10)%Z) by (apply Z.mod_pos_bound; lia).
  assert (Hn : (Z.to_nat (d mod 10) < 10)%nat) by lia.
  revert Hn. generalize (Z.to_nat (d mod 10)). intros n Hn.
  do 10 (destruct n as [|n]; [simpl; tauto|]). lia.
Qed.

(** A class without digits holds no digit character. *)
Lemma char_in_digit cs d :
  forallb (fun c => negb (JS.char_in cs c))
          ["0";"1";"2";"3";"4";"5";"6";"7";"8";"9"]%char = true ->
  JS.char_in cs (digit_char d) = false.
Proof.
  intros H. rewrite forallb_forall in H.
  apply negb_true_iff, H, digit_char_cases.
Qed.

Lemma avoids_pad cs k n :
  forallb (fun c => negb (JS.char_in cs c))
          ["0";"1";"2";"3";"4";"5";"6";"7";"8";"9"]%char = true ->
  JS.avoids cs (pad k n) = true.
Proof.
  intros H. revert n. induction k as [|k IH]; intros n; [done|].
  cbn [pad]. rewrite avoids_app, IH, avoids_cons. by rewrite char_in_digit.
Qed.

Lemma iso_year_four y : (0 <= y <= 9999)%Z -> iso_year y = pad 4 y.
Proof.
  intros Hy. unfold iso_year.
  by replace ((0 <=? y)%Z && (y <=? 9999)%Z) with true
    by (symmetry; apply andb_true_iff; lia).
Qed.

Lemma avoids_weaken cs cs' s :
  (forall c, JS.char_in cs' c = true -> JS.char_in cs c = true) ->
  JS.avoids cs s = true -> JS.avoids cs' s = true.
Proof.
  intros Hsub. induction s as [|c s IH]; [done|]. rewrite !avoids_cons.
  intros [Hc Hs]%andb_true_iff. apply andb_true_iff. split; [|by apply IH].
  apply negb_true_iff in Hc. apply negb_true_iff.
  destruct (JS.char_in cs' c) eqn:E; [|done]. apply Hsub in E. congruence.
Qed.

Lemma marks_T s : JS.avoids marks s = true -> JS.avoids ["T"]%char s = true.
Proof.
  apply avoids_weaken. intros c. unfold marks, JS.char_in. simpl.
  destruct (Ascii.eqb c "T"); [done|]. by rewrite !orb_false_r.
Qed.

Lemma marks_dot s : JS.avoids marks s = true -> JS.avoids ["."]%char s = true.
Proof.
  apply avoids_weaken. intros c. unfold marks, JS.char_in. simpl.
  destruct (Ascii.eqb c "."); [by rewrite !orb_true_r|]. by rewrite !orb_false_r.
Qed.

Lemma marks_colon s : JS.avoids marks s = true -> JS.avoids [":"]%char s = true.
Proof.
  apply avoids_weaken. intros c. unfold marks, JS.char_in. simpl.
  destruct (Ascii.eqb c ":"); [by rewrite !orb_true_r|]. by rewrite !orb_false_r.
Qed.

Lemma marks_colon_dot s :
  JS.avoids marks s = true -> JS.avoids [":"; "."]%char s = true.
Proof.
  apply avoids_weaken. intros c. unfold marks, JS.char_in. simpl.
  destruct (Ascii.eqb c ":"), (Ascii.eqb c "."); by rewrite ?orb_true_r.
Qed.

(** [runIdOf] on a string of the ISO shape, whatever fills its fields. *)
Lemma runIdOf_shape Y Mo D H Mi S ms :
  JS.avoids marks Y = true -> JS.avoids marks Mo = true ->
  JS.avoids marks D = true -> JS.avoids marks H = true ->
  JS.avoids marks Mi = true -> JS.avoids marks S = true ->
  JS.avoids marks ms = true ->
  runIdOf (Y +:+ "-" +:+ Mo +:+ "-" +:+ D +:+ "T" +:+ H +:+ ":" +:+ Mi
           +:+ ":" +:+ S +:+ "." +:+ ms +:+ "Z")
  = Some (Y +:+ "-" +:+ Mo +:+ "-" +:+ D +:+ "_" +:+ H +:+ "-" +:+ Mi
          +:+ "-" +:+ S).
Proof.
  intros HY HMo HD HH HMi HS Hms.
  set (date := Y +:+ "-" +:+ Mo +:+ "-" +:+ D).
  set (time := H +:+ ":" +:+ Mi +:+ ":" +:+ S).
  assert (Hdate : JS.avoids marks date = true).
  { unfold date. rewrite !avoids_app, HY, HMo, HD. reflexivity. }
  assert (Htime : JS.avoids ["T"; "."]%char time = true).
  { unfold time. rewrite !avoids_app.
    rewrite (avoids_weaken marks _ H), (avoids_weaken marks _ Mi),
      (avoids_weaken marks _ S); try done;
      intros c; unfold marks, JS.char_in; simpl;
      destruct (Ascii.eqb c "T"), (Ascii.eqb c "."); by rewrite ?orb_true_r. }
  assert (Htail : JS.avoids ["T"]%char (ms +:+ "Z") = true).
  { by rewrite avoids_app, (marks_T _ Hms). }
  assert (Hshape : Y +:+ "-" +:+ Mo +:+ "-" +:+ D +:+ "T" +:+ H +:+ ":" +:+ Mi
                   +:+ ":" +:+ S +:+ "." +:+ ms +:+ "Z"
                   = date +:+ String "T" (time +:+ String "." (ms +:+ "Z"))).
  { unfold date, time. by rewrite !app_assoc_string. }
  rewrite Hshape. clear Hshape.
  assert (HtimeT : JS.avoids ["T"]%char time = true).
  { revert Htime. apply avoids_weaken. intros c. unfold JS.char_in. simpl.
    destruct (Ascii.eqb c "T"); by rewrite ?orb_true_r. }
  assert (HtimeD : JS.avoids ["."]%char time = true).
  { revert Htime. apply avoids_weaken. intros c. unfold JS.char_in. simpl.
    destruct (Ascii.eqb c "."); by rewrite ?orb_true_r. }
  assert (Hrepl : JS.replace_class [":"]%char "-" time = H +:+ "-" +:+ Mi +:+ "-" +:+ S).
  { unfold time. rewrite !replace_class_app.
    rewrite (replace_class_avoids _ _ H), (replace_class_avoids _ _ Mi),
      (replace_class_avoids _ _ S) by by apply marks_colon.
    reflexivity. }
  clearbody time.
  unfold runIdOf.
  rewrite replace_class_app, (replace_class_avoids _ _ _ (marks_colon_dot _ Hdate)).
  change (JS.replace_class [":"; "."]%char "-" (String "T" ?r))
    with (String "T" (JS.replace_class [":"; "."]%char "-" r)).
  rewrite !split_app by by apply marks_T.
  rewrite (split_avoids "T").
  2:{ rewrite avoids_app, HtimeT. exact Htail. }
  cbn [head hd_error lookup list_lookup mbind option_bind].
  rewrite split_app by done.
  cbn [head hd_error mbind option_bind].
  rewrite Hrepl. unfold date. by rewrite !app_assoc_string.
Qed.

Lemma avoids_marks_pad k n : JS.avoids marks (pad k n) = true.
Proof. by apply avoids_pad. Qed.

Lemma avoids_marks_iso_year y : JS.avoids marks (iso_year y) = true.
Proof.
  unfold iso_year. destruct (_ && _); [apply avoids_marks_pad|].
  destruct (y <? 0)%Z; by rewrite avoids_app, avoids_marks_pad.
Qed.

(** [runIdOf] on an ISO string. *)
Lemma runIdOf_toISOString t : runIdOf (toISOString t) = Some (runId_text t).
Proof.
  unfold toISOString, runId_text.
  apply runIdOf_shape; first [apply avoids_marks_pad | apply avoids_marks_iso_year].
Qed.

Lemma digit_char_compare n m :
  Ascii.compare (digit_char n) (digit_char m) = (n mod 10 ?= m mod 10)%Z.
Proof.
  unfold digit_char.
  assert (Hn : (0 <= n mod 10 < 10)%Z) by (apply Z.mod_pos_bound; lia).
  assert (Hm : (0 <= m mod 10 < 10)%Z) by (apply Z.mod_pos_bound; lia).
  revert Hn Hm. generalize (n mod 10)%Z (m mod 10)%Z. intros x y Hx Hy.
  assert (Ex : In x [0;1;2;3;4;5;6;7;8;9]%Z) by (simpl; lia).
  assert (Ey : In y [0;1;2;3;4;5;6;7;8;9]%Z) by (simpl; lia).
  simpl in Ex, Ey.
  repeat (destruct Ex as [<-|Ex]; [repeat (destruct Ey as [<-|Ey]; [reflexivity|]); done|]).
  done.
Qed.

Lemma compare_cons a b s s' :
  String.compare (String a s) (String b s')
  = match Ascii.compare a b with
    | Eq => String.compare s s'
    | c => c
    end.
Proof. simpl. by destruct (Ascii.compare a b). Qed.

Lemma compare_same_head c s s' :
  String.compare (String c s) (String c s') = String.compare s s'.
Proof.
  rewrite compare_cons.
  assert (Ascii.compare c c = Eq) as ->; [|done].
  unfold Ascii.compare. apply N.compare_refl.
Qed.

Lemma compare_sep c s s' :
  String.compare (String c "" +:+ s) (String c "" +:+ s') = String.compare s s'.
Proof. rewrite !string_app_cons, !string_app_empty. apply compare_same_head. Qed.

(** Padded numbers of one width compare as the numbers do. *)
Lemma pad_compare k n m s s' :
  (0 <= n < 10 ^ Z.of_nat k)%Z -> (0 <= m < 10 ^ Z.of_nat k)%Z ->
  String.compare (pad k n +:+ s) (pad k m +:+ s')
  = match (n ?= m)%Z with
    | Eq => String.compare s s'
    | c => c
    end.
Proof.
  revert n m s s'. induction k as [|k IH]; intros n m s s' Hn Hm.
  - change (10 ^ Z.of_nat 0)%Z with 1%Z in *.
    assert (n = 0%Z) as -> by lia. assert (m = 0%Z) as -> by lia. done.
  - cbn [pad]. rewrite !app_assoc_string, !string_app_cons, !string_app_empty.
    assert (Hpow : (10 ^ Z.of_nat (S k) = 10 * 10 ^ Z.of_nat k)%Z).
    { rewrite Nat2Z.inj_succ, Z.pow_succ_r by lia. done. }
    rewrite Hpow in Hn, Hm.
    rewrite IH by (split; [apply Z.div_pos; lia | apply Z.div_lt_upper_bound; lia]).
    rewrite compare_cons, digit_char_compare.
    pose proof (Z.div_mod n 10 ltac:(lia)) as En.
    pose proof (Z.div_mod m 10 ltac:(lia)) as Em.
    pose proof (Z.mod_pos_bound n 10 ltac:(lia)).
    pose proof (Z.mod_pos_bound m 10 ltac:(lia)).
    destruct (Z.compare_spec (n / 10) (m / 10)),
             (Z.compare_spec (n mod 10) (m mod 10)),
             (Z.compare_spec n m); try done; lia.
Qed.

Lemma pad_compare_last k n m :
  (0 <= n < 10 ^ Z.of_nat k)%Z -> (0 <= m < 10 ^ Z.of_nat k)%Z ->
  String.compare (pad k n) (pad k m) = (n ?= m)%Z.
Proof.
  intros Hn Hm.
  assert (Hnil : forall s, s = s +:+ "").
  { induction s as [|c s IHs]; [done|]. rewrite string_app_cons. by f_equal. }
  rewrite (Hnil (pad k n)), (Hnil (pad k m)), pad_compare by done.
  by destruct (n ?= m)%Z.
Qed.

(** The identifiers of two well-formed times compare as the times do. *)
Lemma runId_text_lt a b :
  utc_wf a -> utc_wf b -> earlier_second a b ->
  String.compare (runId_text a) (runId_text b) = Lt.
Proof.
  intros [] [] He. unfold runId_text, earlier_second in *.
  rewrite !iso_year_four by done.
  rewrite pad_compare by (simpl; lia).
  destruct (Z.compare_spec (year a) (year b)); [|done|lia].
  rewrite compare_sep, pad_compare by (simpl; lia).
  destruct (Z.compare_spec (month a) (month b)); [|done|lia].
  rewrite compare_sep, pad_compare by (simpl; lia).
  destruct (Z.compare_spec (day a) (day b)); [|done|lia].
  rewrite compare_sep, pad_compare by (simpl; lia).
  destruct (Z.compare_spec (hour a) (hour b)); [|done|lia].
  rewrite compare_sep, pad_compare by (simpl; lia).
  destruct (Z.compare_spec (minute a) (minute b)); [|done|lia].
  rewrite compare_sep, pad_compare_last by (simpl; lia).
  apply Z.compare_lt_iff. lia.
Qed.

(** ** The calendar *)

(** The day number in closed form. *)
Lemma days_from_civil_eq y m d :
  days_from_civil y m d =
  (let y' := if (m <=? 2)%Z then y - 1 else y in
   let mp := if (m <=? 2)%Z then m + 9 else m - 3 in
   365 * y' + y' / 4 - y' / 100 + y' / 400 + (153 * mp + 2) / 5 + d - 719469)%Z.
Proof.
  unfold days_from_civil. cbv zeta.
  destruct (m <=? 2)%Z; Z.div_mod_to_equations; lia.
Qed.

(** A later month of a year starts after the last day of an earlier one. *)
Lemma days_from_civil_month y m d m' d' :
  (1 <= m < m')%Z -> (m' <= 12)%Z ->
  (d <= days_in_month y m)%Z -> (1 <= d')%Z ->
  (days_from_civil y m d < days_from_civil y m' d')%Z.
Proof.
  intros Hm Hm' Hd Hd'.
  rewrite !days_from_civil_eq. cbv zeta.
  unfold days_in_month, leap in Hd.
  assert (Hc : (m = 1 \/ m = 2 \/ m = 3 \/ m = 4 \/ m = 5 \/ m = 6 \/ m = 7 \/
               m = 8 \/ m = 9 \/ m = 10 \/ m = 11)%Z) by lia.
  assert (Hc' : (m' = 2 \/ m' = 3 \/ m' = 4 \/ m' = 5 \/ m' = 6 \/ m' = 7 \/
                m' = 8 \/ m' = 9 \/ m' = 10 \/ m' = 11 \/ m' = 12)%Z) by lia.
  repeat (destruct Hc as [->|Hc]); try subst m;
  repeat (destruct Hc' as [->|Hc']); try subst m';
  try lia; cbn in Hd |- *.
  all: try lia.
  all: destruct (y mod 4 =? 0)%Z eqn:E4; destruct (y mod 100 =? 0)%Z eqn:E100;
       destruct (y mod 400 =? 0)%Z eqn:E400; cbn in Hd;
       Z.div_mod_to_equations; lia.
Qed.

Lemma days_in_month_bounds y m : (28 <= days_in_month y m <= 31)%Z.
Proof.
  unfold days_in_month.
  destruct (m =? 2)%Z; [destruct (leap y); lia|].
  destruct ((m =? 4) || (m =? 6) || (m =? 9) || (m =? 11))%Z; lia.
Qed.

(** A later year starts after the last day of an earlier one. *)
Lemma days_from_civil_year y m d y' m' d' :
  (y < y')%Z -> (1 <= m <= 12)%Z -> (d <= days_in_month y m)%Z ->
  (1 <= m' <= 12)%Z -> (1 <= d')%Z ->
  (days_from_civil y m d < days_from_civil y' m' d')%Z.
Proof.
  intros Hy Hm Hd Hm' Hd'.
  assert (Hup : (days_from_civil y m d <= days_from_civil y 12 31)%Z).
  { destruct (decide (m = 12%Z)) as [->|Hne].
    - pose proof (days_in_month_bounds y 12%Z).
      rewrite !days_from_civil_eq. cbn. lia.
    - apply Z.lt_le_incl, days_from_civil_month; lia. }
  assert (Hlow : (days_from_civil y' 1 1 <= days_from_civil y' m' d')%Z).
  { destruct (decide (m' = 1%Z)) as [->|Hne].
    - rewrite !days_from_civil_eq. cbn. lia.
    - apply Z.lt_le_incl, days_from_civil_month; try lia.
      pose proof (days_in_month_bounds y' 1%Z). lia. }
  assert (Hstep : (days_from_civil y 12 31 < days_from_civil y' 1 1)%Z).
  { rewrite !days_from_civil_eq. cbn. Z.div_mod_to_equations. lia. }
  lia.
Qed.

Lemma days_from_civil_lt a b :
  calendar a -> calendar b -> earlier_date a b ->
  (days_from_civil (year a) (month a) (day a)
   < days_from_civil (year b) (month b) (day b))%Z.
Proof.
  intros [[] Hda] [[] Hdb] [Hy|[Hy [Hm|[Hm Hd]]]].
  - apply days_from_civil_year; lia.
  - rewrite Hy. apply days_from_civil_month; try lia. by rewrite <- Hy.
  - rewrite Hy, Hm, !days_from_civil_eq. cbv zeta. lia.
Qed.

Lemma seconds_eq t :
  (0 <= millisecond t <= 999)%Z ->
  seconds t =
  (((days_from_civil (year t) (month t) (day t) * 24 + hour t) * 60
    + minute t) * 60 + second t)%Z.
Proof.
  intros H. unfold seconds, Date_ms.
  symmetry. apply Z.div_unique with (r := millisecond t); lia.
Qed.

(** The order of the printed fields is the order of the time values. *)
Lemma earlier_second_seconds a b :
  calendar a -> calendar b ->
  earlier_second a b <-> (seconds a < seconds b)%Z.
Proof.
  intros Ha Hb.
  pose proof (days_from_civil_lt a b Ha Hb) as Hab.
  pose proof (days_from_civil_lt b a Hb Ha) as Hba.
  destruct Ha as [[] _], Hb as [[] _].
  rewrite !seconds_eq by done.
  unfold earlier_second, earlier_date in *.
  destruct (Z.lt_trichotomy (year a) (year b)) as [Hy|[Hy|Hy]];
    [| |split; lia]; [split; lia|].
  destruct (Z.lt_trichotomy (month a) (month b)) as [Hm|[Hm|Hm]];
    [| |split; lia]; [split; lia|].
  destruct (Z.lt_trichotomy (day a) (day b)) as [Hd|[Hd|Hd]];
    [| |split; lia]; [split; lia|].
  rewrite Hy, Hm, Hd. split; lia.
Qed.

(** * Proofs: the comparison report *)

(** ** Minimum and maximum *)

Lemma foldl_min_spec (xs : list Z) (x : Z) :
  foldl Z.min x xs ∈ x :: xs /\ (forall v, v ∈ x :: xs -> (foldl Z.min x xs <= v)%Z).
Proof.
  revert x. induction xs as [|y xs IH]; intros x; simpl.
  - split; [by left|]. intros v Hv. apply list_elem_of_singleton in Hv. lia.
  - destruct (IH (Z.min x y)) as [Hin Hle]. split.
    + apply elem_of_cons in Hin as [Hin|Hin]; [|by do 2 right].
      rewrite Hin. destruct (Z.min_spec x y) as [[_ ->]|[_ ->]];
        [by left|right; by left].
    + intros v Hv.
      assert (foldl Z.min (Z.min x y) xs <= Z.min x y)%Z by (apply Hle; by left).
      apply elem_of_cons in Hv as [->|Hv]; [lia|].
      apply elem_of_cons in Hv as [->|Hv]; [lia|]. apply Hle. by right.
Qed.

Lemma foldl_max_spec (xs : list Z) (x : Z) :
  foldl Z.max x xs ∈ x :: xs /\ (forall v, v ∈ x :: xs -> (v <= foldl Z.max x xs)%Z).
Proof.
  revert x. induction xs as [|y xs IH]; intros x; simpl.
  - split; [by left|]. intros v Hv. apply list_elem_of_singleton in Hv. lia.
  - destruct (IH (Z.max x y)) as [Hin Hle]. split.
    + apply elem_of_cons in Hin as [Hin|Hin]; [|by do 2 right].
      rewrite Hin. destruct (Z.max_spec x y) as [[_ ->]|[_ ->]];
        [right; by left|by left].
    + intros v Hv.
      assert (Z.max x y <= foldl Z.max (Z.max x y) xs)%Z by (apply Hle; by left).
      apply elem_of_cons in Hv as [->|Hv]; [lia|].
      apply elem_of_cons in Hv as [->|Hv]; [lia|]. apply Hle. by right.
Qed.

Lemma Math_min_spec (nums : list Z) :
  nums <> [] ->
  exists lo, Math_min nums = Some lo /\ lo ∈ nums /\ forall v, v ∈ nums -> (lo <= v)%Z.
Proof.
  destruct nums as [|x xs]; [done|]. intros _. eexists. split; [done|].
  apply foldl_min_spec.
Qed.

Lemma Math_max_spec (nums : list Z) :
  nums <> [] ->
  exists hi, Math_max nums = Some hi /\ hi ∈ nums /\ forall v, v ∈ nums -> (v <= hi)%Z.
Proof.
  destruct nums as [|x xs]; [done|]. intros _. eexists. split; [done|].
  apply foldl_max_spec.
Qed.

(** ** The marker of a value *)

Lemma display_spec n lo hi value :
  (2 <= n)%nat ->
  display n (Some lo) (Some hi) value
  = if decide (value = lo) then Best
    else if decide (value = hi) then Worst else Plain.
Proof.
  intros Hn. unfold display.
  assert ((1 <? n)%nat = true) as -> by (apply Nat.ltb_lt; lia).
  rewrite !andb_true_r.
  destruct (decide (value = lo)) as [->|Hlo].
  - by rewrite bool_decide_eq_true_2.
  - rewrite bool_decide_eq_false_2 by congruence.
    destruct (decide (value = hi)) as [->|Hhi].
    + by rewrite bool_decide_eq_true_2.
    + by rewrite bool_decide_eq_false_2 by congruence.
Qed.

(** ** Rows *)

Lemma mapM_id_Some (values : list (option Z)) (vs : list Z) :
  mapM id values = Some vs <-> values = Some <$> vs.
Proof.
  rewrite mapM_Some. split.
  - intros H. induction H as [|? ? ? ? Hx _ IH]; [done|].
    simpl in Hx. by rewrite fmap_cons, Hx, IH.
  - intros ->. induction vs; constructor; done.
Qed.

Lemma metricRow_defined n tms metric vs :
  (fun tm => tm_playwright tm !! metric) <$> tms = Some <$> vs ->
  metricRow n tms metric
  = [LRow metric ((fun value => (display n (Math_min vs) (Math_max vs) value, value)) <$> vs)].
Proof.
  intros H. unfold metricRow. apply mapM_id_Some in H. by rewrite H.
Qed.

Lemma metricRow_undefined n tms metric :
  ~ Forall (fun tm => is_Some (tm_playwright tm !! metric)) tms ->
  metricRow n tms metric = [].
Proof.
  intros H. unfold metricRow.
  destruct (mapM id _) as [vs|] eqn:E; [|done]. exfalso. apply H.
  apply mapM_id_Some in E. apply Forall_forall. intros tm Htm.
  apply (list_elem_of_fmap_2 (fun tm => tm_playwright tm !! metric)) in Htm.
  rewrite E in Htm. apply list_elem_of_fmap in Htm as (v & -> & _). by eexists.
Qed.

Lemma all_defined_values tms metric :
  Forall (fun tm => is_Some (tm_playwright tm !! metric)) tms ->
  exists vs, (fun tm => tm_playwright tm !! metric) <$> tms = Some <$> vs.
Proof.
  induction 1 as [|tm tms [v Hv] _ [vs IH]]; [by exists []|].
  exists (v :: vs). by rewrite !fmap_cons, Hv, IH.
Qed.

(** ** Objects and sets *)

Lemma obj_get_is_Some {V} (k : string) (o : object V) :
  is_Some (obj_get k o) <-> k ∈ obj_keys o.
Proof.
  unfold obj_keys. induction o as [|[k' v] o IH].
  - split; [by intros [? ?]|]. by intros ?%elem_of_nil.
  - rewrite fmap_cons, elem_of_cons. simpl. destruct (decide (k = k')) as [->|Hne].
    + split; [by left|by eexists].
    + rewrite IH. split; [by right|]. by intros [?|?].
Qed.

Lemma obj_get_None {V} (k : string) (o : object V) :
  obj_get k o = None <-> k ∉ obj_keys o.
Proof.
  rewrite <- obj_get_is_Some. destruct (obj_get k o) as [v|].
  - split; [done|]. intros H. exfalso. apply H. by exists v.
  - split; [|done]. intros _ [v Hv]. discriminate Hv.
Qed.

Lemma obj_get_obj_replace {V} (k k' : string) (v : V) o :
  is_Some (obj_get k o) ->
  obj_get k' (obj_replace k v o) = if decide (k' = k) then Some v else obj_get k' o.
Proof.
  induction o as [|[k0 v0] o IH]; simpl; [by intros [? ?]|].
  destruct (decide (k = k0)) as [<-|Hne]; simpl.
  - intros _. by destruct (decide (k' = k)).
  - intros H. destruct (decide (k' = k0)) as [->|Hne'].
    + by destruct (decide (k0 = k)).
    + by apply IH.
Qed.

Lemma obj_get_obj_insert {V} (k k' : string) (v : V) o :
  obj_get k o = None ->
  obj_get k' (obj_insert k v o) = if decide (k' = k) then Some v else obj_get k' o.
Proof.
  induction o as [|[k0 v0] o IH]; simpl; [done|].
  destruct (decide (k = k0)) as [<-|Hne]; [done|]. intros H.
  destruct (listed_before k k0); simpl.
  - by destruct (decide (k' = k)).
  - destruct (decide (k' = k0)) as [->|Hne'].
    + by destruct (decide (k0 = k)).
    + by apply IH.
Qed.

(** A property that is set is there; the others stay. *)
Lemma obj_get_obj_set {V} (k k' : string) (v : V) o :
  obj_get k' (obj_set k v o) = if decide (k' = k) then Some v else obj_get k' o.
Proof.
  unfold obj_set. destruct (decide (is_Some (obj_get k o))) as [H|H].
  - by apply obj_get_obj_replace.
  - apply obj_get_obj_insert. by destruct (obj_get k o); [destruct H; eexists|].
Qed.

Lemma obj_keys_obj_replace {V} (k : string) (v : V) o :
  is_Some (obj_get k o) -> obj_keys (obj_replace k v o) = obj_keys o.
Proof.
  unfold obj_keys. induction o as [|[k0 v0] o IH]; simpl; [done|].
  destruct (decide (k = k0)) as [<-|Hne]; [done|].
  intros H. rewrite !fmap_cons. simpl. by rewrite IH.
Qed.

Lemma obj_keys_obj_insert {V} (k : string) (v : V) o :
  obj_keys (obj_insert k v o) ≡ₚ k :: obj_keys o.
Proof.
  unfold obj_keys. induction o as [|[k0 v0] o IH]; simpl; [done|].
  destruct (listed_before k k0); [done|].
  rewrite !fmap_cons, IH. simpl. apply Permutation_swap.
Qed.

Lemma elem_of_obj_keys_obj_set {V} (k k' : string) (v : V) o :
  k' ∈ obj_keys (obj_set k v o) <-> k' = k \/ k' ∈ obj_keys o.
Proof.
  rewrite <- !obj_get_is_Some, obj_get_obj_set.
  destruct (decide (k' = k)) as [->|Hne].
  - split; [by left|by eexists].
  - split; [by right|]. by intros [?|?].
Qed.

(** A key is listed once. *)
Lemma NoDup_obj_keys_obj_set {V} (k : string) (v : V) o :
  NoDup (obj_keys o) -> NoDup (obj_keys (obj_set k v o)).
Proof.
  intros Ho. unfold obj_set. destruct (decide (is_Some (obj_get k o))) as [H|H].
  - by rewrite obj_keys_obj_replace.
  - rewrite obj_keys_obj_insert. constructor; [|done]. by rewrite <- obj_get_is_Some.
Qed.

Lemma elem_of_set_add x k s : x ∈ set_add k s <-> x = k \/ x ∈ s.
Proof.
  unfold set_add. destruct (decide (k ∈ s)).
  - split; [by right|]. by intros [->|?].
  - rewrite elem_of_app, list_elem_of_singleton. tauto.
Qed.

Lemma NoDup_set_add k s : NoDup s -> NoDup (set_add k s).
Proof.
  intros Hs. unfold set_add. destruct (decide (k ∈ s)); [done|].
  apply NoDup_app. split; [done|]. split; [|apply NoDup_singleton].
  intros x Hx ->%list_elem_of_singleton. done.
Qed.

Lemma elem_of_foldl_set_add x ks s :
  x ∈ foldl (fun s k => set_add k s) s ks <-> x ∈ ks \/ x ∈ s.
Proof.
  revert s. induction ks as [|k ks IH]; intros s; simpl.
  - rewrite elem_of_nil. tauto.
  - rewrite IH, elem_of_set_add, elem_of_cons. tauto.
Qed.

Lemma NoDup_foldl_set_add ks s :
  NoDup s -> NoDup (foldl (fun s k => set_add k s) s ks).
Proof.
  revert s. induction ks as [|k ks IH]; intros s Hs; simpl; [done|].
  by apply IH, NoDup_set_add.
Qed.

Lemma elem_of_foldl_addTargets x runs s :
  x ∈ foldl addTargets s runs
  <-> (exists run, run ∈ runs /\ x ∈ obj_keys (own (metrics run))) \/ x ∈ s.
Proof.
  revert s. induction runs as [|run runs IH]; intros s; simpl.
  - split; [by right|]. intros [(run & ?%elem_of_nil & _)|?]; done.
  - rewrite IH. unfold addTargets. rewrite elem_of_foldl_set_add.
    split.
    + intros [(r & Hr & Hx)|[Hx|Hx]]; [left; exists r|left; exists run|by right];
        split; try done; [by right|by left].
    + intros [(r & Hr & Hx)|Hx]; [|by right; right].
      apply elem_of_cons in Hr as [->|Hr]; [by right; left|left; by exists r].
Qed.

(** A target is listed when it is a key of some run. *)
Lemma elem_of_allTargets x runs :
  x ∈ allTargets runs <-> exists run, run ∈ runs /\ x ∈ obj_keys (own (metrics run)).
Proof.
  unfold allTargets. rewrite elem_of_foldl_addTargets, elem_of_nil. tauto.
Qed.

(** A target is listed once. *)
Lemma NoDup_allTargets runs : NoDup (allTargets runs).
Proof.
  unfold allTargets. generalize (NoDup_nil_2 (A := string)).
  generalize (@nil string). induction runs as [|run runs IH]; intros s Hs; simpl; [done|].
  by apply IH, NoDup_foldl_set_add.
Qed.

(** ** Sorting *)

Lemma sort_insert_Permutation {A} (cmp : A -> A -> Z) x l :
  sort_insert cmp x l ≡ₚ x :: l.
Proof.
  induction l as [|y l IH]; simpl; [done|].
  destruct (cmp x y <=? 0)%Z; [done|]. rewrite IH. apply Permutation_swap.
Qed.

Lemma Array_sort_Permutation {A} (cmp : A -> A -> Z) l : Array_sort cmp l ≡ₚ l.
Proof.
  induction l as [|x l IH]; simpl; [done|].
  by rewrite sort_insert_Permutation, IH.
Qed.

Lemma Array_sort_length {A} (cmp : A -> A -> Z) l :
  length (Array_sort cmp l) = length l.
Proof. by rewrite Array_sort_Permutation. Qed.

(** ** What [extractMetrics] keeps of a stored run *)

Lemma last_filter_snoc {A} (P : A -> Prop) `{!forall x, Decision (P x)} l x :
  last (filter P (l ++ [x])) = if decide (P x) then Some x else last (filter P l).
Proof.
  rewrite filter_app, filter_cons, filter_nil.
  destruct (decide (P x)); [by rewrite last_snoc|by rewrite app_nil_r].
Qed.

Lemma foldl_snoc {A B} (f : A -> B -> A) a l x :
  foldl f a (l ++ [x]) = f (foldl f a l) x.
Proof. by rewrite foldl_app. Qed.

(** The own properties of the metrics: the last record under a name
    counts, and a record named [__proto__] leaves none. *)
Lemma extractMetrics_get run name :
  obj_get name (own (extractMetrics run))
  = if decide (name = "__proto__") then None
    else extractTarget <$> last (recordsOf name run).
Proof.
  unfold extractMetrics, recordsOf.
  induction (targets run) as [|t ts IH] using rev_ind.
  - by destruct (decide _).
  - rewrite foldl_snoc, last_filter_snoc. unfold setTarget at 1.
    destruct (decide (target t = "__proto__")) as [Ht|Ht]; simpl.
    + rewrite IH. destruct (decide (name = "__proto__")) as [->|Hn]; [done|].
      destruct (decide (target t = name)); [congruence|done].
    + rewrite obj_get_obj_set, IH.
      destruct (decide (name = target t)) as [->|Hn].
      * rewrite decide_False by done. by rewrite decide_True by done.
      * by rewrite (decide_False (P := target t = name)) by congruence.
Qed.

(** The prototype of the metrics: the last record named [__proto__]. *)
Lemma extractMetrics_proto run :
  proto (extractMetrics run) = extractTarget <$> last (recordsOf "__proto__" run).
Proof.
  unfold extractMetrics, recordsOf.
  induction (targets run) as [|t ts IH] using rev_ind; [done|].
  rewrite foldl_snoc, last_filter_snoc. unfold setTarget at 1.
  destruct (decide (target t = "__proto__")) as [Ht|Ht]; simpl; [done|]. exact IH.
Qed.

(** The keys of the metrics: the names of the records, [__proto__] apart. *)
Lemma elem_of_extractMetrics_keys run name :
  name ∈ obj_keys (own (extractMetrics run))
  <-> name <> "__proto__" /\ name ∈ target <$> targets run.
Proof.
  rewrite <- obj_get_is_Some, extractMetrics_get.
  assert (Hlast : is_Some (last (recordsOf name run)) <-> name ∈ target <$> targets run).
  { unfold recordsOf. rewrite list_elem_of_fmap. split.
    - intros [t Ht]. apply last_Some_elem_of in Ht.
      apply list_elem_of_filter in Ht as [Hn Ht]. by exists t.
    - intros (t & -> & Ht).
      assert (Hin : t ∈ filter (fun t' => target t' = target t) (targets run))
        by by apply list_elem_of_filter.
      destruct (filter _ (targets run)) as [|t0 l] eqn:E using rev_ind;
        [by apply elem_of_nil in Hin|].
      rewrite last_snoc. by eexists. }
  destruct (decide (name = "__proto__")) as [->|Hn].
  - split; [by intros [? ?]|]. by intros [? _].
  - rewrite fmap_is_Some, Hlast. tauto.
Qed.

Lemma NoDup_extractMetrics_keys run : NoDup (obj_keys (own (extractMetrics run))).
Proof.
  unfold extractMetrics.
  induction (targets run) as [|t ts IH] using rev_ind; [constructor|].
  rewrite foldl_snoc. unfold setTarget at 1.
  destruct (decide (target t = "__proto__")); simpl; [done|].
  by apply NoDup_obj_keys_obj_set.
Qed.

Lemma assign_lookup k v (o : gmap string Z) k' :
  assign k v o !! k' = if decide (k' = k) then v else o !! k'.
Proof.
  unfold assign. destruct v as [z|], (decide (k' = k)) as [->|Hne].
  - by rewrite lookup_insert_eq.
  - by rewrite lookup_insert_ne.
  - by rewrite lookup_delete_eq.
  - by rewrite lookup_delete_ne.
Qed.

(** A metric of the tests: that of the last test of its kind. *)
Lemma extractTests_lookup tests metric :
  foldl extractTest ∅ tests !! metric
  = last (filter (fun test => test_name test = testOf metric) tests) ≫= fieldOf metric.
Proof.
  induction tests as [|test tests IH] using rev_ind; [done|].
  rewrite foldl_snoc, last_filter_snoc. unfold extractTest at 1.
  repeat match goal with
         | |- context [decide (test_name test = ?n)] =>
             destruct (decide (test_name test = n)) as [Hname|?]
         end;
    rewrite ?assign_lookup, ?IH; try rewrite Hname;
    unfold testOf, fieldOf;
    repeat match goal with
           | |- context [decide (metric = ?m)] =>
               destruct (decide (metric = m)) as [->|?]
           end;
    simpl; try done; try congruence;
    repeat case_bool_decide; simpl; try done;
    repeat match goal with
           | H : _ ∈ _ |- _ => apply list_elem_of_In in H; simpl in H; tauto
           | H : ~ (_ ∈ _) |- _ =>
               exfalso; apply H; apply list_elem_of_In; simpl; tauto
           end;
    try (rewrite decide_False by congruence; done);
    try (rewrite decide_True by congruence; done);
    match goal with |- ?x ≫= _ = None => by destruct x end.
Qed.

(** The metrics of a record are the values that it holds. *)
Lemma extractTarget_measured t metric :
  tm_playwright (extractTarget t) !! metric = measuredOf t metric.
Proof.
  unfold extractTarget, measuredOf. simpl.
  destruct (playwright t) as [p|]; simpl; [|done].
  destruct (JS.truthy_opt (playwright_error p)); simpl; [done|].
  apply extractTests_lookup.
Qed.


(** ** The structure of a comparison *)

Lemma loadRuns_inr d ids loaded :
  loadRuns d ids = inr loaded ->
  Forall2 (fun id lr => exists run, d !! id = Some (Stored run) /\
             lr = {| lr_runId := id; lr_timestamp := timestamp run;
                     metrics := extractMetrics run |}) ids loaded.
Proof.
  revert loaded. induction ids as [|id ids IH]; intros loaded; simpl.
  - intros [= <-]. constructor.
  - unfold loadRun. destruct (d !! id) as [[e|run]|] eqn:E; try done.
    destruct (loadRuns d ids) as [e|rest]; [done|]. intros [= <-].
    constructor; [by eexists|]. by apply IH.
Qed.

Lemma loadRuns_fmap d ids loaded :
  loadRuns d ids = inr loaded -> loaded = loadedAs d <$> ids.
Proof.
  intros H%loadRuns_inr.
  induction H as [|id lr ids loaded (run & Hrun & ->) _ IH]; [done|].
  rewrite fmap_cons, IH. f_equal. unfold loadedAs. by rewrite Hrun.
Qed.

(** The runs that a comparison loads are the stored runs of its
    identifiers. *)
Lemma loadRuns_loads d ids :
  Forall (fun id => exists run, d !! id = Some (Stored run)) ids ->
  loadRuns d ids = inr (loadedAs d <$> ids).
Proof.
  induction 1 as [|id ids [run Hrun] _ IH]; [done|].
  simpl. unfold loadRun. rewrite Hrun, IH. unfold loadedAs at 2. by rewrite Hrun.
Qed.

Lemma loadRuns_inr_loads d ids loaded :
  loadRuns d ids = inr loaded ->
  Forall (fun id => exists run, d !! id = Some (Stored run)) ids.
Proof.
  intros H%loadRuns_inr. induction H as [|id lr ids loaded (run & Hrun & _) _ IH];
    constructor; [by exists run|done].
Qed.

Lemma mapM_Forall2 {A B} (f : A -> option B) l k :
  mapM f l = Some k <-> Forall2 (fun x y => f x = Some y) l k.
Proof. apply mapM_Some. Qed.

Lemma elem_of_flat_map {A B} (f : A -> list B) (l : list A) (y : B) :
  y ∈ flat_map f l <-> exists x, x ∈ l /\ y ∈ f x.
Proof.
  rewrite list_elem_of_In, in_flat_map. setoid_rewrite list_elem_of_In. done.
Qed.

Lemma compareTargets_sections runs targets sections :
  Forall2 (fun target section => compareTarget runs target = Ok section)
          targets sections ->
  compareTargets runs targets = Ok (concat sections).
Proof.
  induction 1 as [|target section targets sections Hsection _ IH]; [done|].
  simpl. by rewrite Hsection, IH.
Qed.

Lemma elem_of_concat {A} (x : A) (ls : list (list A)) :
  x ∈ concat ls <-> exists l, x ∈ l /\ l ∈ ls.
Proof.
  rewrite list_elem_of_In, in_concat. setoid_rewrite list_elem_of_In.
  split; intros (l & ? & ?); by exists l.
Qed.

(** The sections of a report: one for each target, none of which throws. *)
Lemma compareTargets_Ok runs targets lines :
  compareTargets runs targets = Ok lines <->
  exists sections,
    Forall2 (fun target section => compareTarget runs target = Ok section)
            targets sections /\
    lines = concat sections.
Proof.
  split.
  - revert lines. induction targets as [|target targets IH]; intros lines; simpl.
    + intros [= <-]. exists []. by split; [constructor|].
    + destruct (compareTarget runs target) as [section|e] eqn:Hsection; [|done].
      destruct (compareTargets runs targets) as [more|e]; [|done].
      intros [= <-]. destruct (IH more eq_refl) as (sections & Hs & ->).
      exists (section :: sections). by split; [constructor|].
  - intros (sections & Hs & ->). by apply compareTargets_sections.
Qed.

Lemma compareTargets_Throw runs targets error :
  compareTargets runs targets = Throw error ->
  exists target, target ∈ targets /\ compareTarget runs target = Throw error.
Proof.
  induction targets as [|target targets IH]; simpl; [done|].
  destruct (compareTarget runs target) as [section|e] eqn:Hsection.
  - destruct (compareTargets runs targets) as [more|e]; [done|].
    intros [= <-]. destruct (IH eq_refl) as (t & Ht & Hthrow).
    exists t. split; [by right|done].
  - intros [= <-]. exists target. split; [by left|done].
Qed.

(** What a comparison writes. *)
Lemma compareRuns_Written d ids lines :
  compareRuns d ids = Written lines <->
  (2 <= length ids)%nat /\
  exists loaded sections,
    loadRuns d ids = inr loaded /\
    Forall2 (fun target section => compareTarget (sortRuns loaded) target = Ok section)
            (allTargets (sortRuns loaded)) sections /\
    lines = [LTitle; LBlank; LComparedRuns ids; LBlank] ++ concat sections.
Proof.
  unfold compareRuns, report. destruct (length ids <? 2)%nat eqn:Hlen.
  { apply Nat.ltb_lt in Hlen. split; [done|]. intros [? _]. lia. }
  apply Nat.ltb_ge in Hlen.
  destruct (loadRuns d ids) as [e|loaded] eqn:Hload.
  { split; [done|]. by intros (_ & ? & ? & ? & _). }
  split.
  - destruct (compareTargets _ _) as [sections|e] eqn:Hsections; [|done].
    apply compareTargets_Ok in Hsections as (ss & Hss & ->).
    intros [= <-]. split; [done|]. by exists loaded, ss.
  - intros (_ & loaded' & ss' & [= <-] & Hss' & ->).
    by rewrite (compareTargets_sections _ _ _ Hss').
Qed.

(** A comparison of loaded runs ends with the report on them. *)
Lemma compareRuns_loaded d ids loaded :
  loadRuns d ids = inr loaded -> (2 <= length ids)%nat ->
  compareRuns d ids = report ids (sortRuns loaded)
  /\ length (sortRuns loaded) = length ids.
Proof.
  intros Hload Hlen. unfold compareRuns.
  assert ((length ids <? 2)%nat = false) as -> by (apply Nat.ltb_ge; lia).
  rewrite Hload. split; [done|].
  unfold sortRuns. rewrite Array_sort_length.
  symmetry. eapply Forall2_length, loadRuns_inr, Hload.
Qed.

(** ** The section of a target *)

Lemma metrics_get_own target m tm :
  obj_get target (own m) = Some tm -> metrics_get target m = Metrics tm.
Proof. intros H. unfold metrics_get. by rewrite H. Qed.

Lemma existsb_is_Nothing runs target :
  existsb is_Nothing ((fun run => metrics_get target (metrics run)) <$> runs) = true
  <-> Exists (fun run => metrics_get target (metrics run) = Nothing) runs.
Proof.
  rewrite existsb_exists, Exists_exists. setoid_rewrite <- list_elem_of_In. split.
  - intros (f & (run & -> & Hrun)%list_elem_of_fmap & Hf). exists run. split; [done|].
    by destruct (metrics_get target (metrics run)).
  - intros (run & Hrun & Hn). exists Nothing. split; [|done].
    rewrite <- Hn.
    by apply (list_elem_of_fmap_2 (fun run => metrics_get target (metrics run))).
Qed.

Lemma mapM_metricsOf runs target tms :
  mapM metricsOf ((fun run => metrics_get target (metrics run)) <$> runs) = Some tms
  <-> Forall2 (fun run tm => metrics_get target (metrics run) = Metrics tm) runs tms.
Proof.
  rewrite mapM_Forall2, Forall2_fmap_l.
  split; intros H; (eapply Forall2_impl; [exact H|]); intros run tm; simpl;
    destruct (metrics_get target (metrics run)); simpl; congruence.
Qed.

(** A run that finds nothing under the name makes the section a note. *)
Lemma compareTarget_note runs target :
  Exists (fun run => metrics_get target (metrics run) = Nothing) runs ->
  compareTarget runs target = Ok [LTarget target; LBlank; LNote; LBlank].
Proof.
  intros H%existsb_is_Nothing. unfold compareTarget. by rewrite H.
Qed.

(** Runs that all hold the metrics of the target make the section its
    tables. *)
Lemma compareTarget_tables runs target first tms :
  Forall2 (fun run tm => metrics_get target (metrics run) = Metrics tm)
          runs (first :: tms) ->
  compareTarget runs target
  = Ok ([LTarget target; LBlank; LUrl (tm_url first); LBlank]
        ++ targetTables runs (first :: tms)).
Proof.
  intros H. unfold compareTarget.
  destruct (existsb _ _) eqn:E.
  { apply existsb_is_Nothing, Exists_exists in E as (run & Hrun & Hn).
    exfalso. apply list_elem_of_lookup in Hrun as [i Hi].
    destruct (Forall2_lookup_l _ _ _ _ _ H Hi) as (tm & _ & Htm). congruence. }
  apply mapM_metricsOf in H. by rewrite H.
Qed.

(** The two shapes of a section. *)
Lemma compareTarget_Ok runs target section :
  compareTarget runs target = Ok section ->
  (Exists (fun run => metrics_get target (metrics run) = Nothing) runs /\
   section = [LTarget target; LBlank; LNote; LBlank]) \/
  (exists first tms,
     Forall2 (fun run tm => metrics_get target (metrics run) = Metrics tm)
             runs (first :: tms) /\
     section = [LTarget target; LBlank; LUrl (tm_url first); LBlank]
               ++ targetTables runs (first :: tms)).
Proof.
  unfold compareTarget. destruct (existsb _ _) eqn:E.
  - intros [= <-]. left. split; [by apply existsb_is_Nothing|done].
  - destruct (mapM _ _) as [[|first tms]|] eqn:Htms; try done.
    intros [= <-]. right. exists first, tms. split; [by apply mapM_metricsOf|done].
Qed.

(** A section throws when no run lacks the name and some run holds
    something else under it than the metrics of a target. *)
Lemma compareTarget_Throw runs target error :
  compareTarget runs target = Throw error <->
  error = "TypeError" /\
  Forall (fun run => metrics_get target (metrics run) <> Nothing) runs /\
  (runs = [] \/ Exists (fun run => metrics_get target (metrics run) = Foreign) runs).
Proof.
  unfold compareTarget. destruct (existsb _ _) eqn:E.
  - split; [done|]. intros (_ & Hall & _). exfalso.
    apply existsb_is_Nothing, Exists_exists in E as (run & Hrun & Hn).
    rewrite Forall_forall in Hall. by apply (Hall run).
  - assert (Hall : Forall (fun run => metrics_get target (metrics run) <> Nothing) runs).
    { apply Forall_forall. intros run Hrun Hn.
      assert (existsb is_Nothing ((fun run => metrics_get target (metrics run)) <$> runs)
              = true); [|congruence].
      apply existsb_is_Nothing, Exists_exists. by exists run. }
    destruct (mapM _ _) as [[|first tms]|] eqn:Htms.
    + apply mapM_metricsOf in Htms. inversion Htms; subst. split.
      * intros [= <-]. split; [done|]. split; [done|by left].
      * by intros (-> & _).
    + split; [done|]. apply mapM_metricsOf in Htms. intros (_ & _ & [->|Hex]).
      * inversion Htms.
      * apply Exists_exists in Hex as (run & Hrun & Hf).
        apply list_elem_of_lookup in Hrun as [i Hi].
        destruct (Forall2_lookup_l _ _ _ _ _ Htms Hi) as (tm & _ & Htm). congruence.
    + split; [|by intros (-> & _)]. intros [= <-]. split; [done|]. split; [done|].
      right. apply mapM_None, Exists_fmap, Exists_exists in Htms as (run & Hrun & Hnone).
      apply Exists_exists. exists run. split; [done|].
      rewrite Forall_forall in Hall. specialize (Hall run Hrun). simpl in Hnone.
      by destruct (metrics_get target (metrics run)).
Qed.

(** The rows of the tables are the rows of the available metrics. *)
Lemma elem_of_targetTables_row runs tms metric cells :
  LRow metric cells ∈ targetTables runs tms <->
  metric ∈ availableMetrics tms /\
  LRow metric cells ∈ metricRow (length runs) tms metric.
Proof.
  unfold targetTables.
  assert (Hrows : LRow metric cells ∈ flat_map (metricRow (length runs) tms) (availableMetrics tms)
                  <-> metric ∈ availableMetrics tms
                      /\ LRow metric cells ∈ metricRow (length runs) tms metric).
  { rewrite elem_of_flat_map. split.
    - intros (m & Hm & Hrow).
      assert (m = metric) as ->; [|done].
      unfold metricRow in Hrow. destruct (mapM id _); [|by apply elem_of_nil in Hrow].
      apply list_elem_of_singleton in Hrow. congruence.
    - intros [? ?]. by exists metric. }
  rewrite elem_of_app. split.
  - intros [H|H].
    + destruct (bool_decide _); [by apply elem_of_nil in H|].
      rewrite !elem_of_app, !elem_of_cons in H.
      destruct H as [H|[H|H]]; [exfalso|by apply Hrows|exfalso];
        by repeat (destruct H as [H|H]; [discriminate H|]); apply elem_of_nil in H.
    + exfalso. destruct (existsb _ _); [|by apply elem_of_nil in H].
      rewrite !elem_of_app, !elem_of_cons in H.
      destruct H as [H|[H|H]].
      * by repeat (destruct H as [H|H]; [discriminate H|]); apply elem_of_nil in H.
      * apply list_elem_of_lookup in H as [i H].
        apply lookup_zip_with_Some in H as (? & ? & ? & _). done.
      * by repeat (destruct H as [H|H]; [discriminate H|]); apply elem_of_nil in H.
  - intros [Hm Hrow]. left.
    rewrite bool_decide_eq_false_2 by (intros E; rewrite E in Hm; by apply elem_of_nil in Hm).
    rewrite !elem_of_app. right. left. by apply Hrows.
Qed.

(** The rows of a section are rows of its tables. *)
Lemma elem_of_section_row runs target section metric cells :
  compareTarget runs target = Ok section ->
  LRow metric cells ∈ section ->
  exists tms,
    Forall2 (fun run tm => metrics_get target (metrics run) = Metrics tm) runs tms /\
    metric ∈ availableMetrics tms /\
    LRow metric cells ∈ metricRow (length runs) tms metric.
Proof.
  intros [[_ ->]|(first & tms & Htms & ->)]%compareTarget_Ok Hrow.
  - exfalso. rewrite !elem_of_cons in Hrow.
    by repeat (destruct Hrow as [Hrow|Hrow]; [discriminate Hrow|]); apply elem_of_nil in Hrow.
  - exists (first :: tms). split; [done|]. apply elem_of_targetTables_row.
    apply elem_of_app in Hrow as [Hrow|Hrow]; [|done]. exfalso.
    rewrite !elem_of_cons in Hrow.
    by repeat (destruct Hrow as [Hrow|Hrow]; [discriminate Hrow|]); apply elem_of_nil in Hrow.
Qed.

(** The rows of a report are rows of its sections. *)
Lemma elem_of_report_row d ids lines metric cells :
  compareRuns d ids = Written lines ->
  LRow metric cells ∈ lines ->
  exists loaded target tms,
    loadRuns d ids = inr loaded /\ (2 <= length ids)%nat /\
    target ∈ allTargets (sortRuns loaded) /\
    Forall2 (fun run tm => metrics_get target (metrics run) = Metrics tm)
            (sortRuns loaded) tms /\
    metric ∈ availableMetrics tms /\
    LRow metric cells ∈ metricRow (length (sortRuns loaded)) tms metric.
Proof.
  intros (Hlen & loaded & sections & Hload & Hsections & ->)%compareRuns_Written Hrow.
  apply elem_of_app in Hrow as [Hrow|Hrow].
  { exfalso. rewrite !elem_of_cons in Hrow.
    by repeat (destruct Hrow as [Hrow|Hrow]; [discriminate Hrow|]); apply elem_of_nil in Hrow. }
  apply elem_of_concat in Hrow as (section & Hrow & Hsection).
  apply list_elem_of_lookup in Hsection as [i Hi].
  destruct (Forall2_lookup_r _ _ _ _ _ Hsections Hi) as (target & Ht & Hok).
  destruct (elem_of_section_row _ _ _ _ _ Hok Hrow) as (tms & Htms & Hm & Hr).
  exists loaded, target, tms. repeat split; try done.
  by eapply list_elem_of_lookup_2.
Qed.

(** ** The cells of a row *)

(** The cells of a row: one per run, marked against the least and the
    greatest value. *)
Lemma metricRow_cells n tms metric cells :
  (2 <= n)%nat -> tms <> [] ->
  LRow metric cells ∈ metricRow n tms metric ->
  length cells = length tms /\
  Some <$> cells.*2 = (fun tm => tm_playwright tm !! metric) <$> tms /\
  exists lo hi,
    lo ∈ cells.*2 /\ hi ∈ cells.*2 /\
    (forall v, v ∈ cells.*2 -> (lo <= v <= hi)%Z) /\
    cells = (fun v => (if decide (v = lo) then Best
                       else if decide (v = hi) then Worst else Plain, v)) <$> cells.*2.
Proof.
  intros Hn Htms Hrow. unfold metricRow in Hrow.
  destruct (mapM id _) as [vs|] eqn:E; [|by apply elem_of_nil in Hrow].
  apply list_elem_of_singleton in Hrow. injection Hrow as ->.
  apply mapM_id_Some in E.
  assert (Hvs : ((fun value => (display n (Math_min vs) (Math_max vs) value, value)) <$> vs).*2 = vs).
  { rewrite <- list_fmap_compose. rewrite <- (list_fmap_id vs) at 2. done. }
  rewrite Hvs.
  assert (Hlen : length vs = length tms).
  { rewrite <- (length_fmap Some vs), <- E. by rewrite length_fmap. }
  assert (Hne : vs <> []) by (destruct vs, tms; done).
  split; [by rewrite length_fmap|]. split; [done|].
  destruct (Math_min_spec vs Hne) as (lo & -> & Hlo & Hlo').
  destruct (Math_max_spec vs Hne) as (hi & -> & Hhi & Hhi').
  exists lo, hi. repeat split; try done; [by apply Hlo'|by apply Hhi'|].
  apply list_fmap_ext. intros i v _. by rewrite display_spec.
Qed.

(** C1 (amended). In a row of a comparison every run has a cell; the runs
    that attain the least value are marked best, the runs that attain the
    greatest value are marked worst when it is greater than the least, and
    no other run is marked.  When all runs are equal, all are marked best. *)
Theorem row_markers d ids lines metric cells :
  compareRuns d ids = Written lines ->
  LRow metric cells ∈ lines ->
  length cells = length ids /\
  exists lo hi,
    lo ∈ cells.*2 /\ hi ∈ cells.*2 /\
    (forall v, v ∈ cells.*2 -> (lo <= v <= hi)%Z) /\
    (forall mk v, (mk, v) ∈ cells ->
       (mk = Best <-> v = lo) /\ (mk = Worst <-> v = hi /\ (lo < hi)%Z)) /\
    (lo = hi -> forall mk v, (mk, v) ∈ cells -> mk = Best).
Proof.
  intros Hwritten Hrow.
  destruct (elem_of_report_row _ _ _ _ _ Hwritten Hrow)
    as (loaded & target & tms & Hload & Hlen & _ & Htms & _ & Hrow').
  destruct (compareRuns_loaded _ _ _ Hload Hlen) as [_ Hruns].
  set (runs := sortRuns loaded) in *.
  assert (Hlen' : length tms = length runs) by (symmetry; by eapply Forall2_length).
  apply metricRow_cells in Hrow' as (Hcells & _ & lo & hi & Hlo & Hhi & Hbounds & Hmk);
    [|lia|by destruct tms, runs; simpl in *; try lia].
  split; [lia|].
  exists lo, hi. split; [done|]. split; [done|]. split; [done|].
  assert (Hcell : forall mk v, (mk, v) ∈ cells ->
            v ∈ cells.*2 /\
            mk = if decide (v = lo) then Best
                 else if decide (v = hi) then Worst else Plain).
  { intros mk v Hin. split; [by apply (list_elem_of_fmap_2 snd) in Hin|].
    rewrite Hmk in Hin. apply list_elem_of_fmap in Hin as (v' & [= -> ->] & _). done. }
  split.
  - intros mk v [Hv ->]%Hcell. specialize (Hbounds v Hv).
    destruct (decide (v = lo)), (decide (v = hi)); split; split;
      try done; try lia; intros []; try done; lia.
  - intros -> mk v [Hv ->]%Hcell. specialize (Hbounds v Hv).
    destruct (decide (v = hi)); [done|lia].
Qed.

Lemma row_markers_witness :
  length [(Worst, 245%Z); (Best, 198%Z)] = length [id_B; id_A] /\
  exists lo hi,
    lo ∈ [(Worst, 245%Z); (Best, 198%Z)].*2 /\ hi ∈ [(Worst, 245%Z); (Best, 198%Z)].*2 /\
    (forall v, v ∈ [(Worst, 245%Z); (Best, 198%Z)].*2 -> (lo <= v <= hi)%Z) /\
    (forall mk v, (mk, v) ∈ [(Worst, 245%Z); (Best, 198%Z)] ->
       (mk = Best <-> v = lo) /\ (mk = Worst <-> v = hi /\ (lo < hi)%Z)) /\
    (lo = hi -> forall mk v, (mk, v) ∈ [(Worst, 245%Z); (Best, 198%Z)] -> mk = Best).
Proof.
  apply (row_markers sample_runs [id_B; id_A]
           (match compareRuns sample_runs [id_B; id_A] with
            | Written lines => lines
            | _ => []
            end) "pageLoad").
  - vm_compute. reflexivity.
  - apply list_elem_of_In. vm_compute. do 12 right. left. reflexivity.
Defined.

(** C1, as the claim has it, fails: two runs of equal value are both
    marked best. *)
Lemma equal_runs_are_marked_best :
  exists lines,
    compareRuns tied_runs [id_A; id_B] = Written lines /\
    LRow "pageLoad" [(Best, 200%Z); (Best, 200%Z)] ∈ lines /\
    Math_min [200%Z; 200%Z] = Math_max [200%Z; 200%Z].
Proof.
  eexists. split; [vm_compute; reflexivity|]. split; [|reflexivity].
  apply list_elem_of_In. simpl. do 12 right. left. reflexivity.
Qed.

(** ** The section of a target in a report *)

Lemma upto_heading_app body more :
  Forall within_section body ->
  (more = [] \/ exists t rest, more = LTarget t :: rest) ->
  upto_heading (body ++ more) = body.
Proof.
  intros Hbody Hmore. induction Hbody as [|l body Hl _ IH]; simpl.
  - by destruct Hmore as [->|(t & rest & ->)].
  - destruct l; try (by rewrite IH). done.
Qed.

Lemma sectionOf_app body more target :
  Forall within_section body -> sectionOf target (body ++ more) = sectionOf target more.
Proof.
  induction 1 as [|l body Hl _ IH]; [done|]. simpl. by destruct l.
Qed.

Lemma within_targetTables runs tms : Forall within_section (targetTables runs tms).
Proof.
  unfold targetTables. apply Forall_app. split.
  - destruct (bool_decide _); [constructor|].
    repeat (constructor; [done|]). apply Forall_app. split; [|by repeat constructor].
    apply Forall_forall. intros l (metric & _ & Hl)%elem_of_flat_map.
    unfold metricRow in Hl. destruct (mapM id _); [|by apply elem_of_nil in Hl].
    by apply list_elem_of_singleton in Hl as ->.
  - destruct (existsb _ _); [|constructor].
    repeat (constructor; [done|]). apply Forall_app. split; [|by repeat constructor].
    apply Forall_forall. intros l Hl. apply list_elem_of_lookup in Hl as [i Hi].
    by apply lookup_zip_with_Some in Hi as (? & ? & -> & _).
Qed.

(** A section is its heading and lines that are no heading. *)
Lemma compareTarget_heading runs target section :
  compareTarget runs target = Ok section ->
  exists body, section = LTarget target :: body /\ Forall within_section body.
Proof.
  intros [[_ ->]|(first & tms & _ & ->)]%compareTarget_Ok.
  - eexists. split; [done|]. by repeat constructor.
  - eexists. split; [done|]. repeat (constructor; [done|]). apply within_targetTables.
Qed.

Lemma sections_start runs targets sections :
  Forall2 (fun target section => compareTarget runs target = Ok section)
          targets sections ->
  concat sections = [] \/ exists t rest, concat sections = LTarget t :: rest.
Proof.
  intros [|target section ? ? Hsection _]; [by left|]. right.
  destruct (compareTarget_heading _ _ _ Hsection) as (body & -> & _).
  by eexists _, _.
Qed.

(** The section of a target in the sections of a report. *)
Lemma sectionOf_sections runs targets sections target section :
  Forall2 (fun target section => compareTarget runs target = Ok section)
          targets sections ->
  target ∈ targets -> compareTarget runs target = Ok section ->
  sectionOf target (concat sections) = tail section.
Proof.
  intros Hsections Hin Hsection.
  induction Hsections as [|t s targets sections Hs Hrest IH];
    [by apply elem_of_nil in Hin|].
  destruct (compareTarget_heading _ _ _ Hs) as (body & -> & Hbody).
  simpl. destruct (decide (t = target)) as [->|Hne].
  - rewrite Hsection in Hs. injection Hs as ->. simpl.
    apply upto_heading_app; [done|]. by eapply sections_start.
  - rewrite sectionOf_app by done. apply IH.
    apply elem_of_cons in Hin as [->|Hin]; done.
Qed.

(** The heading of a target stands once in the sections. *)
Lemma sections_split runs targets sections target section :
  Forall2 (fun target section => compareTarget runs target = Ok section)
          targets sections ->
  NoDup targets -> target ∈ targets -> compareTarget runs target = Ok section ->
  exists front back,
    concat sections = front ++ section ++ back /\
    (LTarget target ∉ front) /\ (LTarget target ∉ back).
Proof.
  intros Hsections Hnodup Hin Hsection.
  assert (Hout : forall ts ss,
            Forall2 (fun target section => compareTarget runs target = Ok section) ts ss ->
            target ∉ ts -> LTarget target ∉ concat ss).
  { intros ts ss Hss. induction Hss as [|t s ts ss Hs _ IH]; intros Hnot.
    - by intros ?%elem_of_nil.
    - simpl. rewrite elem_of_app. intros [Hl|Hl].
      + destruct (compareTarget_heading _ _ _ Hs) as (body & -> & Hbody).
        apply elem_of_cons in Hl as [[= ->]|Hl]; [apply Hnot; by left|].
        rewrite Forall_forall in Hbody. by apply (Hbody _ Hl).
      + apply IH; [|done]. intros ?. apply Hnot. by right. }
  apply list_elem_of_split in Hin as (ts1 & ts2 & ->).
  apply Forall2_app_inv_l in Hsections as (ss1 & ss2' & Hss1 & Hss2 & ->).
  inversion Hss2 as [|? s ? ss2 Hs Hss2']; subst.
  rewrite Hsection in Hs. injection Hs as <-.
  apply NoDup_app in Hnodup as (_ & Hbefore & Hafter%NoDup_cons).
  exists (concat ss1), (concat ss2). split; [by rewrite concat_app|]. split.
  - apply (Hout ts1); [done|]. intros Hb. apply (Hbefore _ Hb). by left.
  - apply (Hout ts2); [done|]. tauto.
Qed.

(** ** The runs of a comparison and the stored runs *)

Lemma loadedAs_runId d id : lr_runId (loadedAs d id) = id.
Proof. unfold loadedAs. by destruct (d !! id) as [[?|?]|]. Qed.

Lemma loadedAs_runIds d (ids : list string) : lr_runId <$> (loadedAs d <$> ids) = ids.
Proof.
  induction ids as [|id ids IH]; [done|].
  by rewrite !fmap_cons, loadedAs_runId, IH.
Qed.

(** A report names every compared run once. *)
Lemma compared_runIds d (ids : list string) : lr_runId <$> compared d ids ≡ₚ ids.
Proof.
  unfold compared, sortRuns. by rewrite Array_sort_Permutation, loadedAs_runIds.
Qed.

Lemma compared_length d (ids : list string) : length (compared d ids) = length ids.
Proof. by rewrite <- (length_fmap lr_runId), compared_runIds. Qed.

Lemma elem_of_compared d ids run :
  run ∈ compared d ids <-> exists id, id ∈ ids /\ run = loadedAs d id.
Proof.
  unfold compared, sortRuns. rewrite Array_sort_Permutation, list_elem_of_fmap.
  split; intros (id & ? & ?); by exists id.
Qed.

(** A run has the target exactly when its metrics have a key for it. *)
Lemma has_target_key d name id :
  has_target d name id <->
  exists run, d !! id = Some (Stored run) /\ name ∈ obj_keys (own (extractMetrics run)).
Proof.
  unfold has_target. setoid_rewrite elem_of_extractMetrics_keys. done.
Qed.

(** A run that has the target tells its metrics. *)
Lemma has_target_tells d target id :
  has_target d target id -> exists tm, tells d target (loadedAs d id) tm.
Proof.
  intros (run & Hrun & Hkey)%has_target_key.
  apply obj_get_is_Some in Hkey as [tm Htm].
  exists tm. split.
  - apply metrics_get_own. unfold loadedAs. by rewrite Hrun.
  - rewrite loadedAs_runId. unfold recordOf. rewrite Hrun.
    rewrite extractMetrics_get in Htm. destruct (decide _); [done|].
    destruct (last _) as [t|]; [|done]. injection Htm as <-. by exists t.
Qed.

Lemma Forall_exists_Forall2 {A B} (P : A -> B -> Prop) l :
  Forall (fun x => exists y, P x y) l -> exists k, Forall2 P l k.
Proof.
  induction 1 as [|x l [y Hy] _ [k IH]]; [by exists []|].
  exists (y :: k). by constructor.
Qed.

(** The section of a target that every compared run has: its URL line
    and its tables. *)
Lemma target_section d ids lines target :
  compareRuns d ids = Written lines ->
  Forall (has_target d target) ids ->
  exists first tms,
    Forall2 (tells d target) (compared d ids) (first :: tms) /\
    sectionOf target lines
    = [LBlank; LUrl (tm_url first); LBlank]
      ++ targetTables (compared d ids) (first :: tms).
Proof.
  intros (Hlen & loaded & sections & Hload & Hsections & ->)%compareRuns_Written Hall.
  apply loadRuns_fmap in Hload as ->. fold (compared d ids) in Hsections.
  assert (Htells : Forall (fun run => exists tm, tells d target run tm) (compared d ids)).
  { apply Forall_forall. intros run (id & Hid & ->)%elem_of_compared.
    apply has_target_tells. rewrite Forall_forall in Hall. by apply Hall. }
  apply Forall_exists_Forall2 in Htells as [tms Htms].
  destruct tms as [|first tms].
  { apply Forall2_length in Htms. rewrite compared_length in Htms. simpl in Htms. lia. }
  exists first, tms. split; [done|].
  assert (Hget : Forall2 (fun run tm => metrics_get target (metrics run) = Metrics tm)
                         (compared d ids) (first :: tms)).
  { eapply Forall2_impl; [exact Htms|]. by intros run tm [? _]. }
  pose proof (compareTarget_tables _ _ _ _ Hget) as Hsection.
  assert (Hin : target ∈ allTargets (compared d ids)).
  { destruct ids as [|id ids]; [simpl in Hlen; lia|].
    apply Forall_inv in Hall as (run & Hrun & Hkey)%has_target_key.
    apply elem_of_allTargets. exists (loadedAs d id). split.
    - apply elem_of_compared. exists id. split; [by left|done].
    - unfold loadedAs. by rewrite Hrun. }
  change ([LTitle; LBlank; LComparedRuns ids; LBlank] ++ concat sections)
    with ([LTitle; LBlank; LComparedRuns ids; LBlank] ++ concat sections).
  rewrite sectionOf_app by by repeat constructor.
  by rewrite (sectionOf_sections _ _ _ _ _ Hsections Hin Hsection).
Qed.

(** The section of a target is in the report, once. *)
Lemma section_once d ids lines target :
  compareRuns d ids = Written lines ->
  (exists id, id ∈ ids /\ has_target d target id) ->
  exists front back,
    lines = front ++ LTarget target :: sectionOf target lines ++ back /\
    (LTarget target ∉ front) /\ (LTarget target ∉ back).
Proof.
  intros (Hlen & loaded & sections & Hload & Hsections & ->)%compareRuns_Written
         (id & Hid & (run & Hrun & Hkey)%has_target_key).
  apply loadRuns_fmap in Hload as ->. fold (compared d ids) in Hsections.
  assert (Hin : target ∈ allTargets (compared d ids)).
  { apply elem_of_allTargets. exists (loadedAs d id). split.
    - apply elem_of_compared. by exists id.
    - unfold loadedAs. by rewrite Hrun. }
  destruct (list_elem_of_lookup_1 _ _ Hin) as [i Hi].
  destruct (Forall2_lookup_l _ _ _ _ _ Hsections Hi) as (section & _ & Hsection).
  destruct (sections_split _ _ _ _ _ Hsections (NoDup_allTargets _) Hin Hsection)
    as (front & back & Hsplit & Hfront & Hback).
  rewrite sectionOf_app by by repeat constructor.
  rewrite (sectionOf_sections _ _ _ _ _ Hsections Hin Hsection).
  destruct (compareTarget_heading _ _ _ Hsection) as (body & -> & _).
  exists ([LTitle; LBlank; LComparedRuns ids; LBlank] ++ front), back.
  split; [by rewrite Hsplit, <- app_assoc|]. split; [|done].
  rewrite elem_of_app. intros [H|H]; [|done].
  rewrite !elem_of_cons in H.
  by repeat (destruct H as [H|H]; [discriminate H|]); apply elem_of_nil in H.
Qed.

Lemma elem_of_playwrightMetrics_available tms metric :
  metric ∈ availableMetrics tms <->
  metric ∈ playwrightMetrics /\ Exists (fun tm => is_Some (tm_playwright tm !! metric)) tms.
Proof. unfold availableMetrics. rewrite list_elem_of_filter. tauto. Qed.

(** The rows of the tables of a target. *)
Lemma tables_rows runs tms metric :
  tms <> [] -> metric ∈ playwrightMetrics ->
  ((exists cells, LRow metric cells ∈ targetTables runs tms)
   <-> Forall (fun tm => is_Some (tm_playwright tm !! metric)) tms) /\
  (forall cells, LRow metric cells ∈ targetTables runs tms ->
     Some <$> cells.*2 = (fun tm => tm_playwright tm !! metric) <$> tms).
Proof.
  intros Hne Hmetric. split.
  - split.
    + intros (cells & (_ & Hrow)%elem_of_targetTables_row).
      destruct (decide (Forall (fun tm => is_Some (tm_playwright tm !! metric)) tms))
        as [|Hno]; [done|].
      rewrite (metricRow_undefined _ _ _ Hno) in Hrow. by apply elem_of_nil in Hrow.
    + intros Hyes. destruct (all_defined_values _ _ Hyes) as [vs Hvs].
      eexists. apply elem_of_targetTables_row. split.
      * apply elem_of_playwrightMetrics_available. split; [done|].
        destruct tms as [|tm tms]; [done|].
        apply Exists_cons_hd. by apply Forall_inv in Hyes.
      * rewrite (metricRow_defined _ _ _ _ Hvs). apply list_elem_of_singleton. done.
  - intros cells (_ & Hrow)%elem_of_targetTables_row.
    unfold metricRow in Hrow.
    destruct (mapM id _) as [vs|] eqn:E; [|by apply elem_of_nil in Hrow].
    apply list_elem_of_singleton in Hrow. injection Hrow as ->.
    apply mapM_id_Some in E. rewrite E. f_equal.
    rewrite <- list_fmap_compose. rewrite <- (list_fmap_id vs) at 2. done.
Qed.

Lemma elem_of_url_lines l url more :
  l ∈ [LBlank; LUrl url; LBlank] ++ more ->
  (forall metric cells, l <> LRow metric cells) \/ l ∈ more.
Proof.
  rewrite elem_of_app, !elem_of_cons.
  intros [[->|[->|[->|H%elem_of_nil]]]|H]; try done; [left..|by right]; done.
Qed.

(** The values that the runs tell are the values that the stored runs
    hold. *)
Lemma tells_measured d target runs tms metric :
  Forall2 (tells d target) runs tms ->
  (fun tm => tm_playwright tm !! metric) <$> tms
  = measured d target metric <$> (lr_runId <$> runs).
Proof.
  induction 1 as [|run tm runs tms (_ & t & Ht & ->) _ IH]; [done|].
  rewrite !fmap_cons, IH. f_equal.
  unfold measured. rewrite Ht. simpl. apply extractTarget_measured.
Qed.

(** C3. For a target that every compared run has and a metric of the
    fixed list, the target's section of the report has a row for the
    metric exactly when every stored run holds a value for it; a row holds
    one value for each run, the run's own, in the order of the report. *)
Theorem row_iff_defined_in_every_run d ids lines target metric :
  compareRuns d ids = Written lines ->
  Forall (has_target d target) ids ->
  metric ∈ playwrightMetrics ->
  ((exists cells, LRow metric cells ∈ sectionOf target lines)
   <-> Forall (fun id => is_Some (measured d target metric id)) ids) /\
  (forall cells, LRow metric cells ∈ sectionOf target lines ->
     Some <$> cells.*2 = measured d target metric <$> (lr_runId <$> compared d ids)) /\
  (exists front back,
     lines = front ++ LTarget target :: sectionOf target lines ++ back /\
     (LTarget target ∉ front) /\ (LTarget target ∉ back)).
Proof.
  intros Hwritten Hall Hmetric.
  assert (Honce : exists front back,
            lines = front ++ LTarget target :: sectionOf target lines ++ back /\
            (LTarget target ∉ front) /\ (LTarget target ∉ back)).
  { apply (section_once d ids); [done|].
    destruct ids as [|id ids].
    - apply compareRuns_Written in Hwritten as [Hlen _]. simpl in Hlen. lia.
    - exists id. split; [by left|]. by apply Forall_inv in Hall. }
  assert (Hgoal : forall A B C : Prop, C -> A /\ B -> A /\ B /\ C) by tauto.
  apply Hgoal; [done|]. clear Hgoal Honce.
  destruct (target_section _ _ _ _ Hwritten Hall) as (first & tms & Htms & ->).
  pose proof (tells_measured _ _ _ _ metric Htms) as Hvalues.
  destruct (tables_rows (compared d ids) (first :: tms) metric) as [Hiff Hcells];
    [done|done|].
  assert (Hrow : forall cells,
            LRow metric cells ∈ [LBlank; LUrl (tm_url first); LBlank]
                                ++ targetTables (compared d ids) (first :: tms)
            <-> LRow metric cells ∈ targetTables (compared d ids) (first :: tms)).
  { intros cells. split.
    - intros [H|H]%elem_of_url_lines; [by destruct (H metric cells)|done].
    - intros H. apply elem_of_app. by right. }
  split.
  - setoid_rewrite Hrow. rewrite Hiff.
    transitivity (Forall is_Some ((fun tm => tm_playwright tm !! metric) <$> first :: tms)).
    { by rewrite Forall_fmap. }
    rewrite Hvalues, Forall_fmap, compared_runIds. done.
  - intros cells Hin%Hrow. rewrite <- Hvalues. by apply Hcells.
Qed.

Lemma row_iff_defined_in_every_run_witness :
  ((exists cells, LRow "pageLoad" cells ∈ sectionOf "kylix" sample_report)
   <-> Forall (fun id => is_Some (measured sample_runs "kylix" "pageLoad" id)) [id_B; id_A])
  /\ (forall cells, LRow "pageLoad" cells ∈ sectionOf "kylix" sample_report ->
        Some <$> cells.*2 = [Some 245%Z; Some 198%Z])
  /\ (exists front back,
        sample_report = front ++ LTarget "kylix" :: sectionOf "kylix" sample_report ++ back /\
        (LTarget "kylix" ∉ front) /\ (LTarget "kylix" ∉ back)).
Proof.
  apply (row_iff_defined_in_every_run sample_runs [id_B; id_A] sample_report "kylix").
  - vm_compute. reflexivity.
  - repeat constructor; eexists; (split; [reflexivity|]);
      (split; [discriminate|]); apply list_elem_of_In; vm_compute; tauto.
  - apply list_elem_of_In. simpl. tauto.
Defined.

(** ** Targets with ordinary names *)

(** Runs whose records have ordinary names give their metrics no other
    prototype than [Object.prototype]. *)
Lemma ordinary_proto run :
  (forall t, t ∈ targets run -> ordinary (target t)) ->
  proto (extractMetrics run) = None.
Proof.
  intros Hrun. rewrite extractMetrics_proto. unfold recordsOf.
  destruct (last _) as [t|] eqn:Ht; [|done]. exfalso.
  apply last_Some_elem_of, list_elem_of_filter in Ht as [Hname Ht].
  by destruct (Hrun t Ht).
Qed.

(** Under an ordinary name such metrics hold the property of their own
    or nothing. *)
Lemma metrics_get_ordinary m target :
  proto m = None -> ordinary target ->
  metrics_get target m
  = match obj_get target (own m) with Some tm => Metrics tm | None => Nothing end.
Proof.
  intros Hproto [Hne Hnot]. unfold metrics_get. rewrite Hproto.
  destruct (obj_get target (own m)); [done|].
  rewrite decide_False by done. by rewrite bool_decide_eq_false_2.
Qed.

Lemma compared_stored d ids run :
  Forall (loads d) ids -> run ∈ compared d ids ->
  exists id stored,
    id ∈ ids /\ d !! id = Some (Stored stored) /\
    run = {| lr_runId := id; lr_timestamp := timestamp stored;
             metrics := extractMetrics stored |}.
Proof.
  intros Hloads (id & Hid & ->)%elem_of_compared.
  rewrite Forall_forall in Hloads. destruct (Hloads id Hid) as [stored Hstored].
  exists id, stored. split; [done|]. split; [done|].
  unfold loadedAs. by rewrite Hstored.
Qed.

(** The targets of a comparison are names of records. *)
Lemma allTargets_recorded d ids name :
  Forall (loads d) ids -> name ∈ allTargets (compared d ids) ->
  name <> "__proto__" /\
  exists id run t,
    id ∈ ids /\ d !! id = Some (Stored run) /\ t ∈ targets run /\ target t = name.
Proof.
  intros Hloads (run & Hrun & Hkey)%elem_of_allTargets.
  destruct (compared_stored _ _ _ Hloads Hrun) as (id & stored & Hid & Hstored & ->).
  simpl in Hkey. apply elem_of_extractMetrics_keys in Hkey as [Hne Hin].
  split; [done|]. apply list_elem_of_fmap in Hin as (t & -> & Ht).
  by exists id, stored, t.
Qed.

(** No section throws when the records have ordinary names. *)
Lemma ordinary_section d ids target :
  ids <> [] -> Forall (loads d) ids -> ordinary_names d ids -> ordinary target ->
  exists section, compareTarget (compared d ids) target = Ok section.
Proof.
  intros Hne Hloads Hnames Htarget.
  destruct (compareTarget (compared d ids) target) as [section|e] eqn:E; [by eexists|].
  exfalso. apply compareTarget_Throw in E as (_ & _ & [Hnil|Hex]).
  - apply (f_equal length) in Hnil. rewrite compared_length in Hnil.
    by destruct ids.
  - apply Exists_exists in Hex as (run & Hrun & Hforeign).
    destruct (compared_stored _ _ _ Hloads Hrun) as (id & stored & Hid & Hstored & ->).
    simpl in Hforeign. rewrite metrics_get_ordinary in Hforeign; [|..|done].
    + by destruct (obj_get target _).
    + apply ordinary_proto. intros t Ht. by apply (Hnames id stored).
Qed.

(** A comparison of runs whose records have ordinary names is written. *)
Lemma ordinary_written d ids :
  (2 <= length ids)%nat -> Forall (loads d) ids -> ordinary_names d ids ->
  exists lines, compareRuns d ids = Written lines.
Proof.
  intros Hlen Hloads Hnames.
  pose proof (loadRuns_loads _ _ Hloads) as Hload.
  destruct (compareRuns_loaded _ _ _ Hload Hlen) as [-> _].
  fold (compared d ids). unfold report.
  assert (Hall : Forall (fun target => exists section,
                    compareTarget (compared d ids) target = Ok section)
                   (allTargets (compared d ids))).
  { apply Forall_forall. intros target Htarget. apply ordinary_section; try done.
    - destruct ids; simpl in *; [lia|done].
    - destruct (allTargets_recorded _ _ _ Hloads Htarget)
        as (_ & id & run & t & Hid & Hrun & Ht & <-).
      by apply (Hnames id run). }
  apply Forall_exists_Forall2 in Hall as [sections Hsections].
  rewrite (compareTargets_sections _ _ _ Hsections). by eexists.
Qed.

(** The section of a target of the report. *)
Lemma sectionOf_report d ids lines target section :
  compareRuns d ids = Written lines ->
  target ∈ allTargets (compared d ids) ->
  compareTarget (compared d ids) target = Ok section ->
  sectionOf target lines = tail section /\
  exists front back,
    lines = front ++ section ++ back /\
    (LTarget target ∉ front) /\ (LTarget target ∉ back).
Proof.
  intros (Hlen & loaded & sections & Hload & Hsections & ->)%compareRuns_Written
         Hin Hsection.
  apply loadRuns_fmap in Hload as ->. fold (compared d ids) in Hsections.
  split.
  - rewrite sectionOf_app by by repeat constructor.
    by apply (sectionOf_sections _ _ _ _ _ Hsections).
  - destruct (sections_split _ _ _ _ _ Hsections (NoDup_allTargets _) Hin Hsection)
      as (front & back & Hsplit & Hfront & Hback).
    exists ([LTitle; LBlank; LComparedRuns ids; LBlank] ++ front), back.
    split; [by rewrite Hsplit, <- app_assoc|]. split; [|done].
    rewrite elem_of_app. intros [H|H]; [|done].
    rewrite !elem_of_cons in H.
    by repeat (destruct H as [H|H]; [discriminate H|]); apply elem_of_nil in H.
Qed.

(** C9 fails on the code: a target that only run A has, named after a
    member of [Object.prototype], passes the test of line 103 in run B,
    and the comparison ends in a [TypeError] at line 118: no note and no
    report.  Run A is a run that the program stores itself, and the
    comparison with the run that follows it ends the same way. *)
Theorem inherited_name_breaks_the_comparison :
  has_target inherited_runs "constructor" id_A /\
  ~ has_target inherited_runs "constructor" id_B /\
  compareTarget (compared inherited_runs [id_A; id_B]) "constructor" = Throw "TypeError" /\
  compareRuns inherited_runs [id_A; id_B] = Thrown "TypeError" /\
  exists wa run_b wb,
    runAllBenchmarks earlier_host sample_config ["constructor"] fresh_world
    = (Ok run_A_constructor, wa) /\
    runAllBenchmarks sample_host sample_config ["kylix"] wa = (Ok run_b, wb) /\
    compareRuns (run_files wb) [runId run_A_constructor; runId run_b]
    = Thrown "TypeError".
Proof.
  split.
  { eexists. split; [reflexivity|]. split; [discriminate|].
    apply list_elem_of_In. vm_compute. tauto. }
  split.
  { intros (run & Hrun & _ & Hkey). vm_compute in Hrun. injection Hrun as <-.
    apply list_elem_of_In in Hkey. vm_compute in Hkey. by destruct Hkey as [[=]|[]]. }
  split; [vm_compute; reflexivity|]. split; [vm_compute; reflexivity|].
  eexists _, _, _. split; [vm_compute; reflexivity|]. split; [vm_compute; reflexivity|].
  vm_compute. reflexivity.
Qed.

(** X29. When the records of the compared runs have ordinary names, a
    target that some but not all of the runs have a record of has one
    section in the report: its heading, the note that not all runs
    include the target, and no row. *)
Theorem partial_target_note d ids name :
  (2 <= length ids)%nat -> Forall (loads d) ids -> ordinary_names d ids ->
  (exists id run, id ∈ ids /\ d !! id = Some (Stored run) /\
                  name ∈ target <$> targets run) ->
  (exists id run, id ∈ ids /\ d !! id = Some (Stored run) /\
                  name ∉ target <$> targets run) ->
  exists lines front back,
    compareRuns d ids = Written lines /\
    sectionOf name lines = [LBlank; LNote; LBlank] /\
    lines = front ++ [LTarget name; LBlank; LNote; LBlank] ++ back /\
    (LTarget name ∉ front) /\ (LTarget name ∉ back).
Proof.
  intros Hlen Hloads Hnames (id & run & Hid & Hrun & Hin) (id' & run' & Hid' & Hrun' & Hout).
  destruct (ordinary_written _ _ Hlen Hloads Hnames) as [lines Hlines].
  assert (Htarget : ordinary name).
  { apply list_elem_of_fmap in Hin as (t & -> & Ht). by apply (Hnames id run). }
  assert (Hall : name ∈ allTargets (compared d ids)).
  { apply elem_of_allTargets. exists (loadedAs d id). split.
    - apply elem_of_compared. by exists id.
    - unfold loadedAs. rewrite Hrun. simpl. apply elem_of_extractMetrics_keys.
      split; [apply Htarget|done]. }
  assert (Hnote : compareTarget (compared d ids) name
                  = Ok [LTarget name; LBlank; LNote; LBlank]).
  { apply compareTarget_note, Exists_exists. exists (loadedAs d id'). split.
    - apply elem_of_compared. by exists id'.
    - unfold loadedAs. rewrite Hrun'. simpl.
      rewrite metrics_get_ordinary; [|apply ordinary_proto|done].
      + destruct (obj_get name _) eqn:E; [|done]. exfalso.
        assert (Hkey : name ∈ obj_keys (own (extractMetrics run')))
          by (apply obj_get_is_Some; by eexists).
        apply elem_of_extractMetrics_keys in Hkey as [_ Hkey]. done.
      + intros t Ht. by apply (Hnames id' run'). }
  destruct (sectionOf_report _ _ _ _ _ Hlines Hall Hnote)
    as (Hsection & front & back & Hsplit & Hfront & Hback).
  by exists lines, front, back.
Qed.

Lemma partial_target_note_witness :
  exists lines front back,
    compareRuns sample_runs [id_A; id_B] = Written lines /\
    sectionOf "pyxis" lines = [LBlank; LNote; LBlank] /\
    lines = front ++ [LTarget "pyxis"; LBlank; LNote; LBlank] ++ back /\
    (LTarget "pyxis" ∉ front) /\ (LTarget "pyxis" ∉ back).
Proof.
  apply (partial_target_note sample_runs).
  - simpl. lia.
  - repeat constructor; eexists; reflexivity.
  - intros id run t Hid Hrun Ht.
    apply list_elem_of_In in Hid. simpl in Hid.
    destruct Hid as [<-|[<-|[]]]; vm_compute in Hrun; injection Hrun as <-;
      apply list_elem_of_In in Ht; simpl in Ht;
      repeat (destruct Ht as [<-|Ht]; [split; [done|];
        intros Hm; apply list_elem_of_In in Hm; vm_compute in Hm;
        repeat (destruct Hm as [Hm|Hm]; [discriminate Hm|]); done|]); done.
  - exists id_A, run_A. split; [by left|]. split; [reflexivity|].
    apply list_elem_of_In. simpl. tauto.
  - exists id_B, run_B. split; [by right; left|]. split; [reflexivity|].
    intros Hm. apply list_elem_of_In in Hm. simpl in Hm. by destruct Hm as [[=]|[]].
Defined.

(** * Proofs: the order of the runs *)

(** ** The order of a sorted array *)

Section sorting.
Context {A : Type} (cmp : A -> A -> Z).

Hypothesis before_total : forall a b, before cmp a b \/ before cmp b a.
Hypothesis before_trans :
  forall a b c, before cmp a b -> before cmp b c -> before cmp a c.

Lemma sort_insert_sorted x l :
  StronglySorted (before cmp) l -> StronglySorted (before cmp) (sort_insert cmp x l).
Proof.
  induction 1 as [|y l Hl IH Hy]; simpl.
  - repeat constructor.
  - destruct (cmp x y <=? 0)%Z eqn:E.
    + apply Z.leb_le in E. constructor; [by constructor|].
      constructor; [done|]. eapply Forall_impl; [exact Hy|].
      intros z Hz. by apply (before_trans x y z).
    + apply Z.leb_gt in E. constructor; [done|].
      rewrite sort_insert_Permutation. constructor; [|done].
      destruct (before_total x y) as [H|H]; [unfold before in H; lia|done].
Qed.

Lemma Array_sort_sorted l : StronglySorted (before cmp) (Array_sort cmp l).
Proof.
  induction l as [|x l IH]; simpl; [constructor|]. by apply sort_insert_sorted.
Qed.
End sorting.

Lemma StronglySorted_weaken {A} (R S : A -> A -> Prop) l :
  (forall a b, R a b -> S a b) -> StronglySorted R l -> StronglySorted S l.
Proof.
  intros HRS. induction 1 as [|x l _ IH Hx]; constructor; [done|].
  eapply Forall_impl; [exact Hx|]. intros y. apply HRS.
Qed.

Lemma sortRuns_sorted loaded : StronglySorted chronological (sortRuns loaded).
Proof.
  unfold sortRuns.
  eapply (StronglySorted_weaken (before byTimestamp)); [|apply Array_sort_sorted].
  - intros a b. unfold before, byTimestamp, chronological. lia.
  - intros a b. unfold before, byTimestamp. lia.
  - intros a b c. unfold before, byTimestamp. lia.
Qed.

(** The header of a table names the runs in report order. *)
Lemma report_header d ids lines dates :
  compareRuns d ids = Written lines -> LHeader dates ∈ lines ->
  dates = lr_timestamp <$> compared d ids.
Proof.
  intros (Hlen & loaded & sections & Hload & Hsections & ->)%compareRuns_Written Hin.
  apply loadRuns_fmap in Hload as ->. fold (compared d ids) in Hsections.
  apply elem_of_app in Hin as [Hin|Hin].
  { exfalso. rewrite !elem_of_cons in Hin.
    by repeat (destruct Hin as [Hin|Hin]; [discriminate Hin|]); apply elem_of_nil in Hin. }
  apply elem_of_concat in Hin as (section & Hin & Hsection).
  apply list_elem_of_lookup in Hsection as [i Hi].
  destruct (Forall2_lookup_r _ _ _ _ _ Hsections Hi) as (target & _ & Hok).
  apply compareTarget_Ok in Hok as [[_ ->]|(first & tms & _ & ->)].
  { exfalso. rewrite !elem_of_cons in Hin.
    by repeat (destruct Hin as [Hin|Hin]; [discriminate Hin|]); apply elem_of_nil in Hin. }
  apply elem_of_app in Hin as [Hin|Hin].
  { exfalso. rewrite !elem_of_cons in Hin.
    by repeat (destruct Hin as [Hin|Hin]; [discriminate Hin|]); apply elem_of_nil in Hin. }
  unfold targetTables in Hin. apply elem_of_app in Hin as [Hin|Hin].
  - destruct (bool_decide _); [by apply elem_of_nil in Hin|].
    rewrite !elem_of_app, !elem_of_cons in Hin.
    destruct Hin as [[[=]|[[=]|[[= ->]|[[=]|Hin]]]]|[Hin|Hin]]; try done.
    + by apply elem_of_nil in Hin.
    + apply elem_of_flat_map in Hin as (metric & _ & Hin). unfold metricRow in Hin.
      destruct (mapM id _); [|by apply elem_of_nil in Hin].
      by apply list_elem_of_singleton in Hin.
    + by repeat (destruct Hin as [Hin|Hin]; [discriminate Hin|]); apply elem_of_nil in Hin.
  - destruct (existsb _ _); [|by apply elem_of_nil in Hin].
    rewrite !elem_of_app, !elem_of_cons in Hin.
    destruct Hin as [Hin|[Hin|Hin]].
    + by repeat (destruct Hin as [Hin|Hin]; [discriminate Hin|]); apply elem_of_nil in Hin.
    + apply list_elem_of_lookup in Hin as [j Hj].
      by apply lookup_zip_with_Some in Hj as (? & ? & ? & _).
    + by repeat (destruct Hin as [Hin|Hin]; [discriminate Hin|]); apply elem_of_nil in Hin.
Qed.

(** C4. A comparison reports on its runs in ascending order of their
    timestamps, whatever the order of the identifiers: every table of a
    written report heads its columns with the dates in that order, and
    the report after its line of compared runs is the same for every
    order in which runs of distinct timestamps are named.  Runs A
    (earlier, 245 ms) and B (later, 198 ms) make the columns A, B in both
    orders, 198 marked best and 245 marked worst. *)
Theorem runs_in_chronological_order d ids loaded :
  loadRuns d ids = inr loaded -> (2 <= length ids)%nat ->
  compareRuns d ids = report ids (sortRuns loaded)
  /\ (forall lines dates,
        compareRuns d ids = Written lines -> LHeader dates ∈ lines ->
        dates = lr_timestamp <$> sortRuns loaded)
  /\ lr_runId <$> loaded = ids
  /\ sortRuns loaded ≡ₚ loaded
  /\ StronglySorted chronological (sortRuns loaded)
  /\ (forall ids' loaded',
        ids' ≡ₚ ids -> loadRuns d ids' = inr loaded' ->
        (forall a b, a ∈ loaded -> b ∈ loaded ->
           Date_ms (lr_timestamp a) = Date_ms (lr_timestamp b) -> a = b) ->
        sortRuns loaded' = sortRuns loaded)
  /\ (exists tables,
        compareRuns sample_runs [id_A; id_B]
        = Written ([LTitle; LBlank; LComparedRuns [id_A; id_B]; LBlank] ++ tables) /\
        compareRuns sample_runs [id_B; id_A]
        = Written ([LTitle; LBlank; LComparedRuns [id_B; id_A]; LBlank] ++ tables) /\
        LHeader [time_A; time_B] ∈ tables /\
        LRow "pageLoad" [(Worst, 245%Z); (Best, 198%Z)] ∈ tables).
Proof.
  intros Hload Hlen.
  destruct (compareRuns_loaded _ _ _ Hload Hlen) as [Hreport _].
  pose proof (loadRuns_fmap _ _ _ Hload) as Hfmap.
  split; [done|]. split.
  { intros lines dates Hlines Hdates. rewrite Hfmap.
    by apply (report_header d ids lines). }
  split.
  { apply loadRuns_inr in Hload. clear Hreport Hfmap Hlen.
    induction Hload as [|id lr ids loaded (run & _ & ->) _ IH]; [done|].
    by rewrite fmap_cons, IH. }
  split; [apply Array_sort_Permutation|].
  split; [apply sortRuns_sorted|]. split.
  - intros ids' loaded' Hperm Hload' Hdistinct.
    pose proof (loadRuns_fmap _ _ _ Hload') as Hfmap'.
    assert (Hp : loaded' ≡ₚ loaded) by (rewrite Hfmap, Hfmap'; by apply fmap_Permutation).
    assert (Htrans : Transitive chronological).
    { intros a b c. unfold chronological. lia. }
    apply (Sorted_unique_strong chronological).
    + intros a b Ha Hb Hab Hba. apply Hdistinct.
      * unfold sortRuns in Ha. by rewrite Array_sort_Permutation, Hp in Ha.
      * unfold sortRuns in Hb. by rewrite Array_sort_Permutation in Hb.
      * unfold chronological in *. lia.
    + apply StronglySorted_Sorted, sortRuns_sorted.
    + apply StronglySorted_Sorted, sortRuns_sorted.
    + unfold sortRuns. by rewrite !Array_sort_Permutation.
  - eexists. split; [vm_compute; reflexivity|]. split; [vm_compute; reflexivity|].
    split; apply list_elem_of_In; simpl; tauto.
Qed.

Lemma runs_in_chronological_order_witness :
  compareRuns sample_runs [id_B; id_A]
  = report [id_B; id_A] (sortRuns (loaded_sample [id_B; id_A]))
  /\ lr_timestamp <$> sortRuns (loaded_sample [id_B; id_A]) = [time_A; time_B]
  /\ sortRuns (loaded_sample [id_A; id_B]) = sortRuns (loaded_sample [id_B; id_A]).
Proof.
  destruct (runs_in_chronological_order sample_runs [id_B; id_A]
              (loaded_sample [id_B; id_A])) as (H1 & _ & _ & _ & _ & H2 & _).
  - reflexivity.
  - simpl. lia.
  - split; [exact H1|]. split; [reflexivity|].
    apply (H2 [id_A; id_B]).
    + apply Permutation_swap.
    + reflexivity.
    + intros a b Ha Hb. apply list_elem_of_In in Ha, Hb.
      vm_compute in Ha, Hb.
      destruct Ha as [<-|[<-|[]]], Hb as [<-|[<-|[]]]; vm_compute; congruence.
Defined.

(** * Proofs: the lines of a report *)

(** ** The lines of a section *)

Lemma omap_None {A B} (f : A -> option B) (l : list A) :
  Forall (fun x => f x = None) l -> omap f l = [].
Proof. induction 1 as [|x l Hx _ IH]; [done|]. simpl. by rewrite Hx. Qed.

Lemma metricRow_rows n tms metric :
  Forall (fun l => exists cells, l = LRow metric cells) (metricRow n tms metric).
Proof.
  unfold metricRow. destruct (mapM id _); [|constructor].
  constructor; [by eexists|constructor].
Qed.

Lemma metricRows_rows n tms metrics :
  Forall (fun l => exists metric cells, l = LRow metric cells)
         (flat_map (metricRow n tms) metrics).
Proof.
  induction metrics as [|metric metrics IH]; [constructor|].
  simpl. apply Forall_app. split; [|done].
  eapply Forall_impl; [apply metricRow_rows|]. intros l [cells ->]. by eexists _, _.
Qed.

Lemma loadRows_rows (runs : list LoadedRun) (k6Status : list bool) :
  Forall (fun l => exists date status, l = LK6Row date status)
         (zip_with (fun run status => LK6Row (lr_timestamp run) status) runs k6Status).
Proof.
  revert k6Status. induction runs as [|run runs IH]; intros [|s k6Status];
    try constructor; [by eexists _, _|apply IH].
Qed.

Lemma rowNames_metricRows n tms metrics :
  rowNames (flat_map (metricRow n tms) metrics)
  = filter (fun metric => Forall (fun tm => is_Some (tm_playwright tm !! metric)) tms)
           metrics.
Proof.
  unfold rowNames. induction metrics as [|metric metrics IH]; [done|].
  simpl. rewrite omap_app, IH, filter_cons.
  destruct (decide (Forall _ tms)) as [Hall|Hnot].
  - destruct (all_defined_values _ _ Hall) as [vs Hvs].
    by rewrite (metricRow_defined _ _ _ _ Hvs).
  - by rewrite metricRow_undefined.
Qed.

Lemma loadRows_zip (runs : list LoadedRun) (k6Status : list bool) :
  loadRows (zip_with (fun run status => LK6Row (lr_timestamp run) status) runs k6Status)
  = zip (lr_timestamp <$> runs) k6Status.
Proof.
  unfold loadRows. revert k6Status.
  induction runs as [|run runs IH]; intros [|s k6Status]; try done.
  simpl. by rewrite IH.
Qed.

Lemma existsb_Exists (l : list bool) : existsb id l = true <-> Exists (fun b => b = true) l.
Proof.
  induction l as [|b l IH]; simpl.
  - split; [done|]. by intros ?%Exists_nil.
  - rewrite Exists_cons, orb_true_iff, IH. done.
Qed.

Lemma omap_targetTables {B} (f : line -> option B) runs tms :
  omap f (targetTables runs tms)
  = (if bool_decide (availableMetrics tms = []) then []
     else omap f [LPlaywright; LBlank; LHeader (lr_timestamp <$> runs);
                  LRule (length runs + 1)]
          ++ omap f (flat_map (metricRow (length runs) tms) (availableMetrics tms))
          ++ omap f [LBlank])
    ++ (if existsb id (hasResults <$> tms)
        then omap f [LK6; LBlank; LK6Header; LK6Rule]
             ++ omap f (zip_with (fun run status => LK6Row (lr_timestamp run) status)
                                 runs (hasResults <$> tms))
             ++ omap f [LBlank]
        else []).
Proof.
  unfold targetTables. rewrite omap_app. f_equal.
  - destruct (bool_decide _); [done|]. by rewrite !omap_app.
  - destruct (existsb id _); [|done]. by rewrite !omap_app.
Qed.

(** The rows of a target's tables: the metrics that every run defines. *)
Lemma rowNames_targetTables runs tms :
  rowNames (targetTables runs tms)
  = filter (fun metric => Forall (fun tm => is_Some (tm_playwright tm !! metric)) tms)
           (availableMetrics tms).
Proof.
  unfold rowNames. rewrite omap_targetTables.
  fold (rowNames (flat_map (metricRow (length runs) tms) (availableMetrics tms))).
  rewrite rowNames_metricRows.
  rewrite (omap_None _ (zip_with _ _ _));
    [|eapply Forall_impl; [apply loadRows_rows|]; by intros l (? & ? & ->)].
  cbn [omap app]. destruct (existsb id _), (bool_decide _) eqn:E;
    rewrite ?app_nil_r; try done.
  all: apply bool_decide_eq_true in E; by rewrite E.
Qed.

(** The rows of a target's load table. *)
Lemma loadRows_targetTables runs tms :
  loadRows (targetTables runs tms)
  = if existsb id (hasResults <$> tms)
    then zip (lr_timestamp <$> runs) (hasResults <$> tms) else [].
Proof.
  unfold loadRows. rewrite omap_targetTables.
  fold (loadRows (zip_with (fun run status => LK6Row (lr_timestamp run) status)
                           runs (hasResults <$> tms))).
  rewrite loadRows_zip.
  rewrite (omap_None _ (flat_map _ _));
    [|eapply Forall_impl; [apply metricRows_rows|]; by intros l (? & ? & ->)].
  destruct (existsb id _), (bool_decide _); simpl; by rewrite ?app_nil_r.
Qed.

Lemma headings_within lines : Forall within_section lines -> headings lines = [].
Proof.
  intros H. apply omap_None. eapply Forall_impl; [exact H|]. by intros [].
Qed.

Lemma headings_compareTarget runs target section :
  compareTarget runs target = Ok section -> headings section = [target].
Proof.
  intros (body & -> & Hbody)%compareTarget_heading.
  unfold headings. simpl. f_equal. by apply headings_within.
Qed.

Lemma headings_sections runs targets sections :
  Forall2 (fun target section => compareTarget runs target = Ok section)
          targets sections ->
  headings (concat sections) = targets.
Proof.
  induction 1 as [|target section targets sections Hsection _ IH]; [done|].
  simpl. unfold headings. rewrite omap_app.
  change (omap _ section) with (headings section).
  change (omap _ (concat sections)) with (headings (concat sections)).
  by rewrite (headings_compareTarget _ _ _ Hsection), IH.
Qed.

(** The rows of a section: those of its tables; a note has none. *)
Lemma rowNames_compareTarget runs target section :
  compareTarget runs target = Ok section ->
  (Exists (fun run => metrics_get target (metrics run) = Nothing) runs /\
   rowNames section = [] /\ loadRows section = []) \/
  (exists tms,
     Forall2 (fun run tm => metrics_get target (metrics run) = Metrics tm) runs tms /\
     rowNames section = rowNames (targetTables runs tms) /\
     loadRows section = loadRows (targetTables runs tms)).
Proof.
  intros [[Hex ->]|(first & tms & Htms & ->)]%compareTarget_Ok.
  - left. done.
  - right. exists (first :: tms). split; [done|].
    unfold rowNames, loadRows. by rewrite !omap_app.
Qed.


(** * Proofs: load results in the reports *)

(** ** Failed and skipped load results in a comparison *)






(** ** The availability column *)








(** * Proofs: the run index *)

(** ** The run index *)

Lemma sorted_newest_first l :
  StronglySorted newest_first (Array_sort newestFirst l).
Proof.
  eapply (StronglySorted_weaken (before newestFirst)); [|apply Array_sort_sorted].
  - intros a b. unfold before, newestFirst, newest_first. lia.
  - intros a b. unfold before, newestFirst. lia.
  - intros a b c. unfold before, newestFirst. lia.
Qed.

Lemma StronglySorted_take_drop {A} (R : A -> A -> Prop) n l :
  StronglySorted R l ->
  StronglySorted R (take n l) /\
  forall x y, x ∈ take n l -> y ∈ drop n l -> R x y.
Proof.
  intros H. revert n. induction H as [|x l Hl IH Hx]; intros n.
  - rewrite take_nil, drop_nil. split; [constructor|]. by intros x y ?%elem_of_nil.
  - destruct n as [|n]; simpl.
    + split; [constructor|]. by intros ? ? ?%elem_of_nil.
    + destruct (IH n) as [IH1 IH2]. split.
      * constructor; [done|]. rewrite Forall_forall in Hx |- *.
        intros y Hy. apply Hx. rewrite <- (take_drop n l). apply elem_of_app. by left.
      * intros a b [->|Ha]%elem_of_cons Hb; [|by apply IH2].
        rewrite Forall_forall in Hx. apply Hx.
        rewrite <- (take_drop n l). apply elem_of_app. by right.
Qed.

(** What [updateRunsIndex] does to a world whose index it can extend. *)
Lemma updateRunsIndex_run runId timestamp results w :
  runs_index w <> OtherJson ->
  updateRunsIndex runId timestamp results w
  = (Ok (), with_index
              (take 50 (Array_sort newestFirst
                          (entriesOf (runs_index w) ++ [entryOf runId timestamp results])))
              w).
Proof.
  intros Hw. unfold updateRunsIndex, mbind, M_bind, bind, readIndex, writeIndex, with_index.
  fold (entryOf runId timestamp results).
  set (new := entryOf runId timestamp results).
  assert (Hcut : forall l : list RunIndexEntry,
            (if (50 <? length l)%nat then take 50 l else l) = take 50 l).
  { intros l. destruct (50 <? length l)%nat eqn:E; [done|].
    apply Nat.ltb_ge in E. by rewrite take_ge. }
  destruct (runs_index w) eqn:E; try done; simpl; by rewrite Hcut.
Qed.

(** C5. After an update the index holds at most 50 entries, newest
    first: the 50 newest of the entries it held and the new one.  When it
    held 50, the one entry that goes is no newer than any that stays. *)
Theorem index_bounded_newest_first runId timestamp results w :
  runs_index w <> OtherJson ->
  exists kept,
    updateRunsIndex runId timestamp results w = (Ok (), with_index kept w) /\
    (length kept <= 50)%nat /\
    StronglySorted newest_first kept /\
    ((length (entriesOf (runs_index w)) < 50)%nat ->
       kept ≡ₚ entriesOf (runs_index w) ++ [entryOf runId timestamp results]) /\
    ((length (entriesOf (runs_index w)) = 50)%nat ->
       exists evicted,
         kept ++ [evicted]
           ≡ₚ entriesOf (runs_index w) ++ [entryOf runId timestamp results] /\
         forall e, e ∈ kept -> newest_first e evicted).
Proof.
  intros Hw. eexists. split; [by apply updateRunsIndex_run|].
  set (all := entriesOf (runs_index w) ++ [entryOf runId timestamp results]).
  set (sorted := Array_sort newestFirst all).
  assert (Hperm : sorted ≡ₚ all) by apply Array_sort_Permutation.
  assert (Hlen : length sorted = S (length (entriesOf (runs_index w)))).
  { rewrite Hperm. unfold all. rewrite length_app. simpl. lia. }
  destruct (StronglySorted_take_drop newest_first 50 sorted (sorted_newest_first all))
    as [Hsorted Holder].
  split; [rewrite length_take; lia|]. split; [done|]. split.
  - intros Hfew. rewrite take_ge by lia. done.
  - intros Hfull.
    destruct (drop 50 sorted) as [|evicted [|? ?]] eqn:Hdrop.
    + apply (f_equal length) in Hdrop. rewrite length_drop in Hdrop. simpl in Hdrop. lia.
    + exists evicted. split.
      * rewrite <- Hdrop, take_drop. done.
      * intros e He. apply Holder; [done|]. by left.
    + apply (f_equal length) in Hdrop. rewrite length_drop in Hdrop. simpl in Hdrop. lia.
Qed.

Lemma index_bounded_newest_first_witness :
  exists kept,
    updateRunsIndex id_B time_B run_B sample_world = (Ok (), with_index kept sample_world) /\
    (length kept <= 50)%nat /\
    StronglySorted newest_first kept /\
    kept ≡ₚ [entryOf id_A time_A run_A; entryOf id_B time_B run_B].
Proof.
  destruct (index_bounded_newest_first id_B time_B run_B sample_world)
    as (kept & H1 & H2 & H3 & H4 & _).
  - discriminate.
  - exists kept. split; [exact H1|]. split; [exact H2|]. split; [exact H3|].
    apply H4. simpl. lia.
Defined.

(** * Proofs: the load probe and the run *)

(** ** Reasoning in the monad *)

Lemma bind_Ok {A B} (m : M A) (k : A -> M B) w a w' :
  m w = (Ok a, w') -> (m ≫= k) w = k a w'.
Proof. intros H. unfold mbind, M_bind, bind. by rewrite H. Qed.

Lemma bind_Throw {A B} (m : M A) (k : A -> M B) w e w' :
  m w = (Throw e, w') -> (m ≫= k) w = (Throw e, w').
Proof. intros H. unfold mbind, M_bind, bind. by rewrite H. Qed.

Lemma keeps_files_ret {A} (a : A) : keeps_files (ret a).
Proof. by intros w. Qed.

Lemma keeps_files_throw {A} e : keeps_files (@throw A e).
Proof. by intros w. Qed.

Lemma keeps_files_log s : keeps_files (log s).
Proof. by intros w. Qed.

Lemma keeps_files_now h : keeps_files (now h).
Proof. by intros w. Qed.

Lemma keeps_files_execSync h c : keeps_files (execSync h c).
Proof. intros w. unfold execSync. by destruct (exec h c). Qed.

Lemma keeps_files_await {A} (r : exn A) : keeps_files (await r).
Proof. intros w. by destruct r. Qed.

Lemma keeps_files_bind {A B} (m : M A) (k : A -> M B) :
  keeps_files m -> (forall a, keeps_files (k a)) -> keeps_files (m ≫= k).
Proof.
  intros Hm Hk w. unfold mbind, M_bind, bind.
  destruct (Hm w) as [H1 H2]. destruct (m w) as [[a|e] w'] eqn:E; simpl in *.
  - destruct (Hk a w') as [H3 H4]. split; congruence.
  - done.
Qed.

Lemma keeps_files_try_catch {A} (body : M A) handler :
  keeps_files body -> (forall e, keeps_files (handler e)) ->
  keeps_files (try_catch body handler).
Proof.
  intros Hm Hk w. unfold try_catch.
  destruct (Hm w) as [H1 H2]. destruct (body w) as [[a|e] w'] eqn:E; simpl in *.
  - done.
  - destruct (Hk e w') as [H3 H4]. split; congruence.
Qed.

Lemma keeps_files_log_all l : keeps_files (log_all l).
Proof.
  induction l as [|s l IH]; simpl; [apply keeps_files_ret|].
  apply keeps_files_bind; [apply keeps_files_log|done].
Qed.

Lemma never_throws_ret {A} (a : A) : never_throws (ret a).
Proof. intros w. by exists a. Qed.

Lemma never_throws_log s : never_throws (log s).
Proof. intros w. by exists (). Qed.

Lemma never_throws_now h : never_throws (now h).
Proof. intros w. by eexists. Qed.

Lemma never_throws_bind {A B} (m : M A) (k : A -> M B) :
  never_throws m -> (forall a, never_throws (k a)) -> never_throws (m ≫= k).
Proof.
  intros Hm Hk w. unfold mbind, M_bind, bind.
  destruct (Hm w) as [a Ha]. destruct (m w) as [[a'|e] w']; simpl in *; [|done].
  apply Hk.
Qed.

Lemma never_throws_try_catch {A} (body : M A) handler :
  (forall e, never_throws (handler e)) -> never_throws (try_catch body handler).
Proof.
  intros Hk w. unfold try_catch. destruct (body w) as [[a|e] w']; [by exists a|].
  apply Hk.
Qed.

Lemma never_throws_log_all l : never_throws (log_all l).
Proof.
  induction l as [|s l IH]; simpl; [apply never_throws_ret|].
  apply never_throws_bind; [apply never_throws_log|done].
Qed.

Create HintDb monad.

#[global] Hint Resolve keeps_files_ret keeps_files_throw keeps_files_log
  keeps_files_now keeps_files_execSync keeps_files_await keeps_files_log_all
  never_throws_ret never_throws_log never_throws_now never_throws_log_all : monad.

Ltac monad_frame :=
  repeat first
    [ match goal with |- forall _, _ => intro end
    | apply keeps_files_bind
    | apply keeps_files_try_catch
    | apply never_throws_bind
    | apply never_throws_try_catch
    | match goal with
      | |- keeps_files (if ?b then _ else _) => destruct b
      | |- never_throws (if ?b then _ else _) => destruct b
      | |- keeps_files (match ?x with _ => _ end) => destruct x
      | |- never_throws (match ?x with _ => _ end) => destruct x
      end
    | solve [auto with monad] ].

(** ** The load probe *)

Lemma keeps_files_readMetrics h outputFile : keeps_files (readMetrics h outputFile).
Proof.
  unfold readMetrics. monad_frame.
Qed.

Lemma never_throws_readMetrics h outputFile : never_throws (readMetrics h outputFile).
Proof. unfold readMetrics. monad_frame. Qed.

Lemma keeps_files_runK6Benchmark h targetName targetUrl runDir :
  keeps_files (runK6Benchmark h targetName targetUrl runDir).
Proof.
  unfold runK6Benchmark. monad_frame; apply keeps_files_readMetrics.
Qed.

(** The probe never throws. *)
Lemma never_throws_runK6Benchmark h targetName targetUrl runDir :
  never_throws (runK6Benchmark h targetName targetUrl runDir).
Proof. unfold runK6Benchmark. monad_frame. Qed.

(** The probe's result, from the host's answers. *)
Lemma runK6Benchmark_result h targetName targetUrl runDir w :
  exists t,
    (runK6Benchmark h targetName targetUrl runDir w).1
    = Ok (loadOutcome h targetName targetUrl runDir t).
Proof.
  unfold runK6Benchmark, loadOutcome, outputFileOf, readMetrics.
  unfold mbind, M_bind, bind, try_catch, execSync, log, now, ret, throw.
  destruct (exec h "k6 version") as [e|]; simpl; [by exists (time_at h 0)|].
  destruct (exec h (k6Command _ targetUrl)) as [e|]; simpl; [by exists (time_at h 0)|].
  destruct (file_at h _) as [|e|raw]; simpl;
    try destruct (JS.truthy (JS.trim raw)); eexists; reflexivity.
Qed.

Lemma runK6Benchmark_run h targetName targetUrl runDir w :
  exists t w',
    runK6Benchmark h targetName targetUrl runDir w
    = (Ok (loadOutcome h targetName targetUrl runDir t), w') /\
    runs_index w' = runs_index w /\ run_files w' = run_files w.
Proof.
  destruct (runK6Benchmark_result h targetName targetUrl runDir w) as [t Ht].
  destruct (keeps_files_runK6Benchmark h targetName targetUrl runDir w) as [H1 H2].
  destruct (runK6Benchmark h targetName targetUrl runDir w) as [r w'].
  simpl in *. subst r. by exists t, w'.
Qed.

Lemma load_recorded_outcome h runDir targetName targetUrl p t :
  load_recorded h runDir
    {| target := targetName; url := targetUrl; playwright := p;
       k6 := loadOutcome h targetName targetUrl runDir t |}.
Proof.
  unfold load_recorded, loadOutcome. simpl.
  destruct (exec h "k6 version"); [done|].
  by destruct (exec h (k6Command _ targetUrl)).
Qed.

(** ** The run *)

Lemma known_cons_unknown config targetName rest :
  lookupTarget config targetName = None ->
  known config (targetName :: rest) = known config rest.
Proof.
  intros H. unfold known. rewrite filter_cons.
  destruct (decide _) as [[? Hs]|]; [congruence|done].
Qed.

Lemma known_cons_known config targetName rest t :
  lookupTarget config targetName = Some t ->
  known config (targetName :: rest) = targetName :: known config rest.
Proof.
  intros H. unfold known. rewrite filter_cons.
  destruct (decide _) as [|Hn]; [done|]. exfalso. apply Hn. by eexists.
Qed.

(** The loop over the targets ends, whatever the load probe finds. *)
Lemma benchmarkTargets_run h config runDir selected done w :
  playwright_settles h ->
  exists done' w',
    benchmarkTargets h config runDir selected done w = (Ok done', w') /\
    runs_index w' = runs_index w /\ run_files w' = run_files w /\
    target <$> done' = (target <$> done) ++ known config selected /\
    (Forall (load_recorded h runDir) done -> Forall (load_recorded h runDir) done').
Proof.
  intros Hp. revert done w.
  induction selected as [|targetName rest IH]; intros done w.
  - exists done, w. simpl. by rewrite app_nil_r.
  - cbn [benchmarkTargets]. destruct (lookupTarget config targetName) as [t|] eqn:Ht.
    + destruct (Hp targetName (config_url t) runDir) as [p Hprobe].
      unfold mbind, M_bind, bind. rewrite Hprobe. cbn [log await ret].
      match goal with
      | |- context [runK6Benchmark h targetName (config_url t) runDir ?w0] =>
          destruct (runK6Benchmark_run h targetName (config_url t) runDir w0)
            as (t0 & w1 & -> & Hi & Hr)
      end.
      match goal with
      | |- context [benchmarkTargets h config runDir rest ?d ?w0] =>
          destruct (IH d w0) as (done' & w' & -> & Hi' & Hr' & Htargets & Hrec)
      end.
      exists done', w'. split; [done|]. simpl in *.
      split; [congruence|]. split; [congruence|]. split.
      * rewrite Htargets, fmap_app, (known_cons_known _ _ _ _ Ht). simpl.
        by rewrite <- app_assoc.
      * intros Hdone. apply Hrec, Forall_app. split; [done|].
        constructor; [apply load_recorded_outcome|constructor].
    + unfold mbind, M_bind, bind. cbn [log].
      match goal with
      | |- context [benchmarkTargets h config runDir rest ?d ?w0] =>
          destruct (IH d w0) as (done' & w' & -> & Hi' & Hr' & Htargets & Hrec)
      end.
      exists done', w'. split; [done|]. simpl in *.
      by rewrite (known_cons_unknown _ _ _ Ht).
Qed.

Lemma keeps_files_generateSummary h results runDir :
  keeps_files (generateSummary h results runDir).
Proof. unfold generateSummary. monad_frame. Qed.

Lemma never_throws_generateSummary h results runDir :
  never_throws (generateSummary h results runDir).
Proof. unfold generateSummary. monad_frame. Qed.

(** A run ends normally whenever the browser probe settles and the index
    file, when it is JSON, is an array: its record is stored under its
    identifier and its entry is in the index. *)
Lemma runAllBenchmarks_run h config selected w :
  playwright_settles h -> runs_index w <> OtherJson ->
  exists run w',
    runAllBenchmarks h config selected w = (Ok run, w') /\
    timestamp run = time_at h (clock w) /\
    runId run = runId_text (timestamp run) /\
    target <$> targets run = known config selected /\
    Forall (load_recorded h (path_join h (runsDir h) (runId run))) (targets run) /\
    run_files w' = <[runId run := Stored run]> (run_files w) /\
    runs_index w'
    = Index (take 50 (Array_sort newestFirst
                        (entriesOf (runs_index w)
                         ++ [entryOf (runId run) (timestamp run) run]))).
Proof.
  intros Hp Hw. unfold runAllBenchmarks.
  unfold mbind at 1. unfold M_bind, bind at 1. cbn [now].
  rewrite runIdOf_toISOString.
  set (t := time_at h (clock w)). set (id := runId_text t).
  set (w0 := {| clock := S (clock w); console := console w;
                runs_index := runs_index w; run_files := run_files w |}).
  destruct (benchmarkTargets_run h config (path_join h (runsDir h) id) selected [] w0 Hp)
    as (done & w1 & Hloop & Hi1 & Hr1 & Htargets & Hrec).
  rewrite (bind_Ok _ _ _ _ _ Hloop). simpl in Hi1, Hr1.
  set (run := {| runId := id; timestamp := t; targets := done |}).
  unfold mbind, M_bind, bind. cbn [writeRun log].
  match goal with
  | |- context [updateRunsIndex id t run ?w2] =>
      rewrite (updateRunsIndex_run id t run w2) by (simpl; congruence);
      set (w3 := with_index _ w2)
  end.
  destruct (never_throws_generateSummary h run (path_join h (runsDir h) id) w3) as [lines Hlines].
  destruct (keeps_files_generateSummary h run (path_join h (runsDir h) id) w3) as [Hi4 Hr4].
  destruct (generateSummary h run (path_join h (runsDir h) id) w3) as [r w4].
  simpl in Hlines, Hi4, Hr4. subst r. cbn [ret].
  exists run, w4. split; [done|]. split; [done|]. split; [done|].
  change (targets run) with done.
  split; [by rewrite Htargets|]. split; [by apply Hrec|].
  split; [rewrite Hr4; simpl; by rewrite Hr1|].
  rewrite Hi4. simpl. by rewrite Hi1.
Qed.

(** ** Computations that do not look at the index *)

Lemma index_blind_ret {A} (a : A) : index_blind (ret a).
Proof. by intros i w. Qed.

Lemma index_blind_throw {A} e : index_blind (@throw A e).
Proof. by intros i w. Qed.

Lemma index_blind_log s : index_blind (log s).
Proof. by intros i w. Qed.

Lemma index_blind_now h : index_blind (now h).
Proof. by intros i w. Qed.

Lemma index_blind_execSync h c : index_blind (execSync h c).
Proof. intros i w. unfold execSync. by destruct (exec h c). Qed.

Lemma index_blind_await {A} (r : exn A) : index_blind (await r).
Proof. intros i w. by destruct r. Qed.

Lemma index_blind_writeRun runId run : index_blind (writeRun runId run).
Proof. by intros i w. Qed.

Lemma index_blind_bind {A B} (m : M A) (k : A -> M B) :
  index_blind m -> (forall a, index_blind (k a)) -> index_blind (m ≫= k).
Proof.
  intros Hm Hk i w. unfold mbind, M_bind, bind. rewrite Hm.
  destruct (m w) as [[a|e] w']; simpl; [apply Hk|done].
Qed.

Lemma index_blind_try_catch {A} (body : M A) handler :
  index_blind body -> (forall e, index_blind (handler e)) ->
  index_blind (try_catch body handler).
Proof.
  intros Hm Hk i w. unfold try_catch. rewrite Hm.
  destruct (body w) as [[a|e] w']; simpl; [done|apply Hk].
Qed.

Lemma index_blind_log_all l : index_blind (log_all l).
Proof.
  induction l as [|s l IH]; simpl; [apply index_blind_ret|].
  apply index_blind_bind; [apply index_blind_log|done].
Qed.

#[global] Hint Resolve index_blind_ret index_blind_throw index_blind_log
  index_blind_now index_blind_execSync index_blind_await index_blind_writeRun
  index_blind_log_all : monad.

Ltac monad_blind :=
  repeat first
    [ match goal with |- forall _, _ => intro end
    | apply index_blind_bind
    | apply index_blind_try_catch
    | match goal with
      | |- index_blind (if ?b then _ else _) => destruct b
      | |- index_blind (match ?x with _ => _ end) => destruct x
      end
    | solve [auto with monad] ].

Lemma index_blind_runK6Benchmark h targetName targetUrl runDir :
  index_blind (runK6Benchmark h targetName targetUrl runDir).
Proof. unfold runK6Benchmark, readMetrics. monad_blind. Qed.

Lemma index_blind_benchmarkTargets h config runDir selected done :
  index_blind (benchmarkTargets h config runDir selected done).
Proof.
  revert done. induction selected as [|targetName rest IH]; intros done.
  - apply index_blind_ret.
  - cbn [benchmarkTargets]. destruct (lookupTarget config targetName).
    + monad_blind; first [apply index_blind_runK6Benchmark | apply IH].
    + monad_blind; apply IH.
Qed.

Lemma index_blind_generateSummary h results runDir :
  index_blind (generateSummary h results runDir).
Proof. unfold generateSummary. monad_blind. Qed.

Lemma ignores_damage_bind {A B} (m : M A) (k : A -> M B) :
  index_blind m -> never_throws m -> (forall a, ignores_damage (k a)) ->
  ignores_damage (m ≫= k).
Proof.
  intros Hb Ht Hk w. unfold mbind, M_bind, bind. rewrite !Hb.
  destruct (Ht w) as [a Ha]. destruct (m w) as [[a'|e] w']; simpl in *; [|done].
  apply Hk.
Qed.

Lemma ignores_damage_updateRunsIndex {A} runId timestamp results (k : () -> M A) :
  ignores_damage (updateRunsIndex runId timestamp results ≫= k).
Proof.
  intros w. unfold mbind, M_bind, bind.
  by rewrite !updateRunsIndex_run by (simpl; discriminate).
Qed.

Lemma never_throws_benchmarkTargets h config runDir selected done :
  playwright_settles h ->
  never_throws (benchmarkTargets h config runDir selected done).
Proof.
  intros Hp w.
  destruct (benchmarkTargets_run h config runDir selected done w Hp)
    as (done' & w' & -> & _). by exists done'.
Qed.

(** A run that finds a damaged index file goes as a run that finds none. *)
Lemma runAllBenchmarks_damaged_index h config selected :
  playwright_settles h -> ignores_damage (runAllBenchmarks h config selected).
Proof.
  intros Hp. unfold runAllBenchmarks.
  apply ignores_damage_bind; [auto with monad..|]. intros t.
  rewrite runIdOf_toISOString.
  apply ignores_damage_bind;
    [apply index_blind_benchmarkTargets|by apply never_throws_benchmarkTargets|].
  intros done.
  apply ignores_damage_bind; [auto with monad|by eexists|]. intros _.
  apply ignores_damage_bind; [auto with monad..|]. intros _.
  apply ignores_damage_bind; [auto with monad..|]. intros _.
  apply ignores_damage_updateRunsIndex.
Qed.

(** The identifier and the timestamp of a run that ends. *)
Lemma runAllBenchmarks_runId h config selected w run w' :
  runAllBenchmarks h config selected w = (Ok run, w') ->
  timestamp run = time_at h (clock w) /\ runId run = runId_text (timestamp run).
Proof.
  unfold runAllBenchmarks. unfold mbind, M_bind, bind. cbn [now].
  rewrite runIdOf_toISOString.
  destruct (benchmarkTargets _ _ _ _ _ _) as [[records|e] w1]; [|done].
  cbn [writeRun log].
  destruct (updateRunsIndex _ _ _ _) as [[[]|e] w2]; [|done].
  destruct (generateSummary _ _ _ _) as [[lines|e] w3]; [|done].
  cbn [ret]. by intros [= <- <-].
Qed.

Lemma loadOutcome_None h targetName targetUrl runDir t :
  loadOutcome h targetName targetUrl runDir t = None <-> exec h "k6 version" <> None.
Proof.
  unfold loadOutcome. destruct (exec h "k6 version"); [done|].
  destruct (exec h (k6Command _ targetUrl)); split; try done; by intros [].
Qed.

(** C7 (amended). The load probe never throws.  It returns [null]
    exactly when [k6 version] fails: so it does when the binary is not on
    the search path, and so it does when the binary is there and the
    command fails.  When [k6 version] succeeds and the load test fails, it
    returns a result that carries the error; when the test completes, a
    result without error that names the metrics file.  Whatever it
    returns, the run goes on to its end with a record for every selected
    name that the configuration holds something under. *)
Theorem load_probe_outcomes h targetName targetUrl runDir w :
  exists r w',
    runK6Benchmark h targetName targetUrl runDir w = (Ok r, w') /\
    (r = None <-> exec h "k6 version" <> None) /\
    (missing_binary_fails h -> k6_on_path h = false -> r = None) /\
    (forall error,
       exec h "k6 version" = None ->
       exec h (k6Command (outputFileOf h runDir targetName) targetUrl) = Some error ->
       exists l, r = Some l /\ k6_error l = Some error) /\
    (exec h "k6 version" = None ->
     exec h (k6Command (outputFileOf h runDir targetName) targetUrl) = None ->
     exists l, r = Some l /\ k6_error l = None
               /\ metricsFile l = Some (outputFileOf h runDir targetName)) /\
    (forall config selected w0,
       playwright_settles h -> runs_index w0 <> OtherJson ->
       exists run w1,
         runAllBenchmarks h config selected w0 = (Ok run, w1) /\
         target <$> targets run = known config selected /\
         Forall (load_recorded h (path_join h (runsDir h) (runId run))) (targets run)).
Proof.
  destruct (runK6Benchmark_run h targetName targetUrl runDir w)
    as (t & w' & Hrun & _ & _).
  eexists _, w'. split; [exact Hrun|].
  pose proof (loadOutcome_None h targetName targetUrl runDir t) as Hnull.
  unfold loadOutcome in *.
  split; [exact Hnull|]. split; [|split; [|split]].
  - intros Hshell Hpath. by apply Hnull, Hshell.
  - intros error -> ->. by eexists.
  - intros -> ->. by eexists.
  - intros config selected w0 Hp Hw0.
    destruct (runAllBenchmarks_run h config selected w0 Hp Hw0)
      as (run & w1 & ? & _ & _ & ? & ? & _).
    by exists run, w1.
Qed.

(** C7, as the claim has it, fails: k6 is on the search path, [k6 version]
    fails, and the probe returns [null] as it does for a binary that is
    not there. *)
Lemma failing_k6_version_reads_as_missing :
  k6_on_path broken_host = true /\
  missing_binary_fails broken_host /\
  exec broken_host "k6 version" = Some "Command failed: k6 version" /\
  exists w',
    runK6Benchmark broken_host "kylix" (Some "http://kylix.local")
                   "/srv/horserace/results/runs/2026-01-18_10-05-00" fresh_world
    = (Ok None, w').
Proof.
  split; [reflexivity|]. split; [by intros [=]|]. split; [reflexivity|].
  eexists. vm_compute. reflexivity.
Qed.

(** C10. An index file that is not JSON is replaced without a word: the
    update throws nothing, logs nothing and writes an index of the
    current run's entry alone, and the run goes to its end as it does when
    there is no index file. *)
Theorem unreadable_index_is_replaced id t results w :
  runs_index w = BadIndex ->
  updateRunsIndex id t results w
  = (Ok (), {| clock := clock w; console := console w;
               runs_index := Index [entryOf id t results];
               run_files := run_files w |}) /\
  (forall h config selected,
     playwright_settles h ->
     exists run w',
       runAllBenchmarks h config selected w = (Ok run, w') /\
       runAllBenchmarks h config selected (set_index NoIndex w) = (Ok run, w') /\
       runs_index w' = Index [entryOf (runId run) (timestamp run) run]).
Proof.
  intros Hw. split.
  - rewrite updateRunsIndex_run by (rewrite Hw; discriminate). by rewrite Hw.
  - intros h config selected Hp.
    destruct (runAllBenchmarks_run h config selected w Hp)
      as (run & w' & Hrun & _ & _ & _ & _ & _ & Hindex); [rewrite Hw; discriminate|].
    exists run, w'. split; [done|]. split.
    + rewrite <- (runAllBenchmarks_damaged_index h config selected Hp w).
      assert (set_index BadIndex w = w) as ->; [|done].
      clear Hrun Hindex. destruct w as [c co i r]. cbn in Hw. subst i. reflexivity.
    + by rewrite Hindex, Hw.
Qed.

Lemma unreadable_index_is_replaced_witness :
  updateRunsIndex id_B time_B run_B damaged_world
  = (Ok (), {| clock := 0; console := [];
               runs_index := Index [entryOf id_B time_B run_B];
               run_files := {[ id_A := Stored run_A ]} |}) /\
  exists run w',
    runAllBenchmarks sample_host sample_config ["kylix"] damaged_world = (Ok run, w') /\
    runs_index w' = Index [entryOf (runId run) (timestamp run) run].
Proof.
  destruct (unreadable_index_is_replaced id_B time_B run_B damaged_world) as [H1 H2].
  - reflexivity.
  - split; [exact H1|].
    destruct (H2 sample_host sample_config ["kylix"]) as (run & w' & H3 & _ & H4).
    + intros ? ? ?. eexists. reflexivity.
    + exists run, w'. split; [exact H3|exact H4].
Defined.

(** C6. Run identifiers are unique and strictly increasing in time: of
    two runs started in distinct wall-clock seconds, the later one has the
    greater identifier in the order of strings.  This holds of the
    identifiers made from the two timestamps, and of the identifiers of
    any two runs that started at these times and ended. *)
Theorem runId_strictly_increasing (a b : utc) :
  calendar a -> calendar b -> (seconds a < seconds b)%Z ->
  (exists ida idb,
     runIdOf (toISOString a) = Some ida /\
     runIdOf (toISOString b) = Some idb /\
     JS.lt ida idb /\ ida <> idb) /\
  (forall ha hb ca cb sa sb wa wb run_a run_b wa' wb',
     time_at ha (clock wa) = a -> time_at hb (clock wb) = b ->
     runAllBenchmarks ha ca sa wa = (Ok run_a, wa') ->
     runAllBenchmarks hb cb sb wb = (Ok run_b, wb') ->
     JS.lt (runId run_a) (runId run_b) /\ runId run_a <> runId run_b).
Proof.
  intros Ha Hb He.
  apply (earlier_second_seconds a b Ha Hb) in He.
  pose proof (runId_text_lt a b (calendar_wf a Ha) (calendar_wf b Hb) He) as Hlt.
  assert (Hne : runId_text a <> runId_text b).
  { intros E. rewrite E in Hlt.
    assert (Hrefl : forall s, String.compare s s = Eq).
    { induction s as [|c s IHs]; [done|]. by rewrite compare_same_head. }
    rewrite Hrefl in Hlt. discriminate. }
  split.
  - exists (runId_text a), (runId_text b).
    repeat split; try done; apply runIdOf_toISOString.
  - intros ha hb ca cb sa sb wa wb run_a run_b wa' wb' Hta Htb Hra Hrb.
    apply runAllBenchmarks_runId in Hra as [Ea ->], Hrb as [Eb ->].
    rewrite Ea, Eb, Hta, Htb. done.
Qed.

Lemma runId_strictly_increasing_witness :
  (exists ida idb,
     runIdOf (toISOString time_A) = Some ida /\
     runIdOf (toISOString time_B) = Some idb /\
     JS.lt ida idb /\ ida <> idb) /\
  exists run_a wa run_b wb,
    runAllBenchmarks earlier_host sample_config ["kylix"] fresh_world = (Ok run_a, wa) /\
    runAllBenchmarks sample_host sample_config ["kylix"] wa = (Ok run_b, wb) /\
    JS.lt (runId run_a) (runId run_b) /\ runId run_a <> runId run_b.
Proof.
  destruct (runId_strictly_increasing time_A time_B) as [Hids Hruns].
  - split; [split; simpl; lia|vm_compute; discriminate].
  - split; [split; simpl; lia|vm_compute; discriminate].
  - reflexivity.
  - split; [exact Hids|].
    destruct (runAllBenchmarks_run earlier_host sample_config ["kylix"] fresh_world)
      as (run_a & wa & Hra & _ & _ & _ & _ & _ & Hia).
    + intros ? ? ?. eexists. reflexivity.
    + discriminate.
    + destruct (runAllBenchmarks_run sample_host sample_config ["kylix"] wa)
        as (run_b & wb & Hrb & _).
      * intros ? ? ?. eexists. reflexivity.
      * rewrite Hia. discriminate.
      * exists run_a, wa, run_b, wb. split; [exact Hra|]. split; [exact Hrb|].
        exact (Hruns earlier_host sample_host sample_config sample_config
                     ["kylix"] ["kylix"] fresh_world wa run_a run_b wa wb
                     eq_refl eq_refl Hra Hrb).
Defined.

(** * Proofs: the metrics artifact *)

(** ** Trimming and lines *)

Lemma trimStart_cons c s :
  JS.trimStart (String c s) = if JS.is_space c then JS.trimStart s else String c s.
Proof. reflexivity. Qed.

Lemma trimEnd_cons c s :
  JS.trimEnd (String c s)
  = match JS.trimEnd s with
    | EmptyString => if JS.is_space c then EmptyString else String c EmptyString
    | t => String c t
    end.
Proof. reflexivity. Qed.

Lemma length_trimStart s : (String.length (JS.trimStart s) <= String.length s)%nat.
Proof.
  induction s as [|c s IH]; [done|]. rewrite trimStart_cons.
  destruct (JS.is_space c); simpl; lia.
Qed.

Lemma length_trimEnd s : (String.length (JS.trimEnd s) <= String.length s)%nat.
Proof.
  induction s as [|c s IH]; [done|]. rewrite trimEnd_cons.
  destruct (JS.trimEnd s); [destruct (JS.is_space c)|]; simpl in *; lia.
Qed.

(** A trimmed line starts with a character that is not white space. *)
Lemma trimmed_trimStart s : JS.trim s = s -> JS.trimStart s = s.
Proof.
  unfold JS.trim. intros H. destruct s as [|c s]; [done|].
  rewrite trimStart_cons in *. destruct (JS.is_space c); [|done].
  pose proof (length_trimEnd (JS.trimStart s)) as H1.
  pose proof (length_trimStart s) as H2.
  rewrite H in H1. simpl in H1. lia.
Qed.

Lemma trimmed_trimEnd s : JS.trim s = s -> JS.trimEnd s = s.
Proof. intros H. pose proof (trimmed_trimStart s H) as H'. unfold JS.trim in H. congruence. Qed.

Lemma trimEnd_app_keep s t :
  JS.trimEnd t <> "" -> JS.trimEnd (s +:+ t) = s +:+ JS.trimEnd t.
Proof.
  intros Ht. induction s as [|c s IH]; [done|].
  rewrite !string_app_cons, trimEnd_cons, IH.
  destruct (s +:+ JS.trimEnd t) eqn:E; [|done].
  destruct s; [|done]. rewrite string_app_empty in E. done.
Qed.

Lemma trimEnd_app_drop s t :
  JS.trimEnd t = "" -> JS.trimEnd (s +:+ t) = JS.trimEnd s.
Proof.
  intros Ht. induction s as [|c s IH]; [done|].
  by rewrite !string_app_cons, !trimEnd_cons, IH.
Qed.

Lemma trimEnd_NL : JS.trimEnd NL = "".
Proof. reflexivity. Qed.

Lemma join_cons sep x y rest :
  JS.join sep (x :: y :: rest) = x +:+ sep +:+ JS.join sep (y :: rest).
Proof. reflexivity. Qed.

Lemma artifact_line_trimEnd line : artifact_line line -> JS.trimEnd line = line.
Proof. intros (_ & H & _). by apply trimmed_trimEnd. Qed.

(** Trimming an artifact takes its last line feed away. *)
Lemma trimEnd_unlines lines :
  Forall artifact_line lines -> lines <> [] ->
  JS.trimEnd (unlines lines) = JS.join NL lines.
Proof.
  induction 1 as [|line rest Hline Hrest IH]; [done|]. intros _.
  cbn [unlines]. destruct rest as [|line' rest].
  - cbn [unlines JS.join].
    rewrite trimEnd_app_drop by reflexivity. by apply artifact_line_trimEnd.
  - rewrite join_cons. rewrite <- IH by done.
    assert (Hne : JS.trimEnd (unlines (line' :: rest)) <> "").
    { rewrite IH by done. destruct rest; cbn [JS.join].
      - apply Forall_inv in Hrest. destruct Hrest as [Hn _]. exact Hn.
      - apply Forall_inv in Hrest. destruct Hrest as [Hn _].
        destruct line'; [done|]. rewrite string_app_cons. discriminate. }
    rewrite trimEnd_app_keep.
    + f_equal. by rewrite trimEnd_app_keep.
    + rewrite trimEnd_app_keep by done. discriminate.
Qed.

Lemma trimStart_line line rest :
  artifact_line line -> JS.trimStart (line +:+ rest) = line +:+ rest.
Proof.
  intros (Hne & Htrim%trimmed_trimStart & _). destruct line as [|c line]; [done|].
  rewrite string_app_cons, trimStart_cons in *. destruct (JS.is_space c); [|done].
  pose proof (length_trimStart line) as H. rewrite Htrim in H. simpl in H. lia.
Qed.

Lemma trim_unlines lines :
  Forall artifact_line lines -> lines <> [] ->
  JS.trim (unlines lines) = JS.join NL lines.
Proof.
  intros Hall Hne. unfold JS.trim. destruct lines as [|line rest]; [done|].
  cbn [unlines]. rewrite trimStart_line by by apply Forall_inv in Hall.
  by apply (trimEnd_unlines (line :: rest)).
Qed.

Lemma split_join lines :
  Forall artifact_line lines -> lines <> [] ->
  JS.split LF (JS.join NL lines) = lines.
Proof.
  induction 1 as [|line rest (_ & _ & Hline) Hrest IH]; [done|]. intros _.
  destruct rest as [|line' rest].
  - cbn [JS.join]. by apply split_avoids.
  - rewrite join_cons. unfold NL at 1. rewrite string_app_cons, string_app_empty.
    rewrite split_app by done. by rewrite IH.
Qed.

(** The lines that the probe reads off an artifact are its lines. *)
Lemma k6Lines_unlines lines :
  Forall artifact_line lines -> lines <> [] -> k6Lines (unlines lines) = lines.
Proof.
  intros Hall Hne. unfold k6Lines.
  rewrite trim_unlines, split_join by done.
  clear Hne. induction Hall as [|line rest (Hn & Ht & _) _ IH]; [done|].
  cbn [List.filter]. rewrite Ht, IH. by destruct line.
Qed.

Lemma truthy_trim_unlines lines :
  Forall artifact_line lines -> lines <> [] ->
  JS.truthy (JS.trim (unlines lines)) = true.
Proof.
  intros Hall Hne. rewrite trim_unlines by done.
  destruct lines as [|line rest]; [done|].
  apply Forall_inv in Hall. destruct Hall as [Hn _].
  destruct rest; cbn [JS.join]; by destruct line.
Qed.

(** ** Counting points *)

Lemma is_point_line_parseLine h line :
  truthy_json (parseLine h line) && type_is_Point (parseLine h line)
  = is_point_line h line.
Proof. unfold is_point_line, parseLine. by destruct (JSON_parse h line). Qed.

Lemma pointsOf_count h rawResults :
  length (pointsOf h rawResults)
  = length (List.filter (is_point_line h) (k6Lines rawResults)).
Proof.
  unfold pointsOf. induction (k6Lines rawResults) as [|line rest IH]; [done|].
  rewrite fmap_cons. cbn [List.filter]. rewrite is_point_line_parseLine.
  destruct (is_point_line h line); cbn [length]; by rewrite IH.
Qed.

(** A line that does not parse adds nothing to the count. *)
Lemma malformed_line_count h front bad back :
  JSON_parse h bad = None ->
  List.filter (is_point_line h) (front ++ bad :: back)
  = List.filter (is_point_line h) (front ++ back).
Proof.
  intros Hbad. rewrite !List.filter_app. f_equal. cbn [List.filter].
  unfold is_point_line at 1. by rewrite Hbad.
Qed.

Lemma k6Lines_blank rawResults :
  JS.truthy (JS.trim rawResults) = false -> k6Lines rawResults = [].
Proof.
  intros H. unfold k6Lines. destruct (JS.trim rawResults); [done|discriminate].
Qed.

(** The count that a completed load test reports. *)
Lemma runK6Benchmark_count h targetName targetUrl runDir w rawResults :
  exec h "k6 version" = None ->
  exec h (k6Command (outputFileOf h runDir targetName) targetUrl) = None ->
  file_at h (outputFileOf h runDir targetName) = Text rawResults ->
  exists l w',
    runK6Benchmark h targetName targetUrl runDir w = (Ok (Some l), w') /\
    k6_error l = None /\
    totalRequests l
    = Some (length (List.filter (is_point_line h) (k6Lines rawResults))).
Proof.
  intros Hversion Hrun Hfile.
  destruct (runK6Benchmark_run h targetName targetUrl runDir w)
    as (t & w' & Hresult & _ & _).
  unfold loadOutcome in Hresult. rewrite Hversion, Hrun, Hfile in Hresult.
  eexists _, w'. split; [exact Hresult|]. split; [done|]. cbn [totalRequests].
  f_equal. destruct (JS.truthy (JS.trim rawResults)) eqn:E.
  - apply pointsOf_count.
  - by rewrite k6Lines_blank.
Qed.

(** C8. A line of the metrics artifact that does not parse as JSON is
    dropped: the load result has no error, and the total it reports is
    the number of the lines that parse to a point, so the number among
    the other lines when one line is malformed. *)
Theorem malformed_lines_are_dropped h targetName targetUrl runDir w rawResults :
  exec h "k6 version" = None ->
  exec h (k6Command (outputFileOf h runDir targetName) targetUrl) = None ->
  file_at h (outputFileOf h runDir targetName) = Text rawResults ->
  exists l w',
    runK6Benchmark h targetName targetUrl runDir w = (Ok (Some l), w') /\
    k6_error l = None /\
    totalRequests l
    = Some (length (List.filter (is_point_line h) (k6Lines rawResults))) /\
    (forall front bad back,
       rawResults = unlines (front ++ bad :: back) ->
       Forall artifact_line (front ++ bad :: back) ->
       JSON_parse h bad = None ->
       totalRequests l
       = Some (length (List.filter (is_point_line h) (front ++ back)))).
Proof.
  intros Hversion Hrun Hfile.
  destruct (runK6Benchmark_count h targetName targetUrl runDir w rawResults)
    as (l & w' & Hresult & Herror & Hcount); try done.
  exists l, w'. split; [done|]. split; [done|]. split; [done|].
  intros front bad back -> Hlines Hbad.
  rewrite Hcount, k6Lines_unlines by (try done; by destruct front).
  by rewrite malformed_line_count.
Qed.

Lemma artifact_line_point : artifact_line point_line.
Proof. split; [discriminate|]. split; reflexivity. Qed.

Lemma artifact_line_cut : artifact_line cut_line.
Proof. split; [discriminate|]. split; reflexivity. Qed.

Lemma malformed_lines_are_dropped_witness :
  exists l w',
    runK6Benchmark sample_host "kylix" (Some "http://kylix.local")
                   "/srv/horserace/results/runs/x" sample_world
    = (Ok (Some l), w') /\
    k6_error l = None /\ totalRequests l = Some 2%nat.
Proof.
  destruct (malformed_lines_are_dropped sample_host "kylix" (Some "http://kylix.local")
              "/srv/horserace/results/runs/x" sample_world sample_artifact)
    as (l & w' & H1 & H2 & _ & H3); try reflexivity.
  exists l, w'. split; [exact H1|]. split; [exact H2|].
  apply (H3 [point_line] cut_line [point_line]).
  - reflexivity.
  - repeat constructor; first [apply artifact_line_point | apply artifact_line_cut].
  - reflexivity.
Defined.

(** * Proofs: loading and comparing *)

(** ** Runs that do not load *)

Lemma loadRun_Ok d id run : loadRun d id = Ok run <-> d !! id = Some (Stored run).
Proof.
  unfold loadRun. destruct (d !! id) as [[e|run']|]; split; intros H; try done.
  - by injection H as ->.
  - by injection H as ->.
Qed.

Lemma loadRuns_inr_iff d ids :
  (exists loaded, loadRuns d ids = inr loaded) <-> Forall (loads d) ids.
Proof.
  split.
  - intros [loaded H]. by apply loadRuns_inr_loads in H.
  - intros H. exists (loadedAs d <$> ids). by apply loadRuns_loads.
Qed.

Lemma loadRuns_inl d ids diagnostic :
  loadRuns d ids = inl diagnostic ->
  exists front id back e,
    ids = front ++ id :: back /\ Forall (loads d) front /\
    loadRun d id = Throw e /\
    diagnostic = "❌ Failed to load run " +:+ id +:+ ": " +:+ e.
Proof.
  revert diagnostic. induction ids as [|id ids IH]; intros diagnostic; simpl; [done|].
  destruct (loadRun d id) as [run|e] eqn:E.
  - destruct (loadRuns d ids) as [e|runs]; [|done].
    intros [= <-]. destruct (IH e eq_refl) as (front & id' & back & e' & -> & Hf & He & ->).
    exists (id :: front), id', back, e'. split; [done|]. split; [|done].
    constructor; [|done]. exists run. by apply loadRun_Ok.
  - intros [= <-]. by exists [], id, ids, e.
Qed.

(** The only error that stops a report is that of a section. *)
Lemma report_Thrown ids runs error :
  report ids runs = Thrown error -> error = "TypeError".
Proof.
  unfold report. destruct (compareTargets _ _) as [sections|e] eqn:E; [done|].
  intros [= <-]. apply compareTargets_Throw in E as (target & _ & E).
  by apply compareTarget_Throw in E as [-> _].
Qed.

(** X1. A comparison goes on to its report exactly when two or more
    identifiers are given and every one of them names a stored run that
    parses: it then writes the report, or the [TypeError] of a section
    stops it; it writes the report whenever the records of the runs have
    ordinary names.  Otherwise the program exits with code 1: with fewer
    than two identifiers it says so, and else it names the first
    identifier that does not load, "not found" for a run that is not
    stored. *)
Theorem comparison_needs_two_loadable_runs d ids :
  ((2 <= length ids)%nat /\ Forall (loads d) ids
   <-> (exists lines, compareRuns d ids = Written lines)
       \/ (exists error, compareRuns d ids = Thrown error)) /\
  ((2 <= length ids)%nat /\ Forall (loads d) ids /\ ordinary_names d ids ->
   exists lines, compareRuns d ids = Written lines) /\
  (forall error,
     compareRuns d ids = Thrown error ->
     error = "TypeError" /\ ~ ordinary_names d ids) /\
  (forall code diagnostic,
     compareRuns d ids = Exit code diagnostic ->
     code = 1%nat /\
     ((length ids < 2)%nat /\ diagnostic = "❌ Need at least 2 runs to compare" \/
      (2 <= length ids)%nat /\
      exists front id back,
        ids = front ++ id :: back /\ Forall (loads d) front /\
        (d !! id = None /\
         diagnostic = "❌ Failed to load run " +:+ id +:+ ": Run " +:+ id +:+ " not found"
         \/ exists e, d !! id = Some (Unparsable e) /\
              diagnostic = "❌ Failed to load run " +:+ id +:+ ": " +:+ e))).
Proof.
  assert (Hreport : (2 <= length ids)%nat /\ Forall (loads d) ids
                    <-> (exists lines, compareRuns d ids = Written lines)
                        \/ (exists error, compareRuns d ids = Thrown error)).
  { unfold compareRuns. destruct (length ids <? 2)%nat eqn:E.
    - apply Nat.ltb_lt in E. split; [lia|]. by intros [[? ?]|[? ?]].
    - apply Nat.ltb_ge in E. rewrite <- loadRuns_inr_iff.
      destruct (loadRuns d ids) as [e|loaded].
      + split; [by intros [_ [? ?]]|]. by intros [[? ?]|[? ?]].
      + split; [|intros _; split; [done|by eexists]].
        intros _. unfold report. destruct (compareTargets _ _); [left|right]; by eexists. }
  split; [exact Hreport|]. split; [|split].
  - intros (Hlen & Hloads & Hnames). by apply ordinary_written.
  - intros error Hthrown.
    assert (Hids : (2 <= length ids)%nat /\ Forall (loads d) ids).
    { apply Hreport. right. by eexists. }
    destruct Hids as [Hlen Hloads]. split.
    + pose proof (loadRuns_loads _ _ Hloads) as Hload.
      destruct (compareRuns_loaded _ _ _ Hload Hlen) as [Heq _].
      rewrite Heq in Hthrown. by apply report_Thrown in Hthrown.
    + intros Hnames.
      destruct (ordinary_written _ _ Hlen Hloads Hnames) as [lines Hlines]. congruence.
  - unfold compareRuns. destruct (length ids <? 2)%nat eqn:E.
    + apply Nat.ltb_lt in E.
      intros code diagnostic [= <- <-]. split; [done|]. left. done.
    + apply Nat.ltb_ge in E. intros code diagnostic H.
      destruct (loadRuns d ids) as [e|loaded] eqn:El.
      2: { unfold report in H. by destruct (compareTargets _ _). }
      injection H as <- <-. split; [done|]. right. split; [done|].
      apply loadRuns_inl in El as (front & id & back & e' & -> & Hf & He & ->).
      exists front, id, back. split; [done|]. split; [done|].
      unfold loadRun in He. destruct (d !! id) as [[e''|run]|]; try done.
      * right. exists e''. by injection He as <-.
      * left. by injection He as <-.
Qed.

(** ** What [extractMetrics] keeps of a run *)

(** X2. [extractMetrics] keeps one entry for each target name of a
    run other than [__proto__]: of several records under one name the
    last one counts, and the keys are the names of the records, each
    once.  A record named [__proto__] leaves no entry: the last of them
    becomes the prototype of the metrics. *)
Theorem last_record_of_a_target_counts run name :
  obj_get name (own (extractMetrics run))
  = (if decide (name = "__proto__") then None
     else extractTarget <$> last (recordsOf name run)) /\
  NoDup (obj_keys (own (extractMetrics run))) /\
  (forall k, k ∈ obj_keys (own (extractMetrics run))
             <-> k <> "__proto__" /\ k ∈ target <$> targets run) /\
  proto (extractMetrics run) = extractTarget <$> last (recordsOf "__proto__" run) /\
  (name <> "__proto__" -> name ∈ target <$> targets run ->
   exists t, last (recordsOf name run) = Some t /\
             metrics_get name (extractMetrics run) = Metrics (extractTarget t)).
Proof.
  split; [apply extractMetrics_get|].
  split; [apply NoDup_extractMetrics_keys|].
  split; [intros k; apply elem_of_extractMetrics_keys|].
  split; [apply extractMetrics_proto|].
  intros Hne Hin.
  assert (Hkey : name ∈ obj_keys (own (extractMetrics run)))
    by by apply elem_of_extractMetrics_keys.
  apply obj_get_is_Some in Hkey as [tm Htm].
  pose proof Htm as Hget. rewrite extractMetrics_get, decide_False in Hget by done.
  destruct (last (recordsOf name run)) as [t|]; [|done].
  injection Hget as <-. exists t. split; [done|]. by apply metrics_get_own.
Qed.

(** ** The success of a test *)

Lemma extractTest_flagTest flag pw test :
  extractTest pw (flagTest flag test) = extractTest pw test.
Proof. done. Qed.

Lemma extractTarget_flagTarget flag t :
  extractTarget (flagTarget flag t) = extractTarget t.
Proof.
  unfold extractTarget, flagTarget. simpl.
  destruct (playwright t) as [p|]; simpl; [|done].
  destruct (negb _); [|done].
  assert (E : foldl extractTest ∅ (flagTest flag <$> tests p)
              = foldl extractTest ∅ (tests p)); [|by rewrite E].
  generalize (∅ : gmap string Z).
  induction (tests p) as [|test l IH]; intros pw; [done|]. simpl. apply IH.
Qed.

Lemma extractMetrics_flagTests flag run :
  extractMetrics {| runId := runId run; timestamp := timestamp run;
                    targets := flagTarget flag <$> targets run |}
  = extractMetrics run.
Proof.
  unfold extractMetrics. simpl. generalize {| own := []; proto := None |}.
  induction (targets run) as [|t l IH]; intros o; [done|].
  simpl. rewrite IH. f_equal. unfold setTarget.
  by rewrite extractTarget_flagTarget.
Qed.

Lemma loadRuns_flagTests flag d ids :
  loadRuns (flagTests flag <$> d) ids = loadRuns d ids.
Proof.
  induction ids as [|id ids IH]; [done|]. simpl. rewrite IH.
  unfold loadRun. rewrite lookup_fmap.
  destruct (d !! id) as [[e|run]|]; simpl; try done.
  by rewrite extractMetrics_flagTests.
Qed.

(** X3. A comparison never reads the [success] of a test: whatever
    the flags of the stored tests are, the report is the same, so the
    load time of a page that did not answer 200 is compared like any
    other. *)
Theorem comparison_ignores_success_flags flag d ids :
  compareRuns (flagTests flag <$> d) ids = compareRuns d ids.
Proof. unfold compareRuns. by rewrite loadRuns_flagTests. Qed.

(** ** The rows of a section *)

(** X4. The rows of a target's section follow the fixed list of
    metrics: in its order, none twice, and [loadComplete], which is
    extracted but not in the list, never has a row. *)
Theorem rows_follow_the_metric_list runs target section :
  compareTarget runs target = Ok section ->
  rowNames section `sublist_of` playwrightMetrics /\
  NoDup (rowNames section) /\
  "loadComplete" ∉ rowNames section.
Proof.
  intros Hsection.
  assert (Hsub : rowNames section `sublist_of` playwrightMetrics).
  { destruct (rowNames_compareTarget _ _ _ Hsection)
      as [(_ & -> & _)|(tms & _ & -> & _)]; [by apply sublist_nil_l|].
    rewrite rowNames_targetTables.
    etrans; [apply sublist_filter|]. apply sublist_filter. }
  split; [done|]. split.
  - eapply sublist_NoDup; [|exact Hsub].
    apply (bool_decide_unpack _). by vm_compute.
  - intros Hin. apply (elem_of_sublist _ _ _ Hin) in Hsub.
    revert Hsub. apply (bool_decide_unpack _). by vm_compute.
Qed.

Lemma rows_follow_the_metric_list_witness :
  rowNames (sectionOf "kylix" sample_report) `sublist_of` playwrightMetrics /\
  NoDup (rowNames (sectionOf "kylix" sample_report)) /\
  "loadComplete" ∉ rowNames (sectionOf "kylix" sample_report).
Proof.
  assert (E : rowNames (sectionOf "kylix" sample_report)
              = rowNames (LTarget "kylix" :: sectionOf "kylix" sample_report))
    by reflexivity.
  rewrite E.
  apply (rows_follow_the_metric_list (compared sample_runs [id_B; id_A]) "kylix").
  vm_compute. reflexivity.
Defined.

Lemma metrics_unique runs target tms tms' :
  Forall2 (fun run tm => metrics_get target (metrics run) = Metrics tm) runs tms ->
  Forall2 (fun run tm => metrics_get target (metrics run) = Metrics tm) runs tms' ->
  tms = tms'.
Proof.
  intros H. revert tms'. induction H as [|run tm runs tms Htm _ IH];
    intros tms' H'; inversion H' as [|? tm' ? tms'' Htm' Hrest]; subst; [done|].
  f_equal; [congruence|by apply IH].
Qed.

(** X5. For a target that every run has, the load table has a row
    for every run, in report order, with the run's [hasResults], when
    some run has results; when none has, there is no row. *)
Theorem load_table_lists_every_run runs target tms section :
  mapM metricsOf ((fun run => metrics_get target (metrics run)) <$> runs) = Some tms ->
  compareTarget runs target = Ok section ->
  (Exists (fun tm => hasResults tm = true) tms ->
   loadRows section = zip (lr_timestamp <$> runs) (hasResults <$> tms)) /\
  (~ Exists (fun tm => hasResults tm = true) tms -> loadRows section = []).
Proof.
  intros Htms Hsection.
  assert (Hex : existsb id (hasResults <$> tms) = true
                <-> Exists (fun tm => hasResults tm = true) tms).
  { rewrite existsb_Exists, Exists_fmap. done. }
  assert (Hrows : loadRows section
                  = if existsb id (hasResults <$> tms)
                    then zip (lr_timestamp <$> runs) (hasResults <$> tms) else []).
  { apply mapM_metricsOf in Htms.
    destruct (rowNames_compareTarget _ _ _ Hsection)
      as [(Hnothing & _)|(tms' & Htms' & _ & ->)].
    - exfalso. apply Exists_exists in Hnothing as (run & Hrun & Hn).
      apply list_elem_of_lookup in Hrun as [i Hi].
      destruct (Forall2_lookup_l _ _ _ _ _ Htms Hi) as (tm & _ & Htm). congruence.
    - rewrite (metrics_unique _ _ _ _ Htms' Htms). apply loadRows_targetTables. }
  rewrite Hrows. split.
  - intros Hsome%Hex. by rewrite Hsome.
  - intros Hnone. destruct (existsb id _); [|done]. exfalso. by apply Hnone, Hex.
Qed.

Lemma load_table_lists_every_run_witness :
  loadRows (LTarget "kylix" :: sectionOf "kylix" sample_report)
  = [(time_A, true); (time_B, false)].
Proof.
  destruct (load_table_lists_every_run (compared sample_runs [id_B; id_A]) "kylix"
              (extractTarget <$> [sample_target "kylix" 245 (Some (sample_load time_A "kylix"));
                                  sample_target "kylix" 198 None])
              (LTarget "kylix" :: sectionOf "kylix" sample_report))
    as [H _].
  - vm_compute. reflexivity.
  - vm_compute. reflexivity.
  - rewrite H; [reflexivity|]. apply Exists_cons. left. reflexivity.
Defined.

(** ** The runs of a report *)

Lemma loaded_runs d ids loaded lr :
  loadRuns d ids = inr loaded ->
  lr ∈ sortRuns loaded <->
  exists id run, id ∈ ids /\ d !! id = Some (Stored run) /\
    lr = {| lr_runId := id; lr_timestamp := timestamp run;
            metrics := extractMetrics run |}.
Proof.
  intros Hload%loadRuns_inr. unfold sortRuns. rewrite Array_sort_Permutation.
  split.
  - intros (i & Hi)%list_elem_of_lookup.
    destruct (Forall2_lookup_r _ _ _ _ _ Hload Hi) as (id & Hid & run & Hrun & ->).
    exists id, run. split; [|done]. by eapply list_elem_of_lookup_2.
  - intros (id & run & (i & Hi)%list_elem_of_lookup & Hrun & ->).
    destruct (Forall2_lookup_l _ _ _ _ _ Hload Hi) as (lr & Hlr & run' & Hrun' & ->).
    rewrite Hrun in Hrun'. injection Hrun' as <-. by eapply list_elem_of_lookup_2.
Qed.

(** X6. A report has exactly one section for each target name
    other than [__proto__] that some compared run has a record of, and
    no other section. *)
Theorem one_section_for_each_target d ids lines :
  compareRuns d ids = Written lines ->
  NoDup (headings lines) /\
  forall name,
    name ∈ headings lines <->
    name <> "__proto__" /\
    exists id run, id ∈ ids /\ d !! id = Some (Stored run) /\ name ∈ target <$> targets run.
Proof.
  intros (_ & loaded & sections & Hload & Hsections & ->)%compareRuns_Written.
  assert (E : headings ([LTitle; LBlank; LComparedRuns ids; LBlank] ++ concat sections)
              = allTargets (sortRuns loaded)).
  { unfold headings. rewrite omap_app. cbn [omap app].
    by apply (headings_sections (sortRuns loaded)). }
  rewrite E. split; [apply NoDup_allTargets|].
  intros name. rewrite elem_of_allTargets. split.
  - intros (lr & (id & run & Hid & Hrun & ->)%(loaded_runs _ _ _ _ Hload) & Hkey).
    simpl in Hkey. apply elem_of_extractMetrics_keys in Hkey as [Hne Hkey].
    split; [done|]. by exists id, run.
  - intros (Hne & id & run & Hid & Hrun & Hname).
    eexists. split; [apply (loaded_runs _ _ _ _ Hload); by exists id, run|].
    simpl. by apply elem_of_extractMetrics_keys.
Qed.

Lemma one_section_for_each_target_witness :
  NoDup (headings sample_report) /\
  forall name,
    name ∈ headings sample_report <->
    name <> "__proto__" /\
    exists id run,
      id ∈ [id_B; id_A] /\ sample_runs !! id = Some (Stored run) /\
      name ∈ target <$> targets run.
Proof.
  apply (one_section_for_each_target sample_runs [id_B; id_A] sample_report).
  vm_compute. reflexivity.
Defined.

(** X7. The URL line of a section, its third line, shows the URL
    that the earliest of the compared runs has for the target, whatever
    the later runs have. *)
Theorem url_of_the_earliest_run d ids loaded target :
  loadRuns d ids = inr loaded -> (2 <= length ids)%nat ->
  Forall (fun run => is_Some (obj_get target (own (metrics run)))) (sortRuns loaded) ->
  exists first tm section,
    head (sortRuns loaded) = Some first /\
    (forall run, run ∈ loaded -> chronological first run) /\
    obj_get target (own (metrics first)) = Some tm /\
    compareTarget (sortRuns loaded) target = Ok section /\
    section !! 2%nat = Some (LUrl (tm_url tm)).
Proof.
  intros Hload Hlen Hall.
  destruct (compareRuns_loaded d ids loaded Hload Hlen) as [_ Hn].
  pose proof (sortRuns_sorted loaded) as Hsorted.
  assert (Hperm : sortRuns loaded ≡ₚ loaded) by apply Array_sort_Permutation.
  assert (Htms : exists tms,
            Forall2 (fun run tm => obj_get target (own (metrics run)) = Some tm)
                    (sortRuns loaded) tms).
  { apply Forall_exists_Forall2. eapply Forall_impl; [exact Hall|].
    by intros run [tm ?]; exists tm. }
  destruct Htms as [tms Htms].
  destruct (sortRuns loaded) as [|first rest] eqn:E; [simpl in Hn; lia|].
  inversion Htms as [|? tm ? tms' Htm Hrest]; subst.
  exists first, tm. eexists. split; [done|]. split; [|split; [done|]].
  - intros run Hrun. rewrite <- Hperm in Hrun.
    apply StronglySorted_inv in Hsorted as [_ Hfirst].
    apply elem_of_cons in Hrun as [->|Hrun].
    + unfold chronological. lia.
    + rewrite Forall_forall in Hfirst. by apply Hfirst.
  - assert (Hsection : compareTarget (first :: rest) target
                       = Ok ([LTarget target; LBlank; LUrl (tm_url tm); LBlank]
                             ++ targetTables (first :: rest) (tm :: tms'))).
    { apply compareTarget_tables.
      eapply Forall2_impl; [exact Htms|]. intros run tm'. apply metrics_get_own. }
    split; [exact Hsection|reflexivity].
Qed.

Lemma url_of_the_earliest_run_witness :
  exists first tm section,
    head (sortRuns (loaded_sample [id_B; id_A])) = Some first /\
    (forall run, run ∈ loaded_sample [id_B; id_A] -> chronological first run) /\
    obj_get "kylix" (own (metrics first)) = Some tm /\
    compareTarget (sortRuns (loaded_sample [id_B; id_A])) "kylix" = Ok section /\
    section !! 2%nat = Some (LUrl (tm_url tm)).
Proof.
  apply (url_of_the_earliest_run sample_runs [id_B; id_A]).
  - reflexivity.
  - simpl. lia.
  - apply Forall_forall. intros run Hrun. apply list_elem_of_In in Hrun.
    vm_compute in Hrun. destruct Hrun as [<-|[<-|[]]]; vm_compute; by eexists.
Defined.

Lemma filter_none {A} (P : A -> Prop) `{!forall x, Decision (P x)} (l : list A) :
  (forall x, ~ P x) -> filter P l = [].
Proof.
  intros HP. induction l as [|x l IH]; [done|].
  rewrite filter_cons, decide_False; [done|apply HP].
Qed.

(** What a run holds under the name of one of its records. *)
Lemma metrics_get_recorded run name t :
  last (recordsOf name run) = Some t ->
  metrics_get name (extractMetrics run) = Metrics (extractTarget t).
Proof.
  intros Hlast. unfold metrics_get.
  rewrite extractMetrics_get, extractMetrics_proto.
  destruct (decide (name = "__proto__")) as [->|Hne].
  - by rewrite Hlast.
  - by rewrite Hlast.
Qed.

(** X8. When the record that counts for a target in one of the
    compared runs carries a Playwright error, the target's section has no
    metric row at all, whatever the other runs measured. *)
Theorem probe_error_hides_the_rows d ids loaded id run name t p section :
  loadRuns d ids = inr loaded ->
  id ∈ ids -> d !! id = Some (Stored run) ->
  last (recordsOf name run) = Some t ->
  playwright t = Some p -> JS.truthy_opt (playwright_error p) = true ->
  compareTarget (sortRuns loaded) name = Ok section ->
  rowNames section = [].
Proof.
  intros Hload Hid Hrun Hlast Hp He Hsection.
  destruct (rowNames_compareTarget _ _ _ Hsection)
    as [(_ & -> & _)|(tms & Htms & -> & _)]; [done|].
  rewrite rowNames_targetTables.
  assert (Hin : {| lr_runId := id; lr_timestamp := timestamp run;
                   metrics := extractMetrics run |} ∈ sortRuns loaded).
  { apply (loaded_runs _ _ _ _ Hload). by exists id, run. }
  apply list_elem_of_lookup in Hin as [i Hi].
  destruct (Forall2_lookup_l _ _ _ _ _ Htms Hi) as (tm & Htm & Hget).
  simpl in Hget. rewrite (metrics_get_recorded _ _ _ Hlast) in Hget.
  injection Hget as <-.
  apply filter_none. intros metric Hall. rewrite Forall_forall in Hall.
  destruct (Hall (extractTarget t)) as [v Hv]; [by eapply list_elem_of_lookup_2|].
  revert Hv. unfold extractTarget. rewrite Hp, He. simpl. by rewrite lookup_empty.
Qed.

Lemma probe_error_hides_the_rows_witness :
  rowNames (LTarget "kylix"
            :: sectionOf "kylix"
                 match compareRuns sample_runs_broken [id_A; id_B] with
                 | Written lines => lines
                 | _ => []
                 end)
  = [].
Proof.
  eapply (probe_error_hides_the_rows sample_runs_broken [id_A; id_B] _ id_B run_B_broken
            "kylix").
  - reflexivity.
  - apply list_elem_of_In. simpl. tauto.
  - reflexivity.
  - reflexivity.
  - reflexivity.
  - reflexivity.
  - vm_compute. reflexivity.
Defined.

(** X9. An identifier may be given twice: the run is then loaded
    twice and compared with itself, and every row marks both of its equal
    values best. *)
Theorem a_run_compared_with_itself d id run :
  d !! id = Some (Stored run) ->
  exists lines,
    compareRuns d [id; id] = Written lines /\
    forall metric cells, LRow metric cells ∈ lines ->
      exists value, cells = [(Best, value); (Best, value)].
Proof.
  intros Hrun.
  set (lr := {| lr_runId := id; lr_timestamp := timestamp run;
                metrics := extractMetrics run |}).
  assert (Hload : loadRuns d [id; id] = inr [lr; lr]).
  { unfold loadRuns, loadRun. by rewrite Hrun. }
  assert (Hsort : sortRuns [lr; lr] = [lr; lr]).
  { unfold sortRuns. cbn [Array_sort sort_insert]. unfold byTimestamp.
    by destruct (Z.leb_spec (Date_ms (lr_timestamp lr) - Date_ms (lr_timestamp lr)) 0);
      [|lia]. }
  assert (Hwritten : exists lines, compareRuns d [id; id] = Written lines).
  { destruct (compareRuns_loaded d [id; id] [lr; lr] Hload) as [-> _]; [simpl; lia|].
    rewrite Hsort. unfold report.
    assert (Hall : Forall (fun target => exists section,
                      compareTarget [lr; lr] target = Ok section) (allTargets [lr; lr])).
    { apply Forall_forall. intros target (r & Hr & Hkey)%elem_of_allTargets.
      assert (r = lr) as ->
        by (rewrite !elem_of_cons, elem_of_nil in Hr; tauto).
      apply obj_get_is_Some in Hkey as [tm Htm]. apply metrics_get_own in Htm.
      eexists. apply (compareTarget_tables _ _ tm [tm]). by repeat constructor. }
    apply Forall_exists_Forall2 in Hall as [sections Hsections].
    rewrite (compareTargets_sections _ _ _ Hsections). by eexists. }
  destruct Hwritten as [lines Hlines]. exists lines. split; [done|].
  intros metric cells Hrow.
  destruct (elem_of_report_row _ _ _ _ _ Hlines Hrow)
    as (loaded & target & tms & Hload' & _ & _ & Htms & _ & Hrow').
  rewrite Hload in Hload'. injection Hload' as <-. rewrite Hsort in Htms, Hrow'.
  inversion Htms as [|? tm1 ? tms1 Htm1 Htms1]; subst.
  inversion Htms1 as [|? tm2 ? tms2 Htm2 Htms2]; subst.
  inversion Htms2; subst.
  assert (tm2 = tm1) as -> by congruence.
  apply metricRow_cells in Hrow' as (_ & Hvalues & lo & hi & Hlo & _ & _ & Hcells);
    [|simpl; lia|done].
  cbn [fmap list_fmap] in Hvalues.
  destruct (tm_playwright tm1 !! metric) as [v|];
    [|by destruct cells as [|[m1 v1] cells]].
  assert (Hv : cells.*2 = [v; v]).
  { destruct cells as [|[m1 v1] [|[m2 v2] [|c cells]]]; by simplify_eq/=. }
  rewrite Hv in Hlo, Hcells.
  assert (lo = v) as -> by (rewrite !elem_of_cons, elem_of_nil in Hlo; tauto).
  exists v. rewrite Hcells. simpl. by rewrite decide_True.
Qed.

Lemma a_run_compared_with_itself_witness :
  exists lines,
    compareRuns sample_runs [id_A; id_A] = Written lines /\
    forall metric cells, LRow metric cells ∈ lines ->
      exists value, cells = [(Best, value); (Best, value)].
Proof.
  apply (a_run_compared_with_itself sample_runs id_A run_A). reflexivity.
Defined.

(** * Proofs: the steps of a run *)

Lemma keeps_files_benchmarkTargets h config runDir selected done :
  keeps_files (benchmarkTargets h config runDir selected done).
Proof.
  revert done. induction selected as [|targetName rest IH]; intros done; simpl.
  - apply keeps_files_ret.
  - destruct (lookupTarget config targetName) as [t|]; monad_frame;
      try apply keeps_files_runK6Benchmark; apply IH.
Qed.

(** The run, step by step: the loop, the two files of results, the index
    and the summary. *)
Lemma runAllBenchmarks_steps h config selected w :
  let t := time_at h (clock w) in
  let id := runId_text t in
  let runDir := path_join h (runsDir h) id in
  runAllBenchmarks h config selected w
  = match benchmarkTargets h config runDir selected []
            {| clock := S (clock w); console := console w;
               runs_index := runs_index w; run_files := run_files w |} with
    | (Throw e, w1) => (Throw e, w1)
    | (Ok records, w1) =>
        let run := {| runId := id; timestamp := t; targets := records |} in
        match updateRunsIndex id t run
                {| clock := clock w1;
                   console := console w1
                     ++ [NL +:+ "💾 Run results saved to "
                            +:+ path_join h runDir "all-results.json";
                         "💾 Latest results saved to "
                            +:+ path_join h (resultsDir h) "latest-results.json"];
                   runs_index := runs_index w1;
                   run_files := <[id := Stored run]> (run_files w1) |} with
        | (Throw e, w3) => (Throw e, w3)
        | (Ok _, w3) =>
            match generateSummary h run runDir w3 with
            | (Ok _, w4) => (Ok run, w4)
            | (Throw e, w4) => (Throw e, w4)
            end
        end
    end.
Proof.
  intros t id runDir. unfold runAllBenchmarks.
  unfold mbind at 1. unfold M_bind, bind at 1. cbn [now].
  rewrite runIdOf_toISOString. fold t. fold id. fold runDir.
  unfold mbind, M_bind, bind.
  destruct (benchmarkTargets _ _ _ _ _ _) as [[records|e] w1]; [|done].
  cbn [writeRun log clock console runs_index run_files]. rewrite <- app_assoc. cbn [app].
  destruct (updateRunsIndex _ _ _ _) as [[[]|e] w3]; [|done].
  by destruct (generateSummary _ _ _ _) as [[lines|e] w4].
Qed.

Lemma updateRunsIndex_OtherJson runId timestamp results w :
  runs_index w = OtherJson ->
  updateRunsIndex runId timestamp results w
  = (Throw "runsIndex.push is not a function", w).
Proof.
  intros Hw. unfold updateRunsIndex, readIndex, mbind, M_bind, bind. by rewrite Hw.
Qed.

(** What a run that ends has stored. *)
Lemma runAllBenchmarks_Ok h config selected w run w' :
  runAllBenchmarks h config selected w = (Ok run, w') ->
  runs_index w <> OtherJson /\
  timestamp run = time_at h (clock w) /\
  runId run = runId_text (timestamp run) /\
  run_files w' = <[runId run := Stored run]> (run_files w) /\
  runs_index w'
  = Index (take 50 (Array_sort newestFirst
                      (entriesOf (runs_index w)
                       ++ [entryOf (runId run) (timestamp run) run]))).
Proof.
  rewrite runAllBenchmarks_steps. cbv zeta.
  set (t := time_at h (clock w)). set (id := runId_text t).
  set (w0 := {| clock := S (clock w); console := console w;
                runs_index := runs_index w; run_files := run_files w |}).
  destruct (keeps_files_benchmarkTargets h config (path_join h (runsDir h) id) selected [] w0)
    as [Hi1 Hr1].
  destruct (benchmarkTargets _ _ _ _ _ _) as [[records|e] w1]; [|done].
  simpl in Hi1, Hr1.
  match goal with |- context [updateRunsIndex id t ?r ?x] =>
    set (run0 := r); set (w2 := x) end.
  assert (Hcases : runs_index w = OtherJson \/ runs_index w <> OtherJson).
  { destruct (runs_index w); by (left + right). }
  destruct Hcases as [Hbad|Hok].
  { rewrite updateRunsIndex_OtherJson; [done|]. simpl. by rewrite Hi1. }
  rewrite updateRunsIndex_run by (simpl; by rewrite Hi1).
  match goal with |- context [generateSummary h run0 _ ?x] => set (w3 := x) end.
  destruct (keeps_files_generateSummary h run0 (path_join h (runsDir h) id) w3) as [Hi4 Hr4].
  destruct (generateSummary _ _ _ _) as [[lines|e] w4]; [|done].
  simpl in Hi4, Hr4. intros [= <- <-].
  split; [done|]. split; [done|]. split; [done|]. split.
  - rewrite Hr4. simpl. by rewrite Hr1.
  - rewrite Hi4. simpl. by rewrite Hi1.
Qed.

(** The sample hosts settle. *)
Lemma sample_host_settles : playwright_settles sample_host.
Proof.
  intros ? ? ?. by eexists.
Qed.

Lemma earlier_host_settles : playwright_settles earlier_host.
Proof.
  intros ? ? ?. by eexists.
Qed.

Lemma host_at_settles t artifact : playwright_settles (host_at t artifact).
Proof.
  intros ? ? ?. by eexists.
Qed.

(** ** A browser probe that rejects *)

Lemma benchmarkTargets_rejects h config runDir selected records w name t e :
  name ∈ selected -> lookupTarget config name = Some t ->
  runPlaywrightBenchmark h name (config_url t) runDir = Throw e ->
  exists e' w', benchmarkTargets h config runDir selected records w = (Throw e', w').
Proof.
  intros Hin Hname Hthrow. revert records w.
  induction selected as [|targetName rest IH]; intros records w;
    [by apply elem_of_nil in Hin|].
  cbn [benchmarkTargets].
  destruct (decide (targetName = name)) as [->|Hne].
  - rewrite Hname. unfold mbind, M_bind, bind. cbn [log]. rewrite Hthrow.
    cbn [await throw]. by eexists _, _.
  - apply elem_of_cons in Hin as [->|Hin]; [done|].
    destruct (lookupTarget config targetName) as [t'|].
    + unfold mbind, M_bind, bind. cbn [log].
      destruct (runPlaywrightBenchmark h targetName (config_url t') runDir) as [p|e'];
        cbn [await ret throw]; [|by eexists _, _].
      match goal with |- context [runK6Benchmark h targetName ?u runDir ?x] =>
        destruct (never_throws_runK6Benchmark h targetName u runDir x) as [r Hr];
        destruct (runK6Benchmark h targetName u runDir x) as [r' w1]
      end.
      simpl in Hr. subst r'. apply IH, Hin.
    + unfold mbind, M_bind, bind. cbn [log]. apply IH, Hin.
Qed.

(** X11. When the browser probe rejects for a selected name under
    which the configuration holds something, the run throws: no run is
    stored and the index is as it was. *)
Theorem probe_rejection_stores_nothing h config selected w name t e :
  name ∈ selected -> lookupTarget config name = Some t ->
  (forall runDir, runPlaywrightBenchmark h name (config_url t) runDir = Throw e) ->
  exists e' w',
    runAllBenchmarks h config selected w = (Throw e', w') /\
    run_files w' = run_files w /\ runs_index w' = runs_index w.
Proof.
  intros Hin Hname Hthrow. rewrite runAllBenchmarks_steps. cbv zeta.
  set (runDir := path_join h (runsDir h) _).
  set (w0 := {| clock := S (clock w); console := console w;
                runs_index := runs_index w; run_files := run_files w |}).
  destruct (benchmarkTargets_rejects h config runDir selected [] w0 name t e
              Hin Hname (Hthrow runDir)) as (e' & w' & Hloop).
  destruct (keeps_files_benchmarkTargets h config runDir selected [] w0) as [Hi Hr].
  rewrite Hloop in Hi, Hr |- *. by exists e', w'.
Qed.

Lemma probe_rejection_stores_nothing_witness :
  exists e w',
    runAllBenchmarks (withBrowser sample_host (fun _ => missing_browser))
                     sample_config ["kylix"] sample_world = (Throw e, w') /\
    run_files w' = run_files sample_world /\ runs_index w' = runs_index sample_world.
Proof.
  eapply (probe_rejection_stores_nothing
            (withBrowser sample_host (fun _ => missing_browser)) sample_config ["kylix"]
            sample_world "kylix").
  - apply list_elem_of_In. simpl. tauto.
  - reflexivity.
  - intros runDir. reflexivity.
Defined.

(** ** An index file that is not an array *)

(** X12. When the index file holds JSON that is not an array, the
    run is stored with a record for every selected name under which the
    configuration holds something, and then the update of the index
    throws: the index stays, and the console ends with the line on the
    latest results, which names the file in the directory of the scripts,
    before any summary. *)
Theorem non_array_index_fails_the_run h config selected w :
  playwright_settles h -> runs_index w = OtherJson ->
  exists e run w',
    runAllBenchmarks h config selected w = (Throw e, w') /\
    target <$> targets run = known config selected /\
    run_files w' = <[runId run := Stored run]> (run_files w) /\
    runs_index w' = OtherJson /\
    last (console w')
    = Some ("💾 Latest results saved to "
            +:+ path_join h (path_join h (dirname h) "results") "latest-results.json").
Proof.
  intros Hp Hw. rewrite runAllBenchmarks_steps. cbv zeta.
  set (t := time_at h (clock w)). set (id := runId_text t).
  set (w0 := {| clock := S (clock w); console := console w;
                runs_index := runs_index w; run_files := run_files w |}).
  destruct (benchmarkTargets_run h config (path_join h (runsDir h) id) selected [] w0 Hp)
    as (records & w1 & Hloop & Hi1 & Hr1 & Htargets & _).
  rewrite Hloop. simpl in Hi1, Hr1.
  rewrite updateRunsIndex_OtherJson by (simpl; by rewrite Hi1).
  eexists _, {| runId := id; timestamp := t; targets := records |}, _.
  split; [done|]. split; [done|]. simpl. split; [by rewrite Hr1|].
  split; [by rewrite Hi1|]. by rewrite last_app.
Qed.

Lemma non_array_index_fails_the_run_witness :
  exists e run w',
    runAllBenchmarks sample_host sample_config ["kylix"] odd_world = (Throw e, w') /\
    target <$> targets run = known sample_config ["kylix"] /\
    run_files w' = <[runId run := Stored run]> (run_files odd_world) /\
    runs_index w' = OtherJson /\
    last (console w')
    = Some "💾 Latest results saved to /srv/horserace/results/latest-results.json".
Proof.
  apply (non_array_index_fails_the_run sample_host sample_config ["kylix"] odd_world).
  - apply sample_host_settles.
  - reflexivity.
Defined.

(** ** The selected targets *)

Lemma log_all_run l w :
  log_all l w = (Ok (), {| clock := clock w; console := console w ++ l;
                           runs_index := runs_index w; run_files := run_files w |}).
Proof.
  revert w. induction l as [|s l IH]; intros w.
  - simpl. unfold ret. rewrite app_nil_r. by destruct w.
  - cbn [log_all]. unfold mbind, M_bind, bind. cbn [log]. rewrite IH. simpl.
    by rewrite <- app_assoc.
Qed.

Lemma generateSummary_run h results runDir w :
  exists logged,
    generateSummary h results runDir w
    = (Ok (summaryLines h results),
       {| clock := clock w; console := console w ++ logged;
          runs_index := runs_index w; run_files := run_files w |}).
Proof.
  unfold generateSummary. unfold mbind, M_bind, bind. cbn [log].
  rewrite log_all_run. cbn [log ret clock console runs_index run_files].
  eexists. f_equal. f_equal. rewrite <- !app_assoc. reflexivity.
Qed.

Lemma benchmarkTargets_unknown h config runDir selected records w :
  Forall (fun name => lookupTarget config name = None) selected ->
  benchmarkTargets h config runDir selected records w
  = (Ok records,
     {| clock := clock w;
        console := console w ++ ((fun name => "❌ Unknown target: " +:+ name) <$> selected);
        runs_index := runs_index w; run_files := run_files w |}).
Proof.
  intros Hall. revert w. induction Hall as [|name rest Hname _ IH]; intros w.
  - simpl. unfold ret. rewrite app_nil_r. by destruct w.
  - cbn [benchmarkTargets]. rewrite Hname. unfold mbind, M_bind, bind. cbn [log].
    rewrite IH. simpl. by rewrite <- app_assoc.
Qed.

Lemma known_unknown config selected :
  Forall (fun name => lookupTarget config name = None) selected ->
  known config selected = [].
Proof.
  induction 1 as [|name rest Hname _ IH]; [done|].
  by rewrite known_cons_unknown.
Qed.

(** The names under which the configuration holds nothing truthy. *)
Lemma lookupTarget_None config name :
  lookupTarget config name = None <->
  obj_get name config = Some None \/
  (obj_get name config = None /\ name <> "__proto__" /\ name ∉ prototype_members).
Proof.
  unfold lookupTarget, inheritedTarget.
  destruct (obj_get name config) as [[t|]|].
  - split; [done|]. by intros [?|[? _]].
  - split; [by left|done].
  - destruct (decide (name = "__proto__")) as [->|Hne].
    { split; [done|]. by intros [?|(_ & ? & _)]. }
    destruct (decide (name = "constructor")) as [->|Hne'].
    { split; [done|]. intros [?|(_ & _ & Hnot)]; [done|].
      exfalso. apply Hnot. apply list_elem_of_In. simpl. tauto. }
    case_bool_decide as Hin.
    + split; [done|]. by intros [?|(_ & _ & ?)].
    + split; [|done]. intros _. by right.
Qed.

(** X13. When the configuration holds nothing truthy under any
    selected name, nothing is probed: the console names every unknown
    target, and the run ends, is stored and enters the index with no
    target.  The configuration holds nothing truthy under a name when its
    member of the name is falsy, or when it has no member of the name and
    the name is neither [__proto__] nor that of a member of
    [Object.prototype]. *)
Theorem unknown_targets_are_skipped h config selected w :
  Forall (fun name => lookupTarget config name = None) selected ->
  runs_index w <> OtherJson ->
  (forall name,
     lookupTarget config name = None <->
     obj_get name config = Some None \/
     (obj_get name config = None /\ name <> "__proto__" /\ name ∉ prototype_members)) /\
  exists run w' logged,
    runAllBenchmarks h config selected w = (Ok run, w') /\
    targets run = [] /\
    console w'
    = console w ++ ((fun name => "❌ Unknown target: " +:+ name) <$> selected) ++ logged /\
    run_files w' = <[runId run := Stored run]> (run_files w) /\
    runs_index w'
    = Index (take 50 (Array_sort newestFirst
                        (entriesOf (runs_index w)
                         ++ [{| entry_runId := runId run;
                                entry_timestamp := timestamp run;
                                entry_targets := [] |}]))).
Proof.
  intros Hall Hw. split; [intros name; apply lookupTarget_None|].
  rewrite runAllBenchmarks_steps. cbv zeta.
  rewrite benchmarkTargets_unknown by done.
  cbn [clock console runs_index run_files].
  rewrite updateRunsIndex_run by done.
  match goal with |- context [generateSummary ?h ?r ?d ?x] =>
    destruct (generateSummary_run h r d x) as [logged ->] end.
  eexists _, _, _. split; [done|]. split; [done|]. simpl.
  split; [by rewrite <- !app_assoc|]. done.
Qed.

Lemma unknown_targets_are_skipped_witness :
  exists run w' logged,
    runAllBenchmarks sample_host sample_config ["kylyx"] fresh_world = (Ok run, w') /\
    targets run = [] /\
    console w' = console fresh_world ++ ["❌ Unknown target: kylyx"] ++ logged /\
    run_files w' = <[runId run := Stored run]> (run_files fresh_world) /\
    runs_index w'
    = Index (take 50 (Array_sort newestFirst
                        (entriesOf (runs_index fresh_world)
                         ++ [{| entry_runId := runId run;
                                entry_timestamp := timestamp run;
                                entry_targets := [] |}]))).
Proof.
  apply (unknown_targets_are_skipped sample_host sample_config ["kylyx"] fresh_world).
  - repeat constructor.
  - discriminate.
Defined.

Lemma benchmarkTargets_Ok h config runDir selected records w records' w' :
  benchmarkTargets h config runDir selected records w = (Ok records', w') ->
  target <$> records' = (target <$> records) ++ known config selected.
Proof.
  revert records w. induction selected as [|targetName rest IH]; intros records w.
  - simpl. intros [= <- <-]. by rewrite app_nil_r.
  - cbn [benchmarkTargets]. destruct (lookupTarget config targetName) as [t|] eqn:E.
    + rewrite (known_cons_known _ _ _ _ E).
      unfold mbind, M_bind, bind. cbn [log].
      destruct (runPlaywrightBenchmark h targetName (config_url t) runDir) as [p|e];
        cbn [await ret throw]; [|done].
      destruct (runK6Benchmark _ _ _ _ _) as [[r|e] w1]; [|done].
      cbn [log]. intros ->%IH. rewrite fmap_app. simpl. by rewrite <- app_assoc.
    + rewrite (known_cons_unknown _ _ _ E).
      unfold mbind, M_bind, bind. cbn [log]. apply IH.
Qed.

Lemma filter_all {A} (P : A -> Prop) `{!forall x, Decision (P x)} (l : list A) :
  Forall P l -> filter P l = l.
Proof.
  induction 1 as [|x l Hx _ IH]; [done|].
  by rewrite filter_cons, decide_True, IH.
Qed.

Lemma elem_of_known config selected name :
  name ∈ known config selected <->
  name ∈ selected /\
  ((exists t, obj_get name config = Some (Some t)) \/
   (obj_get name config = None /\ (name = "__proto__" \/ name ∈ prototype_members))).
Proof.
  unfold known. rewrite list_elem_of_filter.
  assert (Hknown : is_Some (lookupTarget config name) <->
            (exists t, obj_get name config = Some (Some t)) \/
            (obj_get name config = None /\ (name = "__proto__" \/ name ∈ prototype_members))).
  { pose proof (lookupTarget_None config name) as Hnone.
    destruct (lookupTarget config name) as [t|] eqn:E.
    - split; [|by eexists]. intros _.
      destruct (obj_get name config) as [[t'|]|] eqn:Eo.
      + left. by eexists.
      + exfalso. assert (Some t = None); [|done]. apply Hnone. by left.
      + right. split; [done|].
        destruct (decide (name = "__proto__")) as [|Hne]; [by left|]. right.
        destruct (decide (name ∈ prototype_members)) as [|Hnot]; [done|].
        exfalso. assert (Some t = None); [|done]. apply Hnone. by right.
    - split; [by intros [? ?]|]. intros H. exfalso.
      destruct Hnone as [Hnone _]. destruct (Hnone eq_refl) as [Ho|(Ho & Hne & Hnot)].
      + rewrite Ho in H. by destruct H as [[? ?]|[? _]].
      + rewrite Ho in H. destruct H as [[? ?]|[_ [?|?]]]; done. }
  rewrite Hknown. tauto.
Qed.

Lemma known_obj_keys (config : Targets) :
  Forall (fun member => is_Some member.2) config ->
  NoDup (obj_keys config) ->
  known config (obj_keys config) = obj_keys config.
Proof.
  intros Hall Hnodup. unfold known. apply filter_all, Forall_forall. intros name Hname.
  apply obj_get_is_Some in Hname as [member Hmember].
  unfold lookupTarget. rewrite Hmember.
  assert (Hin : (name, member) ∈ config).
  { clear Hall Hnodup. induction config as [|[k v] config IH]; [done|].
    simpl in Hmember. destruct (decide (name = k)) as [->|Hne].
    - injection Hmember as ->. by left.
    - right. by apply IH. }
  rewrite Forall_forall in Hall. apply (Hall _ Hin).
Qed.

(** X14. A run that ends has a record for every selected name under
    which the configuration holds something truthy, in the order of the
    selection: the names given, or the keys of the configuration when no
    name is given.  The configuration holds something truthy under a name
    when its member of the name is truthy, or when it has no member of
    the name and the name is [__proto__] or that of a member of
    [Object.prototype].  So a configuration whose members are all truthy
    has a record for each of them when no name is given. *)
Theorem targets_of_a_run h config args w run w' :
  runAllBenchmarks h config (selectedTargets config args) w = (Ok run, w') ->
  (args = [] -> target <$> targets run = known config (obj_keys config)) /\
  (args <> [] -> target <$> targets run = known config args) /\
  (forall selected name,
     name ∈ known config selected <->
     name ∈ selected /\
     ((exists t, obj_get name config = Some (Some t)) \/
      (obj_get name config = None /\ (name = "__proto__" \/ name ∈ prototype_members)))) /\
  (forall selected, known config selected `sublist_of` selected) /\
  (args = [] -> Forall (fun member => is_Some member.2) config ->
   NoDup (obj_keys config) ->
   target <$> targets run = obj_keys config).
Proof.
  rewrite runAllBenchmarks_steps. cbv zeta.
  destruct (benchmarkTargets _ _ _ _ _ _) as [[records|e] w1] eqn:Hloop; [|done].
  apply benchmarkTargets_Ok in Hloop. simpl in Hloop.
  destruct (updateRunsIndex _ _ _ _) as [[[]|e] w3]; [|done].
  destruct (generateSummary _ _ _ _) as [[lines|e] w4]; [|done].
  intros [= <- <-]. simpl. rewrite Hloop.
  split; [by intros ->|]. split; [intros Hargs; by destruct args|].
  split; [intros selected name; apply elem_of_known|].
  split; [intros selected; apply sublist_filter|].
  intros -> Hall Hnodup. by apply known_obj_keys.
Qed.

Lemma targets_of_a_run_witness :
  exists run w',
    runAllBenchmarks sample_host sample_config (selectedTargets sample_config [])
                     fresh_world = (Ok run, w') /\
    target <$> targets run = ["kylix"].
Proof.
  destruct (runAllBenchmarks_run sample_host sample_config
              (selectedTargets sample_config []) fresh_world)
    as (run & w' & Hrun & _); [apply sample_host_settles|discriminate|].
  exists run, w'. split; [exact Hrun|].
  destruct (targets_of_a_run sample_host sample_config [] fresh_world run w' Hrun)
    as (H & _).
  rewrite (H eq_refl). reflexivity.
Defined.

(** * Proofs: the order of the index *)

Lemma sort_insert_newest (new e : RunIndexEntry) l :
  (newestFirst e new > 0)%Z ->
  sort_insert newestFirst e (new :: l) = new :: sort_insert newestFirst e l.
Proof.
  intros H. cbn [sort_insert]. destruct (Z.leb_spec (newestFirst e new) 0); [lia|done].
Qed.

Lemma Array_sort_newest entries new :
  Forall (fun e => (Date_ms (entry_timestamp e) < Date_ms (entry_timestamp new))%Z)
         entries ->
  Array_sort newestFirst (entries ++ [new]) = new :: Array_sort newestFirst entries.
Proof.
  induction 1 as [|e entries He _ IH]; [done|].
  cbn [app Array_sort]. rewrite IH. apply sort_insert_newest.
  unfold newestFirst. lia.
Qed.

Lemma sort_insert_stale (new e : RunIndexEntry) l :
  (newestFirst e new <= 0)%Z ->
  sort_insert newestFirst e (l ++ [new]) = sort_insert newestFirst e l ++ [new].
Proof.
  intros H. induction l as [|y l IH]; cbn [app sort_insert].
  - by destruct (Z.leb_spec (newestFirst e new) 0); [|lia].
  - destruct (newestFirst e y <=? 0)%Z; [done|]. by rewrite IH.
Qed.

Lemma Array_sort_stale entries new :
  Forall (fun e => (Date_ms (entry_timestamp new) <= Date_ms (entry_timestamp e))%Z)
         entries ->
  Array_sort newestFirst (entries ++ [new]) = Array_sort newestFirst entries ++ [new].
Proof.
  induction 1 as [|e entries He _ IH]; [done|].
  cbn [app Array_sort]. rewrite IH. apply sort_insert_stale.
  unfold newestFirst. lia.
Qed.

(** X15. When the run is newer than every entry of the index, its
    entry is written first, before the 49 newest of the old entries. *)
Theorem newest_run_heads_the_index runId timestamp results w :
  runs_index w <> OtherJson ->
  Forall (fun e => (Date_ms (entry_timestamp e) < Date_ms timestamp)%Z)
         (entriesOf (runs_index w)) ->
  updateRunsIndex runId timestamp results w
  = (Ok (), with_index (entryOf runId timestamp results
                        :: take 49 (Array_sort newestFirst (entriesOf (runs_index w))))
                       w).
Proof.
  intros Hw Hnew. rewrite updateRunsIndex_run by done.
  by rewrite (Array_sort_newest _ (entryOf runId timestamp results)).
Qed.

Lemma newest_run_heads_the_index_witness :
  updateRunsIndex id_B time_B run_B sample_world
  = (Ok (), with_index [entryOf id_B time_B run_B; entryOf id_A time_A run_A] sample_world).
Proof.
  apply (newest_run_heads_the_index id_B time_B run_B sample_world).
  - discriminate.
  - repeat constructor.
Defined.

(** X16. When the index holds 50 entries or more and none is older
    than the run, the entry of the run is dropped at once: the index is
    written with the 50 newest old entries alone. *)
Theorem stale_run_is_not_indexed runId timestamp results w :
  runs_index w <> OtherJson ->
  (50 <= length (entriesOf (runs_index w)))%nat ->
  Forall (fun e => (Date_ms timestamp <= Date_ms (entry_timestamp e))%Z)
         (entriesOf (runs_index w)) ->
  updateRunsIndex runId timestamp results w
  = (Ok (), with_index (take 50 (Array_sort newestFirst (entriesOf (runs_index w)))) w).
Proof.
  intros Hw Hlen Hold. rewrite updateRunsIndex_run by done.
  rewrite (Array_sort_stale _ (entryOf runId timestamp results)) by done.
  rewrite take_app_le; [done|]. by rewrite Array_sort_length.
Qed.

Lemma stale_run_is_not_indexed_witness :
  updateRunsIndex id_A time_A run_A full_world
  = (Ok (), with_index (replicate 50 (entryOf id_B time_B run_B)) full_world).
Proof.
  apply (stale_run_is_not_indexed id_A time_A run_A full_world).
  - discriminate.
  - simpl. lia.
  - apply Forall_replicate. vm_compute. discriminate.
Defined.

(** * Proofs: from a run to its comparison *)

Lemma runId_text_ne a b :
  utc_wf a -> utc_wf b -> earlier_second a b -> runId_text a <> runId_text b.
Proof.
  intros Ha Hb He E. pose proof (runId_text_lt a b Ha Hb He) as Hlt.
  unfold JS.lt in Hlt. rewrite E in Hlt.
  assert (Hrefl : forall s, String.compare s s = Eq).
  { induction s as [|c s IHs]; [done|]. by rewrite compare_same_head. }
  by rewrite Hrefl in Hlt.
Qed.

Lemma seconds_Date_ms a b : (seconds a < seconds b)%Z -> (Date_ms a < Date_ms b)%Z.
Proof.
  unfold seconds. intros H.
  destruct (Z.lt_ge_cases (Date_ms a) (Date_ms b)) as [|Hge]; [done|].
  apply (Z.div_le_mono _ _ 1000) in Hge; lia.
Qed.

(** X17. Two runs that end one after the other, started in
    different seconds, can be compared: in either order of the
    identifiers the comparison loads both and reports on the first run
    before the second.  When the records of both runs have ordinary names
    the report is written, with the same sections in both orders. *)
Theorem successive_runs_compare ha hb ca cb sa sb w run_a wa run_b wb :
  runAllBenchmarks ha ca sa w = (Ok run_a, wa) ->
  runAllBenchmarks hb cb sb wa = (Ok run_b, wb) ->
  calendar (timestamp run_a) -> calendar (timestamp run_b) ->
  (seconds (timestamp run_a) < seconds (timestamp run_b))%Z ->
  let runs :=
    [{| lr_runId := runId run_a; lr_timestamp := timestamp run_a;
        metrics := extractMetrics run_a |};
     {| lr_runId := runId run_b; lr_timestamp := timestamp run_b;
        metrics := extractMetrics run_b |}] in
  compareRuns (run_files wb) [runId run_a; runId run_b]
  = report [runId run_a; runId run_b] runs /\
  compareRuns (run_files wb) [runId run_b; runId run_a]
  = report [runId run_b; runId run_a] runs /\
  (Forall ordinary (target <$> targets run_a) ->
   Forall ordinary (target <$> targets run_b) ->
   exists sections,
     compareTargets runs (allTargets runs) = Ok sections /\
     compareRuns (run_files wb) [runId run_a; runId run_b]
     = Written ([LTitle; LBlank; LComparedRuns [runId run_a; runId run_b]; LBlank]
                ++ sections) /\
     compareRuns (run_files wb) [runId run_b; runId run_a]
     = Written ([LTitle; LBlank; LComparedRuns [runId run_b; runId run_a]; LBlank]
                ++ sections)).
Proof.
  intros Hra Hrb Ca Cb Hlt runs.
  apply runAllBenchmarks_Ok in Hra as (_ & _ & Hida & Hfa & _).
  apply runAllBenchmarks_Ok in Hrb as (_ & _ & Hidb & Hfb & _).
  assert (Hne : runId run_a <> runId run_b).
  { rewrite Hida, Hidb. apply runId_text_ne; [apply Ca|apply Cb|].
    by apply earlier_second_seconds. }
  assert (Hla : run_files wb !! runId run_a = Some (Stored run_a)).
  { rewrite Hfb, lookup_insert_ne by done. by rewrite Hfa, lookup_insert_eq. }
  assert (Hlb : run_files wb !! runId run_b = Some (Stored run_b)).
  { by rewrite Hfb, lookup_insert_eq. }
  apply seconds_Date_ms in Hlt.
  assert (Hab : compareRuns (run_files wb) [runId run_a; runId run_b]
                = report [runId run_a; runId run_b] runs).
  { unfold compareRuns, loadRuns, loadRun. rewrite Hla, Hlb. cbn [length Nat.ltb Nat.leb].
    unfold sortRuns. cbn [Array_sort sort_insert]. unfold byTimestamp. cbn [lr_timestamp].
    by destruct (Z.leb_spec (Date_ms (timestamp run_a) - Date_ms (timestamp run_b)) 0);
      [|lia]. }
  assert (Hba : compareRuns (run_files wb) [runId run_b; runId run_a]
                = report [runId run_b; runId run_a] runs).
  { unfold compareRuns, loadRuns, loadRun. rewrite Hla, Hlb. cbn [length Nat.ltb Nat.leb].
    unfold sortRuns. cbn [Array_sort sort_insert]. unfold byTimestamp. cbn [lr_timestamp].
    by destruct (Z.leb_spec (Date_ms (timestamp run_b) - Date_ms (timestamp run_a)) 0);
      [lia|]. }
  split; [exact Hab|]. split; [exact Hba|].
  intros Hna Hnb.
  destruct (ordinary_written (run_files wb) [runId run_a; runId run_b]) as [lines Hlines].
  - simpl. lia.
  - repeat constructor; by eexists.
  - intros id run t Hid Hrun Ht.
    assert (Hin : target t ∈ target <$> targets run) by by apply list_elem_of_fmap_2.
    rewrite !elem_of_cons, elem_of_nil in Hid. destruct Hid as [->|[->|[]]].
    + rewrite Hla in Hrun. injection Hrun as <-.
      rewrite Forall_forall in Hna. by apply Hna.
    + rewrite Hlb in Hrun. injection Hrun as <-.
      rewrite Forall_forall in Hnb. by apply Hnb.
  - rewrite Hab in Hlines. rewrite Hab, Hba. unfold report in *.
    destruct (compareTargets runs (allTargets runs)) as [sections|e]; [|done].
    by exists sections.
Qed.

Lemma successive_runs_compare_witness :
  exists run_a wa run_b wb sections,
    runAllBenchmarks earlier_host sample_config ["kylix"] fresh_world = (Ok run_a, wa) /\
    runAllBenchmarks sample_host sample_config ["kylix"] wa = (Ok run_b, wb) /\
    compareRuns (run_files wb) [runId run_a; runId run_b]
    = Written ([LTitle; LBlank; LComparedRuns [runId run_a; runId run_b]; LBlank]
               ++ sections) /\
    compareRuns (run_files wb) [runId run_b; runId run_a]
    = Written ([LTitle; LBlank; LComparedRuns [runId run_b; runId run_a]; LBlank]
               ++ sections).
Proof.
  destruct (runAllBenchmarks_run earlier_host sample_config ["kylix"] fresh_world)
    as (run_a & wa & Hra & Hta & _ & Hna & _ & _ & Hia);
    [apply earlier_host_settles|discriminate|].
  destruct (runAllBenchmarks_run sample_host sample_config ["kylix"] wa)
    as (run_b & wb & Hrb & Htb & _ & Hnb & _);
    [apply sample_host_settles|rewrite Hia; discriminate|].
  destruct (successive_runs_compare earlier_host sample_host sample_config sample_config
              ["kylix"] ["kylix"] fresh_world run_a wa run_b wb Hra Hrb)
    as (_ & _ & H).
  - rewrite Hta. split; [split; simpl; lia|vm_compute; discriminate].
  - rewrite Htb. split; [split; simpl; lia|vm_compute; discriminate].
  - rewrite Hta, Htb. reflexivity.
  - destruct H as (sections & _ & Hab & Hba).
    + rewrite Hna. repeat constructor; [discriminate|].
      intros Hm. apply list_elem_of_In in Hm. vm_compute in Hm.
      repeat (destruct Hm as [Hm|Hm]; [discriminate Hm|]). done.
    + rewrite Hnb. repeat constructor; [discriminate|].
      intros Hm. apply list_elem_of_In in Hm. vm_compute in Hm.
      repeat (destruct Hm as [Hm|Hm]; [discriminate Hm|]). done.
    + exists run_a, wa, run_b, wb, sections.
      split; [exact Hra|]. split; [exact Hrb|]. split; [exact Hab|exact Hba].
Defined.

(** X18. Two runs that start within one second have one
    identifier: the second run replaces the stored results of the first,
    and an index with room lists the identifier twice. *)
Theorem same_second_runs_share_an_identifier ha hb ca cb sa sb w run_a wa run_b wb :
  runAllBenchmarks ha ca sa w = (Ok run_a, wa) ->
  runAllBenchmarks hb cb sb wa = (Ok run_b, wb) ->
  year (timestamp run_a) = year (timestamp run_b) ->
  month (timestamp run_a) = month (timestamp run_b) ->
  day (timestamp run_a) = day (timestamp run_b) ->
  hour (timestamp run_a) = hour (timestamp run_b) ->
  minute (timestamp run_a) = minute (timestamp run_b) ->
  second (timestamp run_a) = second (timestamp run_b) ->
  runId run_a = runId run_b /\
  loadRun (run_files wb) (runId run_a) = Ok run_b /\
  ((length (entriesOf (runs_index w)) < 49)%nat ->
   exists entries,
     runs_index wb = Index entries /\
     entryOf (runId run_a) (timestamp run_a) run_a ∈ entries /\
     entryOf (runId run_a) (timestamp run_b) run_b ∈ entries).
Proof.
  intros Hra Hrb Hy Hmo Hd Hh Hmi Hs.
  apply runAllBenchmarks_Ok in Hra as (_ & _ & Hida & Hfa & Hia).
  apply runAllBenchmarks_Ok in Hrb as (_ & _ & Hidb & Hfb & Hib).
  assert (Hid : runId run_a = runId run_b).
  { rewrite Hida, Hidb. unfold runId_text. by rewrite Hy, Hmo, Hd, Hh, Hmi, Hs. }
  split; [done|]. split.
  - rewrite Hfb, Hid. unfold loadRun. by rewrite lookup_insert_eq.
  - intros Hlen. rewrite Hib, Hia. cbn [entriesOf].
    eexists. split; [done|].
    set (ea := entryOf (runId run_a) (timestamp run_a) run_a).
    set (eb := entryOf (runId run_b) (timestamp run_b) run_b).
    assert (Ha : take 50 (Array_sort newestFirst (entriesOf (runs_index w) ++ [ea]))
                 ≡ₚ entriesOf (runs_index w) ++ [ea]).
    { rewrite take_ge; [apply Array_sort_Permutation|].
      rewrite Array_sort_length, length_app. simpl. lia. }
    assert (Hb : take 50 (Array_sort newestFirst
                   (take 50 (Array_sort newestFirst (entriesOf (runs_index w) ++ [ea]))
                    ++ [eb]))
                 ≡ₚ (entriesOf (runs_index w) ++ [ea]) ++ [eb]).
    { rewrite take_ge.
      - by rewrite Array_sort_Permutation, Ha.
      - rewrite Array_sort_length, length_app, Ha, length_app. simpl. lia. }
    rewrite Hb. split.
    + rewrite !elem_of_app, !elem_of_cons. tauto.
    + subst eb. rewrite <- Hid, !elem_of_app, !elem_of_cons. tauto.
Qed.

Lemma same_second_runs_share_an_identifier_witness :
  exists run_a wa run_b wb,
    runAllBenchmarks earlier_host sample_config ["kylix"] fresh_world = (Ok run_a, wa) /\
    runAllBenchmarks (host_at time_A_half Missing) sample_config ["kylix"] wa
    = (Ok run_b, wb) /\
    runId run_a = runId run_b /\
    loadRun (run_files wb) (runId run_a) = Ok run_b.
Proof.
  destruct (runAllBenchmarks_run earlier_host sample_config ["kylix"] fresh_world)
    as (run_a & wa & Hra & Hta & _ & _ & _ & _ & Hia);
    [apply earlier_host_settles|discriminate|].
  destruct (runAllBenchmarks_run (host_at time_A_half Missing) sample_config ["kylix"] wa)
    as (run_b & wb & Hrb & Htb & _);
    [apply host_at_settles|rewrite Hia; discriminate|].
  exists run_a, wa, run_b, wb. split; [exact Hra|]. split; [exact Hrb|].
  destruct (same_second_runs_share_an_identifier earlier_host (host_at time_A_half Missing)
              sample_config sample_config ["kylix"] ["kylix"] fresh_world
              run_a wa run_b wb Hra Hrb) as (H1 & H2 & _);
    try (rewrite Hta, Htb; reflexivity).
  split; [exact H1|exact H2].
Defined.

(** ** The shape of an identifier *)

Lemma length_append s t : String.length (s +:+ t) = (String.length s + String.length t)%nat.
Proof.
  induction s as [|c s IH]; [done|]. simpl. by rewrite IH.
Qed.

Lemma length_pad k n : String.length (pad k n) = k.
Proof.
  revert n. induction k as [|k IH]; intros n; [done|].
  cbn [pad]. rewrite length_append, IH. simpl. lia.
Qed.

(** X19. The identifier is defined for every timestamp that
    [toISOString] prints, holds no [T], colon, dot or slash, and is 19
    characters long for a year of four digits. *)
Theorem run_identifier_is_a_plain_name t :
  runIdOf (toISOString t) = Some (runId_text t) /\
  JS.avoids ["T"; ":"; "."; "/"]%char (runId_text t) = true /\
  (utc_wf t -> String.length (runId_text t) = 19%nat).
Proof.
  split; [apply runIdOf_toISOString|]. split.
  - assert (Hpad : forall k n, JS.avoids ["T"; ":"; "."; "/"]%char (pad k n) = true).
    { intros k n. by apply avoids_pad. }
    assert (Hyear : JS.avoids ["T"; ":"; "."; "/"]%char (iso_year (year t)) = true).
    { unfold iso_year. destruct (_ && _); [apply Hpad|].
      destruct (year t <? 0)%Z; by rewrite avoids_app, Hpad. }
    unfold runId_text. rewrite !avoids_app, !Hpad, Hyear. reflexivity.
  - intros Ht. unfold runId_text. rewrite iso_year_four by apply Ht.
    rewrite !length_append, !length_pad. reflexivity.
Qed.

(** ** The list of runs *)

(** X20. After a run that ends, [compare-runs.js] without
    arguments lists the runs and returns; when the run is newer than all
    indexed runs, it is the first of the list. *)
Theorem newest_run_is_listed_first h config selected w run w' viewer :
  runAllBenchmarks h config selected w = (Ok run, w') ->
  (listRuns viewer (runs_index w')).2 = Returns /\
  (Forall (fun e => (Date_ms (entry_timestamp e) < Date_ms (timestamp run))%Z)
          (entriesOf (runs_index w)) ->
   exists rest,
     (listRuns viewer (runs_index w')).1
     = ["📋 Available Test Runs:"; ""]
       ++ listEntry viewer 0 (entryOf (runId run) (timestamp run) run) ++ rest).
Proof.
  intros (_ & _ & _ & _ & Hindex)%runAllBenchmarks_Ok. rewrite Hindex.
  split; [done|]. intros Hnew.
  rewrite (Array_sort_newest _ (entryOf (runId run) (timestamp run) run)) by done.
  cbn [take listRuns fst imap concat]. eexists. rewrite <- !app_assoc. reflexivity.
Qed.

Lemma newest_run_is_listed_first_witness :
  exists run w' rest,
    runAllBenchmarks sample_host sample_config ["kylix"] sample_world = (Ok run, w') /\
    (listRuns sample_host (runs_index w')).2 = Returns /\
    (listRuns sample_host (runs_index w')).1
    = ["📋 Available Test Runs:"; ""]
      ++ listEntry sample_host 0 (entryOf (runId run) (timestamp run) run) ++ rest.
Proof.
  destruct (runAllBenchmarks_run sample_host sample_config ["kylix"] sample_world)
    as (run & w' & Hrun & Ht & _); [apply sample_host_settles|discriminate|].
  destruct (newest_run_is_listed_first sample_host sample_config ["kylix"] sample_world
              run w' sample_host Hrun) as [H1 H2].
  destruct H2 as [rest H2].
  - rewrite Ht. repeat constructor.
  - exists run, w', rest. split; [exact Hrun|]. split; [exact H1|exact H2].
Defined.

(** ** The configuration *)

(** X21. The configuration loads exactly when [targets.json]
    parses to an object whose member [targets] is an object or an array;
    otherwise the program exits with code 1 after its two lines of
    diagnosis. *)
Theorem targets_file_is_accepted_iff h targetsFile :
  (forall targets,
     loadTargets h targetsFile = inr targets <->
     exists content members,
       targetsFile = Text content /\
       JSON_parse h content = Some (JObject members) /\
       obj_get "targets" members = Some targets /\
       ((exists fields, targets = JObject fields) \/ (exists items, targets = JArray items))) /\
  (forall lines how, loadTargets h targetsFile = inl (lines, how) ->
     how = Exits 1 /\
     last lines = Some "   Please ensure targets.json exists and is valid JSON.").
Proof.
  unfold loadTargets, readTargets. split.
  - intros targets. split.
    + destruct targetsFile as [|e|content]; try done.
      destruct (JSON_parse h content) as [[| | | | |members]|] eqn:E; try done.
      destruct (obj_get "targets" members) as [targets'|] eqn:Et; [|done].
      destruct targets'; simpl; rewrite ?orb_true_r; try done; intros [= Heq];
        subst targets; exists content, members; (repeat split; try done);
        by (left + right); eexists.
    + intros (content & members & Hf & Hp & Ht & Hkind). subst targetsFile.
      rewrite Hp, Ht. by destruct Hkind as [[fields ->]|[items ->]].
  - intros lines how H.
    destruct targetsFile as [|e|content]; [by injection H as <- <-..|].
    destruct (JSON_parse h content) as [[| | | | |members]|];
      try (by injection H as <- <-).
    destruct (obj_get "targets" members) as [targets'|]; [|by injection H as <- <-].
    destruct targets'; simpl in H; rewrite ?orb_true_r in H; try done;
      by injection H as <- <-.
Qed.

(** ** An artifact without lines *)

(** X22. A load test that completes over an artifact that is
    missing, unreadable or blank gives a result without error that counts
    0 requests; only the unreadable artifact is warned about. *)
Theorem empty_artifact_counts_zero h targetName targetUrl runDir w :
  exec h "k6 version" = None ->
  exec h (k6Command (outputFileOf h runDir targetName) targetUrl) = None ->
  (forall rawResults,
     file_at h (outputFileOf h runDir targetName) = Text rawResults ->
     JS.trim rawResults = "") ->
  exists l w',
    runK6Benchmark h targetName targetUrl runDir w = (Ok (Some l), w') /\
    k6_error l = None /\
    metricsFile l = Some (outputFileOf h runDir targetName) /\
    totalRequests l = Some 0%nat /\
    console w'
    = console w
      ++ [NL +:+ "📊 Running k6 load test for " +:+ targetName +:+ "...";
          "✅ k6 test completed for " +:+ targetName]
      ++ match file_at h (outputFileOf h runDir targetName) with
         | Unreadable message =>
             ["⚠️  Warning: Could not parse k6 results: " +:+ message]
         | _ => []
         end.
Proof.
  intros Hversion Hrun Hblank.
  unfold runK6Benchmark, readMetrics. fold (outputFileOf h runDir targetName).
  unfold mbind, M_bind, bind, try_catch, execSync, log, now, ret, throw.
  rewrite Hversion, Hrun. simpl.
  destruct (file_at h (outputFileOf h runDir targetName)) as [|e|raw] eqn:E; simpl.
  - eexists _, _. repeat split; try done. simpl. by rewrite <- !app_assoc.
  - eexists _, _. repeat split; try done. simpl. by rewrite <- !app_assoc.
  - rewrite (Hblank raw eq_refl). simpl.
    eexists _, _. repeat split; try done. simpl. by rewrite <- !app_assoc.
Qed.

Lemma empty_artifact_counts_zero_witness :
  exists l w',
    runK6Benchmark (host_at time_B (Unreadable "EACCES: permission denied"))
                   "kylix" (Some "http://kylix.local") "/srv/horserace/results/runs/x"
                   fresh_world
    = (Ok (Some l), w') /\
    k6_error l = None /\
    metricsFile l = Some "/srv/horserace/results/runs/x/kylix-k6-results.json" /\
    totalRequests l = Some 0%nat /\
    console w'
    = [NL +:+ "📊 Running k6 load test for kylix...";
       "✅ k6 test completed for kylix";
       "⚠️  Warning: Could not parse k6 results: EACCES: permission denied"].
Proof.
  apply (empty_artifact_counts_zero (host_at time_B (Unreadable "EACCES: permission denied"))
           "kylix" (Some "http://kylix.local") "/srv/horserace/results/runs/x"
           fresh_world).
  - reflexivity.
  - reflexivity.
  - discriminate.
Defined.

(** * Proofs: the browser probe *)

(** X23. The browser probe resolves exactly when the browser starts
    and closes; with it, a host's probe settles exactly when this holds
    for every target. *)
Theorem probe_settles_iff (b : string -> Playwright.browser) h :
  (forall targetName targetUrl,
     (exists metrics,
        Playwright.runPlaywrightBenchmark h (b targetName) targetName targetUrl = Ok metrics)
     <-> Playwright.launch (b targetName) = None /\ Playwright.close (b targetName) = None) /\
  (playwright_settles (withBrowser h b)
   <-> forall targetName,
         Playwright.launch (b targetName) = None /\ Playwright.close (b targetName) = None).
Proof.
  assert (Hone : forall targetName targetUrl,
    (exists metrics,
       Playwright.runPlaywrightBenchmark h (b targetName) targetName targetUrl = Ok metrics)
    <-> Playwright.launch (b targetName) = None /\ Playwright.close (b targetName) = None).
  { intros targetName targetUrl. unfold Playwright.runPlaywrightBenchmark.
    destruct (Playwright.launch (b targetName)); [split; [by intros [? ?]|by intros [? ?]]|].
    destruct (Playwright.close (b targetName)); [split; [by intros [? ?]|by intros [? ?]]|].
    split; [done|]. intros _. by eexists. }
  split; [done|]. unfold playwright_settles. cbn [runPlaywrightBenchmark withBrowser].
  split.
  - intros Hs targetName. apply (Hone targetName None).
    destruct (Hs targetName None "") as [r Hr].
    destruct (Playwright.runPlaywrightBenchmark _ _ _ _) as [metrics|e]; [by eexists|done].
  - intros Hb targetName targetUrl runDir.
    destruct (proj2 (Hone targetName targetUrl) (Hb targetName)) as [metrics ->].
    by eexists.
Qed.

(** X24. A probe that resolves reports an error of the page in two
    places, the field [error] and a last test named error after the tests
    recorded so far, and has then no screenshot; without an error it has
    two or three tests and the path of its screenshot. *)
Theorem captured_error_is_reported h b targetName targetUrl metrics :
  Playwright.runPlaywrightBenchmark h b targetName targetUrl = Ok metrics ->
  exists recorded,
    Playwright.name <$> recorded
      `prefix_of` ["page_load"; "dom_metrics"; "network_timing"] /\
    match Playwright.metrics_error metrics with
    | Some message =>
        Playwright.tests metrics = recorded ++ [Playwright.errorTest message] /\
        Playwright.screenshotPath metrics = None
    | None =>
        Playwright.tests metrics = recorded /\ (2 <= length recorded)%nat /\
        Playwright.screenshotPath metrics
        = Some (path_join h "results" (targetName +:+ "-screenshot.png"))
    end.
Proof.
  unfold Playwright.runPlaywrightBenchmark, Playwright.measure.
  destruct (Playwright.launch b); [done|].
  destruct (Playwright.close b); [done|].
  assert (Hnames : forall names,
            names `prefix_of` ["page_load"; "dom_metrics"; "network_timing"]
            <-> names = [] \/ names = ["page_load"] \/ names = ["page_load"; "dom_metrics"]
                \/ names = ["page_load"; "dom_metrics"; "network_timing"]).
  { intros names. split.
    - intros [k Hk]. destruct names as [|n1 [|n2 [|n3 [|n4 rest]]]]; simplify_eq/=; tauto.
    - intros [-> | [-> | [-> | ->]]]; unfold prefix; eexists; reflexivity. }
  destruct (Playwright.goto b targetUrl) as [[statusCode|]|e]; cbn;
    [|intros [= <-]; exists []; cbn; rewrite Hnames; tauto..].
  destruct (Playwright.domEntries b) as [dom|e]; cbn;
    [|intros [= <-]; eexists [_]; cbn; split; [|split; [reflexivity|done]];
      rewrite Hnames; tauto].
  destruct (Playwright.timingEntries b) as [timing|e]; cbn;
    [|intros [= <-]; eexists [_; _]; cbn; split; [|split; [reflexivity|done]];
      rewrite Hnames; tauto].
  destruct timing as [|nav timing]; cbn;
    destruct (Playwright.screenshot b _) as [e|]; cbn; intros [= <-]; cbn.
  - eexists [_; _]. cbn. split; [|split; [reflexivity|done]]. rewrite Hnames; tauto.
  - eexists [_; _]. cbn. split; [|split; [reflexivity|split; [lia|done]]].
    rewrite Hnames; tauto.
  - eexists [_; _; _]. cbn. split; [|split; [reflexivity|done]]. rewrite Hnames; tauto.
  - eexists [_; _; _]. cbn. split; [|split; [reflexivity|split; [lia|done]]].
    rewrite Hnames; tauto.
Qed.

Lemma captured_error_is_reported_witness :
  exists metrics recorded,
    Playwright.runPlaywrightBenchmark sample_host
      (sample_browser (Some "page.screenshot: Timeout 30000ms exceeded"))
      "kylix" (Some "http://kylix.local") = Ok metrics /\
    Playwright.name <$> recorded `prefix_of` ["page_load"; "dom_metrics"; "network_timing"] /\
    Playwright.tests metrics
    = recorded ++ [Playwright.errorTest "page.screenshot: Timeout 30000ms exceeded"] /\
    Playwright.screenshotPath metrics = None.
Proof.
  eexists.
  destruct (captured_error_is_reported sample_host
              (sample_browser (Some "page.screenshot: Timeout 30000ms exceeded"))
              "kylix" (Some "http://kylix.local") _ eq_refl) as (recorded & H1 & H2).
  exists recorded. split; [reflexivity|]. split; [exact H1|exact H2].
Defined.

(** X25. What a comparison reads of a probe without error, for
    the seven metrics in their order: the time around [page.goto], the
    two timings of the first navigation entry or 0 without one, and the
    four network timings, undefined without an entry. *)
Theorem timings_that_reach_the_comparison h b targetName targetUrl metrics t :
  Playwright.runPlaywrightBenchmark h b targetName targetUrl = Ok metrics ->
  Playwright.metrics_error metrics = None ->
  playwright t = Some (readMetricsOf metrics) ->
  exists dom timing,
    Playwright.domEntries b = Ok dom /\ Playwright.timingEntries b = Ok timing /\
    (fun metric => tm_playwright (extractTarget t) !! metric) <$> playwrightMetrics
    = [Some (Playwright.loadEnd b - Playwright.loadStart b)%Z;
       Some (match dom with
             | nav :: _ =>
                 Playwright.Nav.domContentLoadedEventEnd nav - Playwright.Nav.fetchStart nav
             | [] => 0
             end)%Z;
       Some (match dom with
             | nav :: _ => Playwright.Nav.domInteractive nav - Playwright.Nav.fetchStart nav
             | [] => 0
             end)%Z;
       (fun nav => Playwright.Nav.responseStart nav - Playwright.Nav.requestStart nav)%Z
         <$> head timing;
       (fun nav => Playwright.Nav.domainLookupEnd nav - Playwright.Nav.domainLookupStart nav)%Z
         <$> head timing;
       (fun nav => Playwright.Nav.connectEnd nav - Playwright.Nav.connectStart nav)%Z
         <$> head timing;
       (fun nav => Playwright.Nav.responseEnd nav - Playwright.Nav.responseStart nav)%Z
         <$> head timing].
Proof.
  unfold Playwright.runPlaywrightBenchmark, Playwright.measure.
  destruct (Playwright.launch b); [done|].
  destruct (Playwright.close b); [done|].
  destruct (Playwright.goto b targetUrl) as [[statusCode|]|e]; cbn;
    [|by intros [= <-]..].
  destruct (Playwright.domEntries b) as [dom|e]; cbn; [|by intros [= <-]].
  destruct (Playwright.timingEntries b) as [timing|e]; cbn; [|by intros [= <-]].
  intros Hm He Ht. exists dom, timing. split; [done|]. split; [done|].
  unfold extractTarget. rewrite Ht.
  destruct timing as [|nav timing]; cbn in Hm;
    destruct (Playwright.screenshot b _) as [e|]; cbn in Hm;
    injection Hm as <-; try done; clear He;
    destruct dom as [|nav' dom]; cbn; unfold extractTest, assign; cbn;
    repeat f_equal; by simplify_map_eq.
Qed.

Lemma timings_that_reach_the_comparison_witness :
  (fun metric => tm_playwright (extractTarget (probed (sample_browser None))) !! metric)
    <$> playwrightMetrics
  = [Some 198; Some 180; Some 150; Some 45; Some 2; Some 7; Some 15]%Z.
Proof.
  destruct (timings_that_reach_the_comparison sample_host (sample_browser None)
              "kylix" (Some "http://kylix.local") _ (probed (sample_browser None)) eq_refl)
    as (dom & timing & Hd & Ht & H); [reflexivity|reflexivity|].
  injection Hd as <-. injection Ht as <-. exact H.
Defined.

(** * Proofs: the earlier load probe *)

Lemma existsb_is_null parsed :
  existsb Earlier.is_null parsed = true <-> JNull ∈ parsed.
Proof.
  induction parsed as [|m parsed IH]; simpl.
  - split; [done|]. by intros ?%elem_of_nil.
  - rewrite orb_true_iff, IH, elem_of_cons. split.
    + intros [Hm|?]; [left|by right]. by destruct m.
    + intros [<-|?]; [by left|by right].
Qed.

Lemma Earlier_pointsOf_Ok h rawResults points :
  Earlier.pointsOf h rawResults = Ok points <->
  exists parsed,
    mapM (JSON_parse h) (JS.split LF (JS.trim rawResults)) = Some parsed /\
    (JNull ∉ parsed) /\ points = List.filter type_is_Point parsed.
Proof.
  unfold Earlier.pointsOf.
  destruct (mapM _ _) as [parsed|]; [|split; [done|by intros (? & ? & _)]].
  destruct (existsb Earlier.is_null parsed) eqn:E.
  - apply existsb_is_null in E. split; [done|]. by intros (? & [= <-] & ? & _).
  - split.
    + intros [= <-]. exists parsed. split; [done|]. split; [|done].
      intros Hin%existsb_is_null. by rewrite Hin in E.
    + by intros (? & [= <-] & _ & ->).
Qed.

(** The earlier probe, step by step. *)
Lemma Earlier_runK6Benchmark_run h targetName targetUrl w :
  exec h "k6 version" = None ->
  exec h (k6Command (path_join h (resultsDir h) (targetName +:+ "-k6-results.json")) targetUrl)
  = None ->
  exists l w',
    Earlier.runK6Benchmark h targetName targetUrl w = (Ok (Some l), w') /\
    match file_at h (path_join h (resultsDir h) (targetName +:+ "-k6-results.json")) with
    | Text rawResults =>
        match Earlier.pointsOf h rawResults with
        | Ok points => k6_error l = None /\ totalRequests l = Some (length points)
        | Throw e => k6_error l = Some e
        end
    | Missing => exists e, k6_error l = Some e
    | Unreadable e => k6_error l = Some e
    end.
Proof.
  intros Hversion Hrun. unfold Earlier.runK6Benchmark, Earlier.readFileSync.
  unfold mbind, M_bind, bind, try_catch, execSync, log, now, ret, throw.
  rewrite Hversion, Hrun. simpl.
  destruct (file_at h _) as [|e|raw]; simpl.
  - eexists _, _. split; [done|]. by eexists.
  - by eexists _, _.
  - destruct (Earlier.pointsOf h raw) as [points|e]; simpl; by eexists _, _.
Qed.

(** X26. In the earlier revision a completed load test gives a
    result without error exactly when the artifact is read, every line of
    it parses and no line is [null]. *)
Theorem earlier_probe_fails_on_a_bad_artifact h targetName targetUrl w :
  exec h "k6 version" = None ->
  exec h (k6Command (path_join h (resultsDir h) (targetName +:+ "-k6-results.json")) targetUrl)
  = None ->
  exists l w',
    Earlier.runK6Benchmark h targetName targetUrl w = (Ok (Some l), w') /\
    (k6_error l = None <->
     exists rawResults parsed,
       file_at h (path_join h (resultsDir h) (targetName +:+ "-k6-results.json"))
       = Text rawResults /\
       mapM (JSON_parse h) (JS.split LF (JS.trim rawResults)) = Some parsed /\
       JNull ∉ parsed).
Proof.
  intros Hversion Hrun.
  destruct (Earlier_runK6Benchmark_run h targetName targetUrl w Hversion Hrun)
    as (l & w' & Heq & Hl).
  exists l, w'. split; [done|].
  destruct (file_at h _) as [|e|raw].
  - destruct Hl as [e Hl]. rewrite Hl. split; [done|]. by intros (? & ? & ? & _).
  - rewrite Hl. split; [done|]. by intros (? & ? & ? & _).
  - destruct (Earlier.pointsOf h raw) as [points|e] eqn:E.
    + destruct Hl as [Hl _]. split; [|done]. intros _.
      apply Earlier_pointsOf_Ok in E as (parsed & ? & ? & _). by exists raw, parsed.
    + rewrite Hl. split; [done|]. intros (raw' & parsed & [= <-] & Hp & Hn).
      assert (Hok : Earlier.pointsOf h raw = Ok (List.filter type_is_Point parsed)).
      { apply Earlier_pointsOf_Ok. by exists parsed. }
      by rewrite E in Hok.
Qed.

Lemma earlier_probe_fails_on_a_bad_artifact_witness :
  exists l w',
    Earlier.runK6Benchmark sample_host "kylix" (Some "http://kylix.local") fresh_world
    = (Ok (Some l), w') /\
    (k6_error l = None <->
     exists rawResults parsed,
       file_at sample_host
         (path_join sample_host (resultsDir sample_host) ("kylix" +:+ "-k6-results.json"))
       = Text rawResults /\
       mapM (JSON_parse sample_host) (JS.split LF (JS.trim rawResults)) = Some parsed /\
       JNull ∉ parsed).
Proof.
  apply (earlier_probe_fails_on_a_bad_artifact sample_host "kylix" (Some "http://kylix.local")
           fresh_world); reflexivity.
Defined.

Lemma filter_ext_in {A} (f g : A -> bool) l :
  Forall (fun x => f x = g x) l -> List.filter f l = List.filter g l.
Proof. induction 1 as [|x l Hx _ IH]; [done|]. simpl. by rewrite Hx, IH. Qed.

Lemma filter_true {A} (f : A -> bool) l :
  Forall (fun x => f x = true) l -> List.filter f l = l.
Proof. induction 1 as [|x l Hx _ IH]; [done|]. simpl. by rewrite Hx, IH. Qed.

Lemma split_empty sep : JS.split sep "" = [""].
Proof. done. Qed.

(** The guarded reading counts what the earlier reading counted. *)
Lemma pointsOf_Earlier h rawResults points :
  (forall line, JS.trim line = "" -> JSON_parse h line = None) ->
  Earlier.pointsOf h rawResults = Ok points ->
  JS.truthy (JS.trim rawResults) = true /\ pointsOf h rawResults = points.
Proof.
  intros Hblank (parsed & Hparsed & Hnull & ->)%Earlier_pointsOf_Ok.
  apply mapM_Forall2 in Hparsed.
  assert (Hlines : Forall (fun line => JS.truthy (JS.trim line) = true)
                          (JS.split LF (JS.trim rawResults))).
  { apply Forall_forall. intros line (i & Hi)%list_elem_of_lookup.
    destruct (Forall2_lookup_l _ _ _ _ _ Hparsed Hi) as (m & _ & Hm).
    destruct (JS.trim line) eqn:E; [|done].
    by rewrite (Hblank line E) in Hm. }
  split.
  - destruct (JS.trim rawResults) eqn:E; [|done].
    rewrite split_empty in Hlines. by apply Forall_cons in Hlines as [Hl _].
  - unfold pointsOf, k6Lines. rewrite (filter_true _ _ Hlines).
    assert (Hmap : parseLine h <$> JS.split LF (JS.trim rawResults) = parsed).
    { clear Hlines Hnull. induction Hparsed as [|line m lines ms Hm _ IH]; [done|].
      rewrite fmap_cons, IH. unfold parseLine. by rewrite Hm. }
    rewrite Hmap. apply filter_ext_in, Forall_forall. intros m _.
    destruct m as [| | | | |members]; simpl; by rewrite ?andb_false_r.
Qed.

Lemma sample_parse_blank line : JS.trim line = "" -> sample_parse line = None.
Proof.
  intros H. unfold sample_parse. case_bool_decide as E; [|done].
  subst line. vm_compute in H. discriminate.
Qed.

(** X27. Whenever the earlier probe counts the
    points of an artifact, the guarded probe of [run-benchmark.js] counts
    the same number for it; the parser is one that rejects a blank line,
    as [JSON.parse] does. *)
Theorem guarded_probe_agrees_with_the_earlier_one
    h targetName targetUrl runDir rawResults w0 w l w1 :
  (forall line, JS.trim line = "" -> JSON_parse h line = None) ->
  file_at h (path_join h (resultsDir h) (targetName +:+ "-k6-results.json")) = Text rawResults ->
  Earlier.runK6Benchmark h targetName targetUrl w0 = (Ok (Some l), w1) ->
  k6_error l = None ->
  exec h (k6Command (outputFileOf h runDir targetName) targetUrl) = None ->
  file_at h (outputFileOf h runDir targetName) = Text rawResults ->
  exists l' w',
    runK6Benchmark h targetName targetUrl runDir w = (Ok (Some l'), w') /\
    k6_error l' = None /\ totalRequests l' = totalRequests l.
Proof.
  intros Hblank Hold Hearlier Hok Hrun Hnew.
  assert (Hversion : exec h "k6 version" = None).
  { revert Hearlier. unfold Earlier.runK6Benchmark.
    unfold mbind, M_bind, bind, try_catch, execSync, log, now, ret, throw.
    by destruct (exec h "k6 version"). }
  assert (Hrun0 : exec h (k6Command (path_join h (resultsDir h)
                            (targetName +:+ "-k6-results.json")) targetUrl) = None).
  { revert Hearlier Hok. unfold Earlier.runK6Benchmark.
    unfold mbind, M_bind, bind, try_catch, execSync, log, now, ret, throw.
    rewrite Hversion. simpl.
    destruct (exec h (k6Command (path_join h (resultsDir h) _) targetUrl)); [|done].
    simpl. by intros [= <- _]. }
  destruct (Earlier_runK6Benchmark_run h targetName targetUrl w0 Hversion Hrun0)
    as (l0 & w0' & Heq & Hl).
  rewrite Heq in Hearlier. injection Hearlier as -> ->.
  rewrite Hold in Hl. destruct (Earlier.pointsOf h rawResults) as [points|e] eqn:E;
    [|by rewrite Hl in Hok].
  destruct Hl as [_ Htotal].
  destruct (pointsOf_Earlier h rawResults points Hblank E) as [Htruthy Hpoints].
  destruct (runK6Benchmark_run h targetName targetUrl runDir w) as (t & w' & Hnewrun & _).
  unfold loadOutcome in Hnewrun. rewrite Hversion, Hrun, Hnew, Htruthy, Hpoints in Hnewrun.
  eexists _, w'. split; [exact Hnewrun|]. done.
Qed.

Lemma guarded_probe_agrees_with_the_earlier_one_witness :
  exists l w1 l' w',
    Earlier.runK6Benchmark (host_at time_B (Text clean_artifact))
                           "kylix" (Some "http://kylix.local") fresh_world
    = (Ok (Some l), w1) /\
    runK6Benchmark (host_at time_B (Text clean_artifact))
                   "kylix" (Some "http://kylix.local") "/srv/horserace/results/runs/x" fresh_world
    = (Ok (Some l'), w') /\
    k6_error l' = None /\ totalRequests l' = totalRequests l.
Proof.
  destruct (Earlier_runK6Benchmark_run (host_at time_B (Text clean_artifact))
              "kylix" (Some "http://kylix.local") fresh_world eq_refl eq_refl)
    as (l & w1 & Hearlier & Hl).
  assert (Hok : k6_error l = None).
  { change (match Earlier.pointsOf (host_at time_B (Text clean_artifact)) clean_artifact with
            | Ok points => k6_error l = None /\ totalRequests l = Some (length points)
            | Throw e => k6_error l = Some e
            end) in Hl.
    vm_compute in Hl. apply Hl. }
  destruct (guarded_probe_agrees_with_the_earlier_one
              (host_at time_B (Text clean_artifact)) "kylix" (Some "http://kylix.local")
              "/srv/horserace/results/runs/x" clean_artifact fresh_world fresh_world l w1)
    as (l' & w' & H1 & H2 & H3); try reflexivity; try done.
  - apply sample_parse_blank.
  - exists l, w1, l', w'. split; [exact Hearlier|]. split; [exact H1|].
    split; [exact H2|exact H3].
Defined.

(** * Proofs: the summary of a probe *)



(** * Proofs: names that the configuration inherits *)

Lemma lookupTarget_inherited config member :
  obj_get member config = None -> member ∈ prototype_members ->
  lookupTarget config member
  = Some {| name := Some (if decide (member = "constructor") then "Object" else member);
            config_url := None |}.
Proof.
  intros Hnone Hin. unfold lookupTarget, inheritedTarget. rewrite Hnone.
  destruct (decide (member = "__proto__")) as [->|_].
  { exfalso. revert Hin. apply (bool_decide_unpack _). by vm_compute. }
  destruct (decide (member = "constructor")); [done|].
  by rewrite bool_decide_eq_true_2.
Qed.

(** X30. A selected name that the configuration has no member of is
    benchmarked all the same when it is the name of a member of
    [Object.prototype]: the lookup of line 121 finds the inherited
    function, whose [url] is [undefined].  The probes are called with that
    URL, and the run is stored with a record of the name. *)
Theorem inherited_name_is_benchmarked h config member w :
  playwright_settles h -> runs_index w <> OtherJson ->
  member ∈ prototype_members -> obj_get member config = None ->
  exists run w' p t,
    runAllBenchmarks h config [member] w = (Ok run, w') /\
    runPlaywrightBenchmark h member None (path_join h (runsDir h) (runId run)) = Ok p /\
    targets run
    = [{| target := member; url := None; playwright := Some p;
          k6 := loadOutcome h member None (path_join h (runsDir h) (runId run)) t |}] /\
    run_files w' !! runId run = Some (Stored run) /\
    has_target (run_files w') member (runId run).
Proof.
  intros Hp Hw Hin Hnone. rewrite runAllBenchmarks_steps. cbv zeta.
  set (t := time_at h (clock w)). set (id := runId_text t).
  set (runDir := path_join h (runsDir h) id).
  cbn [benchmarkTargets]. rewrite (lookupTarget_inherited _ _ Hnone Hin).
  cbn [config_url name].
  destruct (Hp member None runDir) as [p Hprobe].
  unfold mbind, M_bind, bind. rewrite Hprobe. cbn [log await ret].
  match goal with
  | |- context [runK6Benchmark h member None runDir ?w0] =>
      destruct (runK6Benchmark_run h member None runDir w0)
        as (t0 & w1 & -> & Hi & Hr)
  end.
  cbn [log ret app clock console runs_index run_files]. simpl in Hi, Hr.
  rewrite updateRunsIndex_run by (simpl; congruence).
  match goal with
  | |- context [generateSummary h ?r runDir ?w3] =>
      destruct (never_throws_generateSummary h r runDir w3) as [lines Hlines];
      destruct (keeps_files_generateSummary h r runDir w3) as [_ Hfiles];
      destruct (generateSummary h r runDir w3) as [r' w4];
      set (run := r) in *
  end.
  simpl in Hlines, Hfiles. subst r'.
  exists run, w4, p, t0. split; [done|]. split; [done|]. split; [done|].
  assert (Hstored : run_files w4 !! runId run = Some (Stored run)).
  { rewrite Hfiles. by rewrite lookup_insert_eq. }
  split; [done|]. exists run. split; [done|]. split.
  - intros ->. revert Hin. apply (bool_decide_unpack _). by vm_compute.
  - simpl. by left.
Qed.

Lemma inherited_name_is_benchmarked_witness :
  exists run w' p t,
    runAllBenchmarks earlier_host sample_config ["constructor"] fresh_world = (Ok run, w') /\
    runPlaywrightBenchmark earlier_host "constructor" None
      (path_join earlier_host (runsDir earlier_host) (runId run)) = Ok p /\
    targets run
    = [{| target := "constructor"; url := None; playwright := Some p;
          k6 := loadOutcome earlier_host "constructor" None
                  (path_join earlier_host (runsDir earlier_host) (runId run)) t |}] /\
    run_files w' !! runId run = Some (Stored run) /\
    has_target (run_files w') "constructor" (runId run).
Proof.
  apply (inherited_name_is_benchmarked earlier_host sample_config "constructor" fresh_world).
  - intros ? ? ?. eexists. reflexivity.
  - discriminate.
  - apply list_elem_of_In. simpl. tauto.
  - reflexivity.
Defined.
